(** * Inventory API: low-stock alerting

    A shallow embedding of the stock classification of
    [internal/models] (Product, ProductAlert, IsLowStock, GetStockStatus,
    ToResponse, GenerateAlert) and of the fan-out/fan-in alert generator
    [ProductService.GenerateAlertsWithConcurrency] of [internal/services].

    Go's [int] and [uint] are 64-bit machine integers.  The code under study
    only compares and copies them, so they are embedded as [Z] and [N]
    without any wrap-around to write out.  A [time.Time] is embedded as the
    number of nanoseconds since the epoch, a [float64] as a primitive
    float. *)

From Stdlib Require Import ZArith NArith String Floats.PrimFloat.
From stdpp Require Import base tactics option list relations gmap strings.
From Stdlib Require DecimalString Uint63.

Local Open Scope string_scope.
Local Open Scope Z_scope.

(** ** internal/models *)

Module models.

Definition Time := Z.

(** [type Product struct]; [DeletedAt] is a nullable pointer. *)
Record Product := mkProduct {
  ID : N;
  Name : string;
  Description : string;
  Quantity : Z;
  Price : float;
  Category : string;
  CreatedAt : Time;
  UpdatedAt : Time;
  DeletedAt : option Time
}.

(** [type ProductResponse struct] *)
Record ProductResponse := mkProductResponse {
  resp_ID : N;
  resp_Name : string;
  resp_Description : string;
  resp_Quantity : Z;
  resp_Price : float;
  resp_Category : string;
  resp_CreatedAt : Time;
  resp_UpdatedAt : Time;
  StockStatus : string
}.

(** [type ProductAlert struct] *)
Record ProductAlert := mkProductAlert {
  ProductID : N;
  alert_Name : string;
  alert_Category : string;
  alert_Quantity : Z;
  Threshold : Z;
  Severity : string;
  Message : string;
  GeneratedAt : Time
}.

(** [func (p *Product) IsLowStock(threshold int) bool] *)
Definition IsLowStock (p : Product) (threshold : Z) : bool :=
  Quantity p <? threshold.

(** [func (p *Product) GetStockStatus(lowThreshold, criticalThreshold int) string]:
    a [switch] whose cases are tried from top to bottom. *)
Definition GetStockStatus (p : Product) (lowThreshold criticalThreshold : Z) : string :=
  if Quantity p =? 0 then "out_of_stock"
  else if Quantity p <=? criticalThreshold then "critical"
  else if Quantity p <=? lowThreshold then "low"
  else "normal".

(** [func (p *Product) ToResponse() ProductResponse] *)
Definition ToResponse (p : Product) : ProductResponse :=
  {| resp_ID := ID p;
     resp_Name := Name p;
     resp_Description := Description p;
     resp_Quantity := Quantity p;
     resp_Price := Price p;
     resp_Category := Category p;
     resp_CreatedAt := CreatedAt p;
     resp_UpdatedAt := UpdatedAt p;
     StockStatus := GetStockStatus p 5 2 |}.

(** [func (p *Product) GenerateAlert(threshold int) *ProductAlert].
    The nil pointer is [None].  The one effect of the function is the
    reading of the wall clock by [time.Now()]; the value read is the
    argument [now]. *)
Definition GenerateAlert (p : Product) (threshold : Z) (now : Time)
  : option ProductAlert :=
  if negb (IsLowStock p threshold) then None
  else
    let '(severity, message) :=
      if Quantity p =? 0 then ("critical", "Product out of stock")
      else if Quantity p <=? 2 then ("high", "Critical stock level")
      else ("low", "Stock below threshold") in
    Some {| ProductID := ID p;
            alert_Name := Name p;
            alert_Category := Category p;
            alert_Quantity := Quantity p;
            Threshold := threshold;
            Severity := severity;
            Message := message;
            GeneratedAt := now |}.

(** An alert with its timestamp erased: what two alerts share when they are
    equal in every field except [GeneratedAt]. *)
Definition untimed (a : ProductAlert) : ProductAlert :=
  {| ProductID := ProductID a;
     alert_Name := alert_Name a;
     alert_Category := alert_Category a;
     alert_Quantity := alert_Quantity a;
     Threshold := Threshold a;
     Severity := Severity a;
     Message := Message a;
     GeneratedAt := 0 |}.

End models.

(** ** internal/services *)

Module services.
Import models.

(** Go [error] values, as far as the generator builds them: an error of the
    storage collaborator, and [fmt.Errorf(context + ": %w", cause)]. *)
Inductive error :=
| StoreError (msg : string)
| Errorf (context : string) (cause : error).

(** [func (e) Error() string] *)
Fixpoint Error (e : error) : string :=
  match e with
  | StoreError msg => msg
  | Errorf context cause => (context ++ ": " ++ Error cause)%string
  end.

(** What [ps.db.Find(&products)] leaves behind: an error, or the slice of
    products it filled in. *)
Inductive FindResult :=
| FindError (err : error)
| FindOk (products : list Product).

(** *** The goroutines of [GenerateAlertsWithConcurrency]

    The function starts one goroutine per product and one that closes the
    channel, and then drains the channel itself.  Each of them is a small
    sequential program; its program counter says which statement comes next. *)

(** [go func(p models.Product) { defer wg.Done(); time.Sleep(..);
        if alert := p.GenerateAlert(threshold); alert != nil { alertsChan <- alert } }(product)] *)
Inductive worker_pc :=
| WSleep                          (* in [time.Sleep], [GenerateAlert] comes next *)
| WSend (alert : ProductAlert)    (* [alert != nil]; [alertsChan <- alert] comes next *)
| WDefer                          (* body done; the deferred [wg.Done()] comes next *)
| WExit.                          (* goroutine finished *)

(** A worker owns the copy [p] of its product. *)
Record worker := mkWorker { w_p : Product; w_pc : worker_pc }.

(** [go func() { wg.Wait(); close(alertsChan) }()] *)
Inductive closer_pc :=
| CNone      (* not started yet *)
| CWait      (* in [wg.Wait()] *)
| CClose     (* [close(alertsChan)] comes next *)
| CExit.     (* goroutine finished *)

(** The calling goroutine, after the fetch. *)
Inductive main_pc :=
| MLoop (i : nat)   (* head of [for _, product := range products], at index [i] *)
| MGo (i : nat)     (* [wg.Add(1)] done for index [i]; the [go] statement comes next *)
| MRange            (* in [for alert := range alertsChan] *)
| MReturn.          (* at [return alerts, nil] *)

(** The shared store and the three kinds of goroutine.  [evaluated] is a
    ghost log: the index of a worker is appended when it calls
    [GenerateAlert]. *)
Record state := mkState {
  main : main_pc;
  workers : list worker;
  closer : closer_pc;
  wg : Z;                            (* counter of the [sync.WaitGroup] *)
  chan_buf : list ProductAlert;      (* buffer of [alertsChan], oldest first *)
  chan_closed : bool;
  alerts : list ProductAlert;        (* [var alerts []models.ProductAlert] *)
  evaluated : list nat;
  panicked : bool
}.

(** One scheduling decision: which goroutine runs its next statement.  A
    worker that reaches [GenerateAlert] reads the clock; [now] is what it
    reads. *)
Inductive action :=
| RunMain
| RunWorker (i : nat) (now : Time)
| RunCloser.

Section generator.

(** The locals [threshold] (after normalisation) and [products] (after the
    fetch) are not assigned again. *)
Variable threshold : Z.
Variable products : list Product.

(** [alertsChan := make(chan *models.ProductAlert, len(products))];
    [var wg sync.WaitGroup]; [var alerts []models.ProductAlert]. *)
Definition init : state :=
  {| main := MLoop 0; workers := []; closer := CNone; wg := 0;
     chan_buf := []; chan_closed := false; alerts := [];
     evaluated := []; panicked := false |}.

Definition set_worker (s : state) (i : nat) (w : worker) : list worker :=
  <[i := w]> (workers s).

(** The next statement of the calling goroutine.  [None]: it is blocked (the
    channel is empty and still open) or has returned. *)
Definition step_main (s : state) : option state :=
  match main s with
  | MLoop i =>
      match products !! i with
      | Some _ =>   (* wg.Add(1) *)
          Some {| main := MGo i; workers := workers s; closer := closer s;
                  wg := wg s + 1;
                  chan_buf := chan_buf s; chan_closed := chan_closed s;
                  alerts := alerts s; evaluated := evaluated s;
                  panicked := panicked s |}
      | None =>     (* loop over; go func() { wg.Wait(); close(alertsChan) }() *)
          Some {| main := MRange; workers := workers s; closer := CWait;
                  wg := wg s;
                  chan_buf := chan_buf s; chan_closed := chan_closed s;
                  alerts := alerts s; evaluated := evaluated s;
                  panicked := panicked s |}
      end
  | MGo i =>
      match products !! i with
      | Some product =>   (* go func(p models.Product) {...}(product) *)
          Some {| main := MLoop (S i);
                  workers := workers s ++ [mkWorker product WSleep];
                  closer := closer s; wg := wg s;
                  chan_buf := chan_buf s; chan_closed := chan_closed s;
                  alerts := alerts s; evaluated := evaluated s;
                  panicked := panicked s |}
      | None => None
      end
  | MRange =>
      match chan_buf s with
      | alert :: buf =>   (* alerts = append(alerts, *alert) *)
          Some {| main := MRange; workers := workers s; closer := closer s;
                  wg := wg s;
                  chan_buf := buf; chan_closed := chan_closed s;
                  alerts := alerts s ++ [alert]; evaluated := evaluated s;
                  panicked := panicked s |}
      | [] =>
          if chan_closed s then   (* the range loop ends *)
            Some {| main := MReturn; workers := workers s; closer := closer s;
                    wg := wg s;
                    chan_buf := chan_buf s; chan_closed := chan_closed s;
                    alerts := alerts s; evaluated := evaluated s;
                    panicked := panicked s |}
          else None
      end
  | MReturn => None
  end.

(** The next statement of worker [i].  A send on a closed channel and a
    negative WaitGroup counter panic; a send on a full open channel blocks. *)
Definition step_worker (i : nat) (now : Time) (s : state) : option state :=
  match workers s !! i with
  | None => None
  | Some w =>
      match w_pc w with
      | WSleep =>   (* if alert := p.GenerateAlert(threshold); alert != nil *)
          let pc := match GenerateAlert (w_p w) threshold now with
                    | Some alert => WSend alert
                    | None => WDefer
                    end in
          Some {| main := main s;
                  workers := set_worker s i (mkWorker (w_p w) pc);
                  closer := closer s; wg := wg s;
                  chan_buf := chan_buf s; chan_closed := chan_closed s;
                  alerts := alerts s; evaluated := evaluated s ++ [i];
                  panicked := panicked s |}
      | WSend alert =>   (* alertsChan <- alert *)
          if chan_closed s then
            Some {| main := main s;
                    workers := set_worker s i (mkWorker (w_p w) WExit);
                    closer := closer s; wg := wg s;
                    chan_buf := chan_buf s; chan_closed := chan_closed s;
                    alerts := alerts s; evaluated := evaluated s;
                    panicked := true |}
          else if (length (chan_buf s) <? length products)%nat then
            Some {| main := main s;
                    workers := set_worker s i (mkWorker (w_p w) WDefer);
                    closer := closer s; wg := wg s;
                    chan_buf := chan_buf s ++ [alert];
                    chan_closed := chan_closed s;
                    alerts := alerts s; evaluated := evaluated s;
                    panicked := panicked s |}
          else None
      | WDefer =>   (* wg.Done() *)
          Some {| main := main s;
                  workers := set_worker s i (mkWorker (w_p w) WExit);
                  closer := closer s; wg := wg s - 1;
                  chan_buf := chan_buf s; chan_closed := chan_closed s;
                  alerts := alerts s; evaluated := evaluated s;
                  panicked := panicked s || (wg s - 1 <? 0) |}
      | WExit => None
      end
  end.

(** The next statement of the closing goroutine.  [wg.Wait()] blocks until
    the counter is zero; closing a closed channel panics. *)
Definition step_closer (s : state) : option state :=
  match closer s with
  | CNone => None
  | CWait =>
      if wg s =? 0 then
        Some {| main := main s; workers := workers s; closer := CClose;
                wg := wg s;
                chan_buf := chan_buf s; chan_closed := chan_closed s;
                alerts := alerts s; evaluated := evaluated s;
                panicked := panicked s |}
      else None
  | CClose =>
      Some {| main := main s; workers := workers s; closer := CExit;
              wg := wg s;
              chan_buf := chan_buf s; chan_closed := true;
              alerts := alerts s; evaluated := evaluated s;
              panicked := panicked s || chan_closed s |}
  | CExit => None
  end.

(** One step of the program under a scheduling decision.  A panic stops
    every goroutine. *)
Definition step (a : action) (s : state) : option state :=
  if panicked s then None
  else match a with
       | RunMain => step_main s
       | RunWorker i now => step_worker i now s
       | RunCloser => step_closer s
       end.

(** Running a schedule; a decision for a goroutine that cannot move is
    skipped. *)
Fixpoint exec (sched : list action) (s : state) : state :=
  match sched with
  | [] => s
  | a :: sched' => exec sched' (default s (step a s))
  end.

(** The interleaving semantics as a relation. *)
Definition step_rel (s s' : state) : Prop := ∃ a, step a s = Some s'.

Definition reachable (s : state) : Prop := rtc step_rel init s.

End generator.

(** What a call has come to under a schedule. *)
Inductive run_result :=
| Failed (err : error)     (* [return nil, fmt.Errorf(...)] *)
| Ran (s : state).         (* the goroutines have run as scheduled *)

(** [func (ps *ProductService) GenerateAlertsWithConcurrency(threshold int)],
    from entry to the state a schedule leads to.  [find] is the outcome of
    [ps.db.Find(&products)]. *)
Definition run (threshold : Z) (find : FindResult) (sched : list action)
  : run_result :=
  let threshold := if threshold <=? 0 then 5 else threshold in
  match find with
  | FindError err => Failed (Errorf "failed to fetch products" err)
  | FindOk products => Ran (exec threshold products sched init)
  end.

(** The pair [([]models.ProductAlert, error)] the call returns, if it has
    returned.  The nil slice is the empty list. *)
Definition returned (r : run_result)
  : option (list ProductAlert * option error) :=
  match r with
  | Failed err => Some ([], Some err)
  | Ran s =>
      match main s with
      | MReturn => Some (alerts s, None)
      | _ => None
      end
  end.

Definition GenerateAlertsWithConcurrency (threshold : Z) (find : FindResult)
    (sched : list action) : option (list ProductAlert * option error) :=
  returned (run threshold find sched).

(** The ghost log of a run: the indices of the products evaluated so far. *)
Definition evaluations (r : run_result) : list nat :=
  match r with
  | Failed _ => []
  | Ran s => evaluated s
  end.

Definition has_panicked (r : run_result) : bool :=
  match r with
  | Failed _ => false
  | Ran s => panicked s
  end.

(** A schedule that runs the goroutines one after the other: the caller up
    to the range loop, every worker to its end, the closer, and the caller
    again.  Every worker reads the clock value [now]. *)
Definition sequential (n : nat) (now : Time) : list action :=
  replicate (2 * n + 1) RunMain
  ++ mjoin ((λ i, replicate 3 (RunWorker i now)) <$> seq 0 n)
  ++ replicate 2 RunCloser
  ++ replicate (S n) RunMain.

(** The result the generator computes when evaluation is done in snapshot
    order at clock value [now]. *)
Definition alerts_of (threshold : Z) (products : list Product) (now : Time)
  : list ProductAlert :=
  omap (λ p, GenerateAlert p threshold now) products.

End services.

(** ** scripts/seed *)

Module seed.
Import models.

Local Open Scope float_scope.

(** A literal [models.Product{Name: .., Description: .., Quantity: ..,
    Price: .., Category: ..}]: the other fields hold their zero values. *)
Definition product (name description : string) (quantity : Z) (price : float)
    (category : string) : Product :=
  {| ID := 0; Name := name; Description := description;
     Quantity := quantity; Price := price; Category := category;
     CreatedAt := 0%Z; UpdatedAt := 0%Z; DeletedAt := None |}.

(** [products := []models.Product{...}] of [main].  A decimal literal
    stands for the nearest [float64], in Go as here. *)
#[local] Set Warnings "-inexact-float".

Definition products : list Product :=
  [ product "Laptop Dell XPS 13"
      "Laptop ultradelgada de 13 pulgadas con procesador Intel Core i7"
      15 1299.99 "Electronics";
    product "iPhone 14 Pro"
      "Smartphone Apple con cámara profesional de 48MP"
      8 1099.99 "Electronics";
    product "Escritorio de Oficina"
      "Escritorio ergonómico de madera con cajones"
      25 299.99 "Furniture";
    product "Silla Ejecutiva"
      "Silla ergonómica con soporte lumbar y reposabrazos"
      12 199.99 "Furniture";
    product "Monitor 4K Samsung"
      "Monitor de 27 pulgadas con resolución 4K UHD"
      20 399.99 "Electronics";
    product "Teclado Mecánico"
      "Teclado mecánico RGB para gaming con switches Cherry MX"
      30 129.99 "Electronics";
    product "Mouse Inalámbrico"
      "Mouse ergonómico inalámbrico con sensor óptico"
      45 59.99 "Electronics";
    product "Lámpara LED"
      "Lámpara de escritorio LED con control táctil"
      18 79.99 "Lighting";
    product "Cafetera Automática"
      "Cafetera programable con molinillo integrado"
      10 249.99 "Appliances";
    product "Auriculares Bluetooth"
      "Auriculares inalámbricos con cancelación de ruido"
      35 199.99 "Electronics";
    product "Tablet iPad Pro"
      "Tablet profesional con pantalla Liquid Retina"
      3 799.99 "Electronics";
    product "Impresora Láser"
      "Impresora láser multifunción para oficina"
      2 349.99 "Office Equipment";
    product "Webcam HD"
      "Cámara web Full HD para videoconferencias"
      4 89.99 "Electronics";
    product "Disco Duro SSD"
      "Disco sólido de 1TB con interfaz SATA III"
      1 149.99 "Electronics";
    product "Router WiFi 6"
      "Router inalámbrico de alta velocidad WiFi 6"
      0 179.99 "Electronics" ].

(** [database.Create(&product)] in a loop: the store gives each row its
    primary key and its timestamps.  In a fresh database the keys are
    1, 2, ... in insertion order; [t] is the time of the insertion. *)
Definition created (t : Time) (i : nat) (p : Product) : Product :=
  {| ID := N.of_nat (S i); Name := Name p; Description := Description p;
     Quantity := Quantity p; Price := Price p; Category := Category p;
     CreatedAt := t; UpdatedAt := t; DeletedAt := None |}.

(** The product table after seeding, as a later [Find] reads it. *)
Definition snapshot (t : Time) : list Product := imap (created t) products.

End seed.

(** ** Invariant and termination measure of the generator *)

Module generator.
Import models services.

(** A worker that has not finished still owes its [wg.Done()]. *)
Definition alive (w : worker) : nat :=
  match w_pc w with WExit => 0%nat | _ => 1%nat end.

Definition asleep (w : worker) : bool :=
  match w_pc w with WSleep => true | _ => false end.

(** The alert a worker holds between [GenerateAlert] and its send. *)
Definition sending (w : worker) : option ProductAlert :=
  match w_pc w with WSend alert => Some alert | _ => None end.

Definition live (ws : list worker) : nat := sum_list_with alive ws.

Definition in_flight (ws : list worker) : list ProductAlert := omap sending ws.

(** Every alert made so far: collected, buffered in the channel, or still
    in the hands of its worker. *)
Definition published (s : state) : list ProductAlert :=
  alerts s ++ chan_buf s ++ in_flight (workers s).

(** Steps a goroutine has left, counted generously. *)
Definition worker_weight (w : worker) : nat :=
  match w_pc w with
  | WSleep => 4 | WSend _ => 3 | WDefer => 1 | WExit => 0
  end%nat.

Definition closer_weight (c : closer_pc) : nat :=
  match c with CNone | CWait => 2 | CClose => 1 | CExit => 0 end%nat.

Definition main_weight (n : nat) (m : main_pc) : nat :=
  match m with
  | MLoop i => 6 * (n - i) + 4
  | MGo i => 6 * (n - i) + 3
  | MRange => 1
  | MReturn => 0
  end%nat.

Section invariant.

Variable threshold : Z.
Variable products : list Product.

(** The evaluation of the product at index [i], timestamp erased. *)
Definition evaluate_at (i : nat) : option ProductAlert :=
  products !! i ≫= λ p, GenerateAlert p threshold 0.

(** The alert is the evaluation of a product of the snapshot. *)
Definition from_snapshot (a : ProductAlert) : Prop :=
  ∃ p now, p ∈ products ∧ GenerateAlert p threshold now = Some a.

(** The WaitGroup counter is the number of unfinished workers, plus one
    between [wg.Add(1)] and the [go] statement; the closer exists exactly
    when the loop is over. *)
Definition main_inv (s : state) : Prop :=
  match main s with
  | MLoop i =>
      length (workers s) = i ∧ closer s = CNone ∧
      wg s = Z.of_nat (live (workers s))
  | MGo i =>
      length (workers s) = i ∧ closer s = CNone ∧
      wg s = Z.of_nat (live (workers s)) + 1 ∧ (i < length products)%nat
  | MRange =>
      length (workers s) = length products ∧ closer s ≠ CNone ∧
      wg s = Z.of_nat (live (workers s))
  | MReturn =>
      length (workers s) = length products ∧ closer s ≠ CNone ∧
      wg s = Z.of_nat (live (workers s)) ∧
      chan_buf s = [] ∧ chan_closed s = true
  end.

(** The channel is closed only by the closer, and only after every worker
    has finished. *)
Definition closer_inv (s : state) : Prop :=
  match closer s with
  | CNone | CWait => chan_closed s = false
  | CClose => chan_closed s = false ∧ live (workers s) = 0%nat
  | CExit => chan_closed s = true ∧ live (workers s) = 0%nat
  end.

Record inv (s : state) : Prop := mkInv {
  inv_panicked : panicked s = false;
  inv_products : ∀ i w, workers s !! i = Some w → products !! i = Some (w_p w);
  inv_main : main_inv s;
  inv_closer : closer_inv s;
  inv_nodup : NoDup (evaluated s);
  inv_evaluated :
    ∀ i, i ∈ evaluated s ↔ ∃ w, workers s !! i = Some w ∧ asleep w = false;
  inv_published : untimed <$> published s ≡ₚ omap evaluate_at (evaluated s);
  inv_origin : Forall from_snapshot (published s)
}.

Definition measure (s : state) : nat :=
  (main_weight (length products) (main s)
   + sum_list_with worker_weight (workers s)
   + closer_weight (closer s)
   + length (chan_buf s))%nat.

End invariant.

End generator.

(** ** Schedules used to run the generator on examples *)

Module schedules.
Import models services.

(** Like [sequential], but the workers run from the last to the first.
    Every worker reads the clock value [now]. *)
Definition reversed (n : nat) (now : Time) : list action :=
  replicate (2 * n + 1) RunMain
  ++ mjoin ((λ i, replicate 3 (RunWorker i now)) <$> reverse (seq 0 n))
  ++ replicate 2 RunCloser
  ++ replicate (S n) RunMain.

End schedules.

(** ** Go error values of the CRUD and authentication paths

    [ErrRecordNotFound] is the sentinel [gorm.ErrRecordNotFound]; [Opaque]
    is any other error value a collaborator (the store, bcrypt, the JWT
    library, echo) hands back; [New] is [errors.New(msg)], and also
    [fmt.Errorf(msg)] without a wrapped cause; [Errorf] is
    [fmt.Errorf(context + ": %w", cause)]. *)

Module errors.

Inductive error :=
| ErrRecordNotFound
| Opaque (msg : string)
| New (msg : string)
| Errorf (context : string) (cause : error).

(** [func (e) Error() string] *)
Fixpoint Error (err : error) : string :=
  match err with
  | ErrRecordNotFound => "record not found"
  | Opaque msg => msg
  | New msg => msg
  | Errorf context cause => (context ++ ": " ++ Error cause)%string
  end.

(** [errors.Is(err, gorm.ErrRecordNotFound)]: the sentinel is looked for
    along the chain of wrapped errors. *)
Fixpoint IsRecordNotFound (err : error) : bool :=
  match err with
  | ErrRecordNotFound => true
  | Errorf _ cause => IsRecordNotFound cause
  | Opaque _ | New _ => false
  end.

(** A Go pair [(value, error)] of which exactly one part is set. *)
Inductive result (A : Type) :=
| Ok (a : A)
| Err (err : error).

Arguments Ok {A} a.
Arguments Err {A} err.

(** The error of a store statement that produces no value. *)
Definition failure {A} (r : result A) : option error :=
  match r with Ok _ => None | Err err => Some err end.

End errors.

(** ** internal/models: requests, summaries and users *)

Module requests.
Import models errors.

(** [type ProductRequest struct] *)
Record ProductRequest := mkProductRequest {
  req_Name : string;
  req_Description : string;
  req_Quantity : Z;
  req_Price : float;
  req_Category : string
}.

(** [type ProductSummary struct] *)
Record ProductSummary := mkProductSummary {
  sum_ID : N;
  sum_Name : string;
  sum_Quantity : Z;
  sum_Price : float;
  sum_Category : string
}.

(** [func (p *Product) ToSummary() ProductSummary] *)
Definition ToSummary (p : Product) : ProductSummary :=
  {| sum_ID := ID p; sum_Name := Name p; sum_Quantity := Quantity p;
     sum_Price := Price p; sum_Category := Category p |}.

(** [type User struct] *)
Record User := mkUser {
  user_ID : N;
  user_Email : string;
  user_Password : string;
  user_CreatedAt : Time;
  user_UpdatedAt : Time
}.

(** [type UserRequest struct] *)
Record UserRequest := mkUserRequest {
  ureq_Email : string;
  ureq_Password : string
}.

(** [type UserResponse struct] *)
Record UserResponse := mkUserResponse {
  uresp_ID : N;
  uresp_Email : string;
  uresp_CreatedAt : Time
}.

(** The two functions of [golang.org/x/crypto/bcrypt] the model calls:
    [GenerateFromPassword(password, DefaultCost)] and
    [CompareHashAndPassword(hash, password)]. *)
Record bcrypt := mkBcrypt {
  GenerateFromPassword : string → result string;
  CompareHashAndPassword : string → string → option error
}.

(** [func (u *User) BeforeCreate(tx *gorm.DB) error]: the user as the hook
    leaves it, or the error of the hook. *)
Definition BeforeCreate (b : bcrypt) (u : User) : result User :=
  if String.eqb (user_Password u) "" then Ok u
  else match GenerateFromPassword b (user_Password u) with
       | Err err => Err err
       | Ok hashedPassword =>
           Ok {| user_ID := user_ID u; user_Email := user_Email u;
                 user_Password := hashedPassword;
                 user_CreatedAt := user_CreatedAt u;
                 user_UpdatedAt := user_UpdatedAt u |}
       end.

(** [func (u *User) CheckPassword(password string) bool] *)
Definition CheckPassword (b : bcrypt) (u : User) (password : string) : bool :=
  match CompareHashAndPassword b (user_Password u) password with
  | None => true
  | Some _ => false
  end.

(** [func (u *User) ToResponse() UserResponse] *)
Definition user_ToResponse (u : User) : UserResponse :=
  {| uresp_ID := user_ID u; uresp_Email := user_Email u;
     uresp_CreatedAt := user_CreatedAt u |}.

End requests.

(** ** internal/services: the product service

    The store is a collaborator.  [DB] holds its answer to every statement
    the service can issue: the error of the statement, or what the statement
    leaves in its destination.  [Create] and [Save] answer with the product
    as the store leaves it in the caller's variable (keys and timestamps
    set). *)

Module product_service.
Import models errors requests.

(** The values of the map [GetInventoryStats] returns. *)
Inductive stat :=
| SInt (n : Z)
| SFloat (f : float)
| SStrings (l : list string).

Record DB := mkDB {
  (* db.Create(&product) *)
  Create : Product → result Product;
  (* db.Find(&products) *)
  Find : result (list Product);
  (* db.First(&product, id) *)
  First : N → result Product;
  (* db.Save(&product) *)
  Save : Product → result Product;
  (* db.Delete(&product) *)
  Delete : Product → option error;
  (* db.Where("quantity < ?", threshold).Find(&products) *)
  FindWhereQuantityLt : Z → result (list Product);
  (* db.Where("category = ?", category).Find(&products) *)
  FindWhereCategory : string → result (list Product);
  (* db.Where("name ILIKE ? OR description ILIKE ?", p, p).Find(&products) *)
  FindWhereILike : string → result (list Product);
  (* db.Model(&models.Product{}).Count(&n) *)
  Count : result Z;
  (* db.Model(&models.Product{}).Select("SUM(price * quantity)").Scan(&v) *)
  ScanSumValue : result float;
  (* db.Model(&models.Product{}).Where("quantity < ?", n).Count(&n) *)
  CountWhereQuantityLt : Z → result Z;
  (* db.Model(&models.Product{}).Where("quantity = 0").Count(&n) *)
  CountWhereQuantityZero : result Z;
  (* db.Model(&models.Product{}).Distinct("category").Pluck("category", &l) *)
  PluckDistinctCategory : result (list string)
}.

(** [for _, product := range products
       { responses = append(responses, product.ToResponse()) }] *)
Definition responses_of (products : list Product) : list ProductResponse :=
  ToResponse <$> products.

(** [func (ps *ProductService) CreateProduct(req models.ProductRequest)] *)
Definition CreateProduct (db : DB) (req : ProductRequest)
  : result ProductResponse :=
  let product :=
    {| ID := 0; Name := req_Name req; Description := req_Description req;
       Quantity := req_Quantity req; Price := req_Price req;
       Category := req_Category req;
       CreatedAt := 0; UpdatedAt := 0; DeletedAt := None |} in
  match Create db product with
  | Err err => Err (Errorf "failed to create product" err)
  | Ok product => Ok (ToResponse product)
  end.

(** [func (ps *ProductService) GetAllProducts()] *)
Definition GetAllProducts (db : DB) : result (list ProductResponse) :=
  match Find db with
  | Err err => Err (Errorf "failed to fetch products" err)
  | Ok products => Ok (responses_of products)
  end.

(** [func (ps *ProductService) GetProductByID(id uint)] *)
Definition GetProductByID (db : DB) (id : N) : result ProductResponse :=
  match First db id with
  | Err err =>
      if IsRecordNotFound err then Err (New "product not found")
      else Err (Errorf "failed to fetch product" err)
  | Ok product => Ok (ToResponse product)
  end.

(** [func (ps *ProductService) UpdateProduct(id uint, req models.ProductRequest)] *)
Definition UpdateProduct (db : DB) (id : N) (req : ProductRequest)
  : result ProductResponse :=
  match First db id with
  | Err err =>
      if IsRecordNotFound err then Err (New "product not found")
      else Err (Errorf "failed to fetch product" err)
  | Ok product =>
      let product :=
        {| ID := ID product; Name := req_Name req;
           Description := req_Description req;
           Quantity := req_Quantity req; Price := req_Price req;
           Category := req_Category req;
           CreatedAt := CreatedAt product; UpdatedAt := UpdatedAt product;
           DeletedAt := DeletedAt product |} in
      match Save db product with
      | Err err => Err (Errorf "failed to update product" err)
      | Ok product => Ok (ToResponse product)
      end
  end.

(** [func (ps *ProductService) DeleteProduct(id uint) error] *)
Definition DeleteProduct (db : DB) (id : N) : option error :=
  match First db id with
  | Err err =>
      if IsRecordNotFound err then Some (New "product not found")
      else Some (Errorf "failed to fetch product" err)
  | Ok product =>
      match Delete db product with
      | Some err => Some (Errorf "failed to delete product" err)
      | None => None
      end
  end.

(** [func (ps *ProductService) GetLowStockProducts(threshold int)] *)
Definition GetLowStockProducts (db : DB) (threshold : Z)
  : result (list ProductResponse) :=
  let threshold := if threshold <=? 0 then 5 else threshold in
  match FindWhereQuantityLt db threshold with
  | Err err => Err (Errorf "failed to fetch low stock products" err)
  | Ok products => Ok (responses_of products)
  end.

(** [func (ps *ProductService) GetProductsByCategory(category string)] *)
Definition GetProductsByCategory (db : DB) (category : string)
  : result (list ProductResponse) :=
  match FindWhereCategory db category with
  | Err err => Err (Errorf "failed to fetch products by category" err)
  | Ok products => Ok (responses_of products)
  end.

(** [func (ps *ProductService) GetInventoryStats()] *)
Definition GetInventoryStats (db : DB) : result (gmap string stat) :=
  match Count db with
  | Err err => Err (Errorf "failed to count products" err)
  | Ok totalProducts =>
  match ScanSumValue db with
  | Err err => Err (Errorf "failed to calculate total value" err)
  | Ok totalValue =>
  match CountWhereQuantityLt db 5 with
  | Err err => Err (Errorf "failed to count low stock products" err)
  | Ok lowStockCount =>
  match CountWhereQuantityZero db with
  | Err err => Err (Errorf "failed to count out of stock products" err)
  | Ok outOfStockCount =>
  match PluckDistinctCategory db with
  | Err err => Err (Errorf "failed to fetch categories" err)
  | Ok categories =>
      Ok (<["categories_count" := SInt (Z.of_nat (length categories))]>
          (<["categories" := SStrings categories]>
          (<["out_of_stock_count" := SInt outOfStockCount]>
          (<["low_stock_count" := SInt lowStockCount]>
          (<["total_value" := SFloat totalValue]>
          (<["total_products" := SInt totalProducts]> ∅))))))
  end end end end end.

(** [func (ps *ProductService) SearchProducts(query string)] *)
Definition SearchProducts (db : DB) (query : string)
  : result (list ProductResponse) :=
  let searchPattern := ("%" ++ query ++ "%")%string in
  match FindWhereILike db searchPattern with
  | Err err => Err (Errorf "failed to search products" err)
  | Ok products => Ok (responses_of products)
  end.

(** [func (ps *ProductService) UpdateStock(id uint, newQuantity int)] *)
Definition UpdateStock (db : DB) (id : N) (newQuantity : Z)
  : result ProductResponse :=
  match First db id with
  | Err err =>
      if IsRecordNotFound err then Err (New "product not found")
      else Err (Errorf "failed to fetch product" err)
  | Ok product =>
      let product :=
        {| ID := ID product; Name := Name product;
           Description := Description product;
           Quantity := newQuantity; Price := Price product;
           Category := Category product;
           CreatedAt := CreatedAt product; UpdatedAt := UpdatedAt product;
           DeletedAt := DeletedAt product |} in
      match Save db product with
      | Err err => Err (Errorf "failed to update stock" err)
      | Ok product => Ok (ToResponse product)
      end
  end.

End product_service.

(** ** The HTTP layer as the handlers see it *)

Module echo.
Import models errors requests product_service.

(** [net/http] status codes. *)
Definition StatusOK : Z := 200.
Definition StatusCreated : Z := 201.
Definition StatusBadRequest : Z := 400.
Definition StatusUnauthorized : Z := 401.
Definition StatusNotFound : Z := 404.
Definition StatusConflict : Z := 409.
Definition StatusInternalServerError : Z := 500.

(** The dynamic values the handlers put into a
    [map[string]interface{}]. *)
Inductive any :=
| AString (s : string)
| AInt (n : Z)
| AProduct (p : ProductResponse)
| AProducts (l : list ProductResponse)
| AAlerts (l : list ProductAlert)
| AStats (m : gmap string stat)
| AUser (u : UserResponse).

(** What [c.JSON(code, body)] writes. *)
Record Response := mkResponse {
  status : Z;
  body : gmap string any
}.

(** The values the middleware keeps in the context with [c.Set]. *)
Inductive ctxval :=
| CUint (n : N)
| CString (s : string).

(** An [echo.Context], as far as the handlers read it.  [Bind] decodes the
    request body into the handler's variable; there is one answer per type
    of variable the handlers bind. *)
Record Context := mkContext {
  Bind_ProductRequest : result ProductRequest;
  Bind_Quantity : result Z;              (* struct { Quantity int } *)
  Bind_UserRequest : result UserRequest;
  Param : string → string;
  QueryParam : string → string;
  Header : string → string;              (* c.Request().Header.Get(name) *)
  values : gmap string ctxval            (* c.Get(key), c.Set(key, v) *)
}.

(** [c.Set(key, v)] *)
Definition Set_ (c : Context) (key : string) (v : ctxval) : Context :=
  {| Bind_ProductRequest := Bind_ProductRequest c;
     Bind_Quantity := Bind_Quantity c;
     Bind_UserRequest := Bind_UserRequest c;
     Param := Param c; QueryParam := QueryParam c; Header := Header c;
     values := <[key := v]> (values c) |}.

(** [v, ok := c.Get(key).(uint)] *)
Definition Get_uint (c : Context) (key : string) : option N :=
  match values c !! key with
  | Some (CUint n) => Some n
  | _ => None
  end.

(** [v, ok := c.Get(key).(string)] *)
Definition Get_string (c : Context) (key : string) : option string :=
  match values c !! key with
  | Some (CString s) => Some s
  | _ => None
  end.

(** The two functions of [strconv] the handlers call: [Atoi(s)] and
    [ParseUint(s, 10, 32)]. *)
Record strconv := mkStrconv {
  Atoi : string → result Z;
  ParseUint_10_32 : string → result N
}.

End echo.

(** ** internal/controllers: the product handlers *)

Module product_controller.
Import models errors requests product_service echo.

(** The guards [CreateProduct] and [UpdateProduct] put between the bound
    request and the service: the response of the first guard that fires. *)
Definition validate (req : ProductRequest) : option Response :=
  if String.eqb (req_Name req) "" then
    Some (mkResponse StatusBadRequest
            {[ "error" := AString "Product name is required" ]})
  else if PrimFloat.ltb (req_Price req) 0 then
    Some (mkResponse StatusBadRequest
            {[ "error" := AString "Price cannot be negative" ]})
  else if req_Quantity req <? 0 then
    Some (mkResponse StatusBadRequest
            {[ "error" := AString "Quantity cannot be negative" ]})
  else if String.eqb (req_Category req) "" then
    Some (mkResponse StatusBadRequest
            {[ "error" := AString "Category is required" ]})
  else None.

(** The answer to a failed [c.Bind]. *)
Definition invalid_format (err : error) : Response :=
  mkResponse StatusBadRequest
    {[ "error" := AString "Invalid request format";
       "details" := AString (Error err) ]}.

(** [func (pc *ProductController) CreateProduct(c echo.Context) error] *)
Definition CreateProduct (db : DB) (c : Context) : Response :=
  match Bind_ProductRequest c with
  | Err err => invalid_format err
  | Ok req =>
      match validate req with
      | Some response => response
      | None =>
          match product_service.CreateProduct db req with
          | Err err =>
              mkResponse StatusInternalServerError
                {[ "error" := AString "Failed to create product";
                   "details" := AString (Error err) ]}
          | Ok product =>
              mkResponse StatusCreated
                {[ "message" := AString "Product created successfully";
                   "product" := AProduct product ]}
          end
      end
  end.

(** The answer to a list of products. *)
Definition listing (products : list ProductResponse) : Response :=
  mkResponse StatusOK
    {[ "products" := AProducts products;
       "total" := AInt (Z.of_nat (length products)) ]}.

(** [func (pc *ProductController) GetAllProducts(c echo.Context) error] *)
Definition GetAllProducts (db : DB) (c : Context) : Response :=
  let search := QueryParam c "search" in
  if negb (String.eqb search "") then
    match SearchProducts db search with
    | Err err =>
        mkResponse StatusInternalServerError
          {[ "error" := AString "Failed to search products";
             "details" := AString (Error err) ]}
    | Ok products => listing products
    end
  else
    let category := QueryParam c "category" in
    if negb (String.eqb category "") then
      match GetProductsByCategory db category with
      | Err err =>
          mkResponse StatusInternalServerError
            {[ "error" := AString "Failed to get products by category";
               "details" := AString (Error err) ]}
      | Ok products => listing products
      end
    else
      match product_service.GetAllProducts db with
      | Err err =>
          mkResponse StatusInternalServerError
            {[ "error" := AString "Failed to fetch products";
               "details" := AString (Error err) ]}
      | Ok products => listing products
      end.

(** The answer to an id that [strconv.ParseUint] refuses. *)
Definition invalid_id : Response :=
  mkResponse StatusBadRequest {[ "error" := AString "Invalid product ID" ]}.

(** The answer to an error of a service that looks a product up:
    [if err.Error() == "product not found"] 404, else 500 with the
    handler's message. *)
Definition lookup_failure (message : string) (err : error) : Response :=
  if String.eqb (Error err) "product not found" then
    mkResponse StatusNotFound {[ "error" := AString "Product not found" ]}
  else
    mkResponse StatusInternalServerError
      {[ "error" := AString message; "details" := AString (Error err) ]}.

(** [func (pc *ProductController) GetProductByID(c echo.Context) error] *)
Definition GetProductByID (sc : strconv) (db : DB) (c : Context) : Response :=
  match ParseUint_10_32 sc (Param c "id") with
  | Err _ => invalid_id
  | Ok id =>
      match product_service.GetProductByID db id with
      | Err err => lookup_failure "Failed to fetch product" err
      | Ok product => mkResponse StatusOK {[ "product" := AProduct product ]}
      end
  end.

(** [func (pc *ProductController) UpdateProduct(c echo.Context) error] *)
Definition UpdateProduct (sc : strconv) (db : DB) (c : Context) : Response :=
  match ParseUint_10_32 sc (Param c "id") with
  | Err _ => invalid_id
  | Ok id =>
      match Bind_ProductRequest c with
      | Err err => invalid_format err
      | Ok req =>
          match validate req with
          | Some response => response
          | None =>
              match product_service.UpdateProduct db id req with
              | Err err => lookup_failure "Failed to update product" err
              | Ok product =>
                  mkResponse StatusOK
                    {[ "message" := AString "Product updated successfully";
                       "product" := AProduct product ]}
              end
          end
      end
  end.

(** [func (pc *ProductController) DeleteProduct(c echo.Context) error] *)
Definition DeleteProduct (sc : strconv) (db : DB) (c : Context) : Response :=
  match ParseUint_10_32 sc (Param c "id") with
  | Err _ => invalid_id
  | Ok id =>
      match product_service.DeleteProduct db id with
      | Some err => lookup_failure "Failed to delete product" err
      | None =>
          mkResponse StatusOK
            {[ "message" := AString "Product deleted successfully" ]}
      end
  end.

(** The threshold the two stock handlers work with:
    [threshold := 5; if p := c.QueryParam("threshold"); p != "" {
       if t, err := strconv.Atoi(p); err == nil && t > 0 { threshold = t } }] *)
Definition threshold_of (sc : strconv) (c : Context) : Z :=
  let thresholdParam := QueryParam c "threshold" in
  if negb (String.eqb thresholdParam "") then
    match Atoi sc thresholdParam with
    | Ok t => if 0 <? t then t else 5
    | Err _ => 5
    end
  else 5.

(** [func (pc *ProductController) GetLowStockProducts(c echo.Context) error] *)
Definition GetLowStockProducts (sc : strconv) (db : DB) (c : Context)
  : Response :=
  let threshold := threshold_of sc c in
  match product_service.GetLowStockProducts db threshold with
  | Err err =>
      mkResponse StatusInternalServerError
        {[ "error" := AString "Failed to fetch low stock products";
           "details" := AString (Error err) ]}
  | Ok products =>
      mkResponse StatusOK
        {[ "products" := AProducts products;
           "total" := AInt (Z.of_nat (length products));
           "threshold" := AInt threshold ]}
  end.

(** [func (pc *ProductController) GenerateAlerts(c echo.Context) error].
    The service call is [services.GenerateAlertsWithConcurrency]: [find] is
    what the store answers to its fetch and [sched] how its goroutines are
    scheduled; there is no response before the service has returned. *)
Definition GenerateAlerts (sc : strconv) (find : services.FindResult)
    (sched : list services.action) (c : Context) : option Response :=
  let threshold := threshold_of sc c in
  match services.GenerateAlertsWithConcurrency threshold find sched with
  | None => None
  | Some (_, Some err) =>
      Some (mkResponse StatusInternalServerError
              {[ "error" := AString "Failed to generate alerts";
                 "details" := AString (services.Error err) ]})
  | Some (alerts, None) =>
      Some (mkResponse StatusOK
              {[ "alerts" := AAlerts alerts;
                 "total" := AInt (Z.of_nat (length alerts));
                 "threshold" := AInt threshold;
                 "message" :=
                   AString "Alerts generated using concurrent processing" ]})
  end.

(** [func (pc *ProductController) GetInventoryStats(c echo.Context) error] *)
Definition GetInventoryStats (db : DB) (c : Context) : Response :=
  match product_service.GetInventoryStats db with
  | Err err =>
      mkResponse StatusInternalServerError
        {[ "error" := AString "Failed to fetch inventory statistics";
           "details" := AString (Error err) ]}
  | Ok stats => mkResponse StatusOK {[ "stats" := AStats stats ]}
  end.

(** [func (pc *ProductController) UpdateStock(c echo.Context) error] *)
Definition UpdateStock (sc : strconv) (db : DB) (c : Context) : Response :=
  match ParseUint_10_32 sc (Param c "id") with
  | Err _ => invalid_id
  | Ok id =>
      match Bind_Quantity c with
      | Err err => invalid_format err
      | Ok quantity =>
          if quantity <? 0 then
            mkResponse StatusBadRequest
              {[ "error" := AString "Quantity cannot be negative" ]}
          else
            match product_service.UpdateStock db id quantity with
            | Err err => lookup_failure "Failed to update stock" err
            | Ok product =>
                mkResponse StatusOK
                  {[ "message" := AString "Stock updated successfully";
                     "product" := AProduct product ]}
            end
      end
  end.

End product_controller.

(** ** internal/services: the authentication service *)

Module auth_service.
Import models errors requests.

(** [jwt.RegisteredClaims], the fields the service sets. *)
Record RegisteredClaims := mkRegisteredClaims {
  ExpiresAt : Time;
  IssuedAt : Time;
  NotBefore : Time;
  Issuer : string;
  Subject : string
}.

(** [type JWTClaims struct] *)
Record JWTClaims := mkJWTClaims {
  UserID : N;
  Email : string;
  Registered : RegisteredClaims
}.

(** The signing method of a token, as the key function sees it:
    the assertion of [token.Method] to a [jwt.SigningMethodHMAC]
    pointer succeeds or not, and
    [token.Header["alg"]] is printed with [%v]. *)
Inductive Method :=
| SigningMethodHMAC (alg : string)
| OtherMethod (alg : string).

(** The functions of [github.com/golang-jwt/jwt/v5] the service calls.
    [SignedString] stands for
    [jwt.NewWithClaims(jwt.SigningMethodHS256, claims).SignedString(key)];
    [ParseWithClaims] gets the token and the key function and answers with
    the claims and the [Valid] flag of the token it parsed. *)
Record jwt := mkJwt {
  NewNumericDate : Time → Time;
  SignedString : JWTClaims → string → result string;
  ParseWithClaims : string → (Method → result string) → result (JWTClaims * bool)
}.

(** The store, as the authentication service queries it.  [CreateUser]
    answers with the user as the store leaves it in the caller's variable. *)
Record DB := mkDB {
  (* db.Where("email = ?", email).First(&user) *)
  FirstWhereEmail : string → result User;
  (* db.Create(&user) *)
  CreateUser : User → result User;
  (* db.First(&user, userID) *)
  FirstUser : N → result User
}.

(** The process around the service: [os.Getenv] and the readings of
    [time.Now()], in the order in which a call makes them. *)
Record process := mkProcess {
  Getenv : string → string;
  Now : nat → Time
}.

(** [func (as *AuthService) RegisterUser(req models.UserRequest)] *)
Definition RegisterUser (db : DB) (req : UserRequest)
  : result UserResponse :=
  match FirstWhereEmail db (ureq_Email req) with
  | Ok _ => Err (New "user already exists")
  | Err _ =>
      let user :=
        {| user_ID := 0; user_Email := ureq_Email req;
           user_Password := ureq_Password req;
           user_CreatedAt := 0; user_UpdatedAt := 0 |} in
      match CreateUser db user with
      | Err err => Err (Errorf "failed to create user" err)
      | Ok user => Ok (user_ToResponse user)
      end
  end.

(** [24 * time.Hour], in nanoseconds. *)
Definition day : Z := 24 * 3600 * 1000000000.

(** [fmt.Sprintf("%d", n)] for an unsigned [n]. *)
Definition decimal (n : N) : string :=
  DecimalString.NilZero.string_of_uint (N.to_uint n).

(** [func (as *AuthService) GenerateJWT(user *models.User) (string, error)] *)
Definition GenerateJWT (p : process) (j : jwt) (user : User) : result string :=
  let secret := Getenv p "JWT_SECRET" in
  if String.eqb secret "" then Err (New "JWT_SECRET not configured")
  else
    let claims :=
      {| UserID := user_ID user;
         Email := user_Email user;
         Registered :=
           {| ExpiresAt := NewNumericDate j (Now p 0 + day);
              IssuedAt := NewNumericDate j (Now p 1);
              NotBefore := NewNumericDate j (Now p 2);
              Issuer := "inventory-api";
              Subject := decimal (user_ID user) |} |} in
    match SignedString j claims secret with
    | Err err => Err (Errorf "failed to sign token" err)
    | Ok tokenString => Ok tokenString
    end.

(** The key function [ValidateJWT] hands to the parser. *)
Definition keyfunc (secret : string) (method : Method) : result string :=
  match method with
  | SigningMethodHMAC _ => Ok secret
  | OtherMethod alg => Err (New ("unexpected signing method: " ++ alg))
  end.

(** [func (as *AuthService) ValidateJWT(tokenString string)].
    The parser fills the [&JWTClaims{}] it was given, so the type assertion
    on [token.Claims] succeeds. *)
Definition ValidateJWT (p : process) (j : jwt) (tokenString : string)
  : result JWTClaims :=
  let secret := Getenv p "JWT_SECRET" in
  if String.eqb secret "" then Err (New "JWT_SECRET not configured")
  else
    match ParseWithClaims j tokenString (keyfunc secret) with
    | Err err => Err (Errorf "invalid token" err)
    | Ok (claims, valid) =>
        if negb valid then Err (New "invalid token claims")
        else Ok claims
    end.

(** [func (as *AuthService) LoginUser(req models.UserRequest)
      (string, *models.UserResponse, error)] *)
Definition LoginUser (b : bcrypt) (p : process) (j : jwt) (db : DB)
    (req : UserRequest) : result (string * UserResponse) :=
  match FirstWhereEmail db (ureq_Email req) with
  | Err err =>
      if IsRecordNotFound err then Err (New "invalid credentials")
      else Err (Errorf "database error" err)
  | Ok user =>
      if negb (CheckPassword b user (ureq_Password req)) then
        Err (New "invalid credentials")
      else
        match GenerateJWT p j user with
        | Err err => Err (Errorf "failed to generate token" err)
        | Ok token => Ok (token, user_ToResponse user)
        end
  end.

(** [func (as *AuthService) GetUserByID(userID uint)] *)
Definition GetUserByID (db : DB) (userID : N) : result User :=
  match FirstUser db userID with
  | Err err =>
      if IsRecordNotFound err then Err (New "user not found")
      else Err (Errorf "database error" err)
  | Ok user => Ok user
  end.

(** [func (as *AuthService) RefreshToken(userID uint) (string, error)] *)
Definition RefreshToken (p : process) (j : jwt) (db : DB) (userID : N)
  : result string :=
  match GetUserByID db userID with
  | Err err => Err err
  | Ok user => GenerateJWT p j user
  end.

End auth_service.

(** ** internal/middleware *)

Module middleware.
Import models errors requests echo auth_service.

(** [strings.HasPrefix(s, prefix)] *)
Definition HasPrefix (s prefix : string) : bool := String.prefix prefix s.

(** [strings.TrimPrefix(s, prefix)] *)
Definition TrimPrefix (s prefix : string) : string :=
  if HasPrefix s prefix then
    String.substring (String.length prefix)
      (String.length s - String.length prefix) s
  else s.

Definition unauthorized (message : string) : Response :=
  mkResponse StatusUnauthorized {[ "error" := AString message ]}.

(** [func JWTMiddleware(db *gorm.DB) echo.MiddlewareFunc], applied to the
    handler [next] and the context [c]. *)
Definition JWTMiddleware (p : process) (j : jwt)
    (next : Context → Response) (c : Context) : Response :=
  let authHeader := Header c "Authorization" in
  if String.eqb authHeader "" then
    unauthorized "Authorization header required"
  else if negb (HasPrefix authHeader "Bearer ") then
    unauthorized "Invalid authorization header format"
  else
    let token := TrimPrefix authHeader "Bearer " in
    if String.eqb token "" then unauthorized "Token is required"
    else
      match ValidateJWT p j token with
      | Err _ => unauthorized "Invalid or expired token"
      | Ok claims =>
          next (Set_ (Set_ c "user_id" (CUint (UserID claims)))
                  "user_email" (CString (Email claims)))
      end.

(** [func GetUserID(c echo.Context) (uint, bool)] *)
Definition GetUserID (c : Context) : option N := Get_uint c "user_id".

(** [func GetUserEmail(c echo.Context) (string, bool)] *)
Definition GetUserEmail (c : Context) : option string :=
  Get_string c "user_email".

(** [func RequireAuth(db *gorm.DB) echo.MiddlewareFunc] *)
Definition RequireAuth := JWTMiddleware.

End middleware.

(** ** internal/controllers: the authentication handlers *)

Module auth_controller.
Import models errors requests echo auth_service.

(** [func (ac *AuthController) Register(c echo.Context) error] *)
Definition Register (db : DB) (c : Context) : Response :=
  match Bind_UserRequest c with
  | Err err =>
      mkResponse StatusBadRequest
        {[ "error" := AString "Invalid request format";
           "details" := AString (Error err) ]}
  | Ok req =>
      if String.eqb (ureq_Email req) "" then
        mkResponse StatusBadRequest {[ "error" := AString "Email is required" ]}
      else if String.eqb (ureq_Password req) ""
              || (String.length (ureq_Password req) <? 6)%nat then
        mkResponse StatusBadRequest
          {[ "error" := AString "Password must be at least 6 characters long" ]}
      else
        match RegisterUser db req with
        | Err err =>
            let statusCode :=
              if String.eqb (Error err) "user already exists"
              then StatusConflict else StatusInternalServerError in
            mkResponse statusCode {[ "error" := AString (Error err) ]}
        | Ok user =>
            mkResponse StatusCreated
              {[ "message" := AString "User created successfully";
                 "user" := AUser user ]}
        end
  end.

(** [func (ac *AuthController) Login(c echo.Context) error] *)
Definition Login (b : bcrypt) (p : process) (j : jwt) (db : DB) (c : Context)
  : Response :=
  match Bind_UserRequest c with
  | Err err =>
      mkResponse StatusBadRequest
        {[ "error" := AString "Invalid request format";
           "details" := AString (Error err) ]}
  | Ok req =>
      if String.eqb (ureq_Email req) "" || String.eqb (ureq_Password req) "" then
        mkResponse StatusBadRequest
          {[ "error" := AString "Email and password are required" ]}
      else
        match LoginUser b p j db req with
        | Err err =>
            let statusCode :=
              if String.eqb (Error err) "invalid credentials"
              then StatusUnauthorized else StatusInternalServerError in
            mkResponse statusCode {[ "error" := AString (Error err) ]}
        | Ok (token, user) =>
            mkResponse StatusOK
              {[ "message" := AString "Login successful";
                 "token" := AString token;
                 "user" := AUser user ]}
        end
  end.

(** [func (ac *AuthController) Profile(c echo.Context) error] *)
Definition Profile (db : DB) (c : Context) : Response :=
  match Get_uint c "user_id" with
  | None => mkResponse StatusUnauthorized {[ "error" := AString "Invalid token" ]}
  | Some userID =>
      match GetUserByID db userID with
      | Err _ => mkResponse StatusNotFound {[ "error" := AString "User not found" ]}
      | Ok user => mkResponse StatusOK {[ "user" := AUser (user_ToResponse user) ]}
      end
  end.

(** [func (ac *AuthController) RefreshToken(c echo.Context) error] *)
Definition RefreshToken (p : process) (j : jwt) (db : DB) (c : Context)
  : Response :=
  match Get_uint c "user_id" with
  | None => mkResponse StatusUnauthorized {[ "error" := AString "Invalid token" ]}
  | Some userID =>
      match auth_service.RefreshToken p j db userID with
      | Err _ =>
          mkResponse StatusInternalServerError
            {[ "error" := AString "Failed to refresh token" ]}
      | Ok token =>
          mkResponse StatusOK
            {[ "message" := AString "Token refreshed successfully";
               "token" := AString token ]}
      end
  end.

End auth_controller.

(** ** internal/db *)

Module db.
Import errors.

(** Handles of the connection ([*gorm.DB]) and of its pool ([*sql.DB]). *)
Definition conn := N.
Definition pool := N.

(** The calls into gorm and [database/sql]. *)
Record driver := mkDriver {
  (* gorm.Open(postgres.Open(dsn), config) *)
  Open : string → result conn;
  (* db.DB() *)
  DB : conn → result pool;
  (* sqlDB.Ping() *)
  Ping : pool → option error;
  (* db.Exec(sql).Error *)
  Exec : conn → string → option error;
  (* db.AutoMigrate(&models.User{}, &models.Product{}) *)
  Migrate : conn → option error;
  (* sqlDB.Close() *)
  Close : pool → option error
}.

(** What a call leaves behind besides its result: the lines it logs and the
    limits it sets on the pool. *)
Record effects := mkEffects {
  logged : list string;
  MaxIdleConns : option Z;
  MaxOpenConns : option Z
}.

(** [fmt.Sprintf("host=%s user=%s password=%s dbname=%s port=%s sslmode=%s TimeZone=UTC", ...)] *)
Definition dsn_of (host user password dbname port sslmode : string) : string :=
  ("host=" ++ host ++ " user=" ++ user ++ " password=" ++ password
   ++ " dbname=" ++ dbname ++ " port=" ++ port ++ " sslmode=" ++ sslmode
   ++ " TimeZone=UTC")%string.

(** [func InitDB()], with [os.Getenv] as [getenv]: what it leaves behind
    and what it returns. *)
Definition InitDB (getenv : string → string) (d : driver)
  : effects * result conn :=
  let host := getenv "DB_HOST" in
  let user := getenv "DB_USER" in
  let password := getenv "DB_PASSWORD" in
  let dbname := getenv "DB_NAME" in
  let port := getenv "DB_PORT" in
  let sslmode := getenv "DB_SSLMODE" in
  let port := if String.eqb port "" then "5432" else port in
  let sslmode := if String.eqb sslmode "" then "require" else sslmode in
  if String.eqb host "" || String.eqb user "" || String.eqb password ""
     || String.eqb dbname "" then
    (mkEffects [] None None,
     Err (New "missing required database environment variables"))
  else
    let dsn := dsn_of host user password dbname port sslmode in
    let connecting := "🔗 Connecting to Neon DB..." in
    match Open d dsn with
    | Err err =>
        (mkEffects [connecting] None None,
         Err (Errorf "failed to connect to database" err))
    | Ok db =>
        match DB d db with
        | Err err =>
            (mkEffects [connecting] None None,
             Err (Errorf "failed to get database instance" err))
        | Ok sqlDB =>
            match Ping d sqlDB with
            | Some err =>
                (mkEffects [connecting] None None,
                 Err (Errorf "failed to ping database" err))
            | None =>
                (mkEffects
                   [connecting; "✅ Successfully connected to Neon DB"]
                   (Some 10) (Some 100),
                 Ok db)
            end
        end
    end.

(** [func AutoMigrate(db *gorm.DB) error]: the lines logged and the error. *)
Definition AutoMigrate (d : driver) (db : conn) : list string * option error :=
  let running := "📦 Running database migrations..." in
  match Migrate d db with
  | Some err => ([running], Some (Errorf "failed to run migrations" err))
  | None => ([running; "✅ Migrations completed successfully"], None)
  end.

(** One statement of [CreateIndexes]: a failure is logged with
    [log.Printf("Warning: Failed to create ... index: %v", err)]. *)
Definition create_index (d : driver) (db : conn) (sql what : string)
  : list string :=
  match Exec d db sql with
  | Some err =>
      [("Warning: Failed to create " ++ what ++ " index: " ++ Error err)%string]
  | None => []
  end.

(** [func CreateIndexes(db *gorm.DB) error]: the lines logged and the error. *)
Definition CreateIndexes (d : driver) (db : conn) : list string * option error :=
  ((["🔍 Creating database indexes..."]
   ++ create_index d db
        "CREATE INDEX IF NOT EXISTS idx_products_category ON products(category)"
        "category"
   ++ create_index d db
        "CREATE INDEX IF NOT EXISTS idx_products_quantity ON products(quantity)"
        "quantity"
   ++ create_index d db
        "CREATE UNIQUE INDEX IF NOT EXISTS idx_users_email ON users(email)"
        "email"
   ++ ["✅ Indexes created successfully"])%list,
   None).

(** [func CloseDB(db *gorm.DB) error] *)
Definition CloseDB (d : driver) (db : conn) : option error :=
  match DB d db with
  | Err err => Some err
  | Ok sqlDB => Close d sqlDB
  end.

(** [os.Setenv(key, value)] on an environment. *)
Definition setenv (key value : string) (getenv : string → string)
  : string → string :=
  λ k, if String.eqb k key then value else getenv k.

End db.

(** ** scripts/seed: the status printed for a created product *)

Module seed_script.
Import models.

(** [status := "normal"; if product.Quantity == 0 { status = "out of stock" }
     else if product.Quantity <= 2 { status = "critical" }
     else if product.Quantity <= 5 { status = "low" }] *)
Definition status (product : Product) : string :=
  if Quantity product =? 0 then "out of stock"
  else if Quantity product <=? 2 then "critical"
  else if Quantity product <=? 5 then "low"
  else "normal".

End seed_script.

(** ** Example collaborators

    Concrete stand-ins for the collaborators, to run the handlers on
    examples: a parser of decimal numbers, a store that holds a fixed table,
    and requests. *)

Module examples.
Import models errors requests echo.

(** A parser for decimal digits with an optional minus sign. *)
Definition decimal_strconv : strconv :=
  {| Atoi := λ s,
       match DecimalString.NilZero.int_of_string s with
       | Some d => Ok (Z.of_int d)
       | None => Err (Opaque "strconv.Atoi: invalid syntax")
       end;
     ParseUint_10_32 := λ s,
       match DecimalString.NilZero.uint_of_string s with
       | Some d =>
           if (N.of_uint d <? 2 ^ 32)%N then Ok (N.of_uint d)
           else Err (Opaque "strconv.ParseUint: value out of range")
       | None => Err (Opaque "strconv.ParseUint: invalid syntax")
       end |}.

(** The function that maps [key] to [value] and every other key to the
    empty string. *)
Definition only (key value : string) : string → string :=
  λ k, if String.eqb k key then value else "".

Definition no_body {A} : result A := Err (Opaque "EOF").

(** A request with path parameters, query parameters and headers, and with
    the given body for each of the three types the handlers bind. *)
Definition request (param query header : string → string)
    (product : result ProductRequest) (quantity : result Z)
    (user : result UserRequest) : Context :=
  {| Bind_ProductRequest := product; Bind_Quantity := quantity;
     Bind_UserRequest := user;
     Param := param; QueryParam := query; Header := header;
     values := ∅ |}.

(** A store that holds [table] and accepts every write: lookups and
    filters are answered from the table, a created product gets the next
    key, a saved product is left as it is. *)
Definition table_store (table : list Product) : product_service.DB :=
  {| product_service.Create := λ p,
       Ok {| ID := N.of_nat (S (length table)); Name := Name p;
             Description := Description p; Quantity := Quantity p;
             Price := Price p; Category := Category p;
             CreatedAt := CreatedAt p; UpdatedAt := UpdatedAt p;
             DeletedAt := DeletedAt p |};
     product_service.Find := Ok table;
     product_service.First := λ id,
       match list_find (λ p, ID p = id) table with
       | Some (_, p) => Ok p
       | None => Err ErrRecordNotFound
       end;
     product_service.Save := λ p, Ok p;
     product_service.Delete := λ _, None;
     product_service.FindWhereQuantityLt := λ threshold,
       Ok (filter (λ p, Quantity p < threshold) table);
     product_service.FindWhereCategory := λ category,
       Ok (filter (λ p, Category p = category) table);
     product_service.FindWhereILike := λ _, Err (Opaque "unsupported");
     product_service.Count := Ok (Z.of_nat (length table));
     product_service.ScanSumValue :=
       Ok (foldr (λ p total,
                    PrimFloat.add
                      (PrimFloat.mul (Price p)
                         (PrimFloat.of_uint63 (Uint63.of_Z (Quantity p))))
                      total)
             0%float table);
     product_service.CountWhereQuantityLt := λ n,
       Ok (Z.of_nat (length (filter (λ p, Quantity p < n) table)));
     product_service.CountWhereQuantityZero :=
       Ok (Z.of_nat (length (filter (λ p, Quantity p = 0) table)));
     product_service.PluckDistinctCategory :=
       Ok (remove_dups (Category <$> table)) |}.

(** Like [table_store], but with a check constraint: the store refuses to
    create or save a product with a negative quantity. *)
Definition strict_store (table : list Product) : product_service.DB :=
  let db := table_store table in
  {| product_service.Create := λ p,
       if Quantity p <? 0 then Err (Opaque "violates check constraint")
       else product_service.Create db p;
     product_service.Find := product_service.Find db;
     product_service.First := product_service.First db;
     product_service.Save := λ p,
       if Quantity p <? 0 then Err (Opaque "violates check constraint")
       else product_service.Save db p;
     product_service.Delete := product_service.Delete db;
     product_service.FindWhereQuantityLt := product_service.FindWhereQuantityLt db;
     product_service.FindWhereCategory := product_service.FindWhereCategory db;
     product_service.FindWhereILike := product_service.FindWhereILike db;
     product_service.Count := product_service.Count db;
     product_service.ScanSumValue := product_service.ScanSumValue db;
     product_service.CountWhereQuantityLt := product_service.CountWhereQuantityLt db;
     product_service.CountWhereQuantityZero := product_service.CountWhereQuantityZero db;
     product_service.PluckDistinctCategory := product_service.PluckDistinctCategory db |}.

(** A store whose every statement fails with [err]. *)
Definition broken_store (err : error) : product_service.DB :=
  {| product_service.Create := λ _, Err err;
     product_service.Find := Err err;
     product_service.First := λ _, Err err;
     product_service.Save := λ _, Err err;
     product_service.Delete := λ _, Some err;
     product_service.FindWhereQuantityLt := λ _, Err err;
     product_service.FindWhereCategory := λ _, Err err;
     product_service.FindWhereILike := λ _, Err err;
     product_service.Count := Err err;
     product_service.ScanSumValue := Err err;
     product_service.CountWhereQuantityLt := λ _, Err err;
     product_service.CountWhereQuantityZero := Err err;
     product_service.PluckDistinctCategory := Err err |}.

(** A stand-in for bcrypt: the hash of a password is the password behind
    a marker. *)
Definition marker_bcrypt : bcrypt :=
  {| GenerateFromPassword := λ password, Ok ("$2a$10$" ++ password)%string;
     CompareHashAndPassword := λ hash password,
       if String.eqb hash ("$2a$10$" ++ password)%string then None
       else Some (Opaque "crypto/bcrypt: hashedPassword is not the hash of the given password")
  |}.

(** A stand-in for the JWT library: a token is the key, a dot and the
    subject; it is parsed back with the key the key function gives for
    HS256. *)
Definition dotted_jwt : auth_service.jwt :=
  {| auth_service.NewNumericDate := λ t, t;
     auth_service.SignedString := λ claims key,
       Ok (key ++ "."
           ++ auth_service.Subject (auth_service.Registered claims))%string;
     auth_service.ParseWithClaims := λ tokenString keyfunc,
       match keyfunc (auth_service.SigningMethodHMAC "HS256") with
       | Err err => Err err
       | Ok key =>
           if String.prefix (key ++ ".")%string tokenString then
             match DecimalString.NilZero.uint_of_string
                     (String.substring (String.length key + 1)
                        (String.length tokenString - (String.length key + 1))
                        tokenString) with
             | Some d =>
                 Ok ({| auth_service.UserID := N.of_uint d;
                        auth_service.Email := "";
                        auth_service.Registered :=
                          {| auth_service.ExpiresAt := 0;
                             auth_service.IssuedAt := 0;
                             auth_service.NotBefore := 0;
                             auth_service.Issuer := "inventory-api";
                             auth_service.Subject :=
                               auth_service.decimal (N.of_uint d) |} |},
                     true)
             | None => Err (Opaque "token is malformed")
             end
           else Err (Opaque "signature is invalid")
       end |}.

(** A process with the given secret, whose clock reads 1000, 1001, ... *)
Definition process_with (secret : string) : auth_service.process :=
  {| auth_service.Getenv := only "JWT_SECRET" secret;
     auth_service.Now := λ k, 1000 + Z.of_nat k |}.

(** A store that holds [users] and accepts every new user as it is. *)
Definition user_store (users : list User) : auth_service.DB :=
  {| auth_service.FirstWhereEmail := λ email,
       match list_find (λ u, user_Email u = email) users with
       | Some (_, u) => Ok u
       | None => Err ErrRecordNotFound
       end;
     auth_service.CreateUser := λ u, Ok u;
     auth_service.FirstUser := λ id,
       match list_find (λ u, user_ID u = id) users with
       | Some (_, u) => Ok u
       | None => Err ErrRecordNotFound
       end |}.

(** The user with key 7 and password "secret". *)
Definition ana : User :=
  {| user_ID := 7; user_Email := "ana@example.com";
     user_Password := "$2a$10$secret";
     user_CreatedAt := 500; user_UpdatedAt := 500 |}.

End examples.

(** * Properties of the stock classification *)

Section classification.
Import models.

Lemma GenerateAlert_None (p : Product) (threshold : Z) (now : Time) :
  GenerateAlert p threshold now = None ↔ threshold <= Quantity p.
Proof.
  unfold GenerateAlert, IsLowStock.
  destruct (Z.ltb_spec (Quantity p) threshold) as [Hlt|Hge]; simpl.
  - repeat case_match; split; intros; try discriminate; lia.
  - split; [lia | reflexivity].
Qed.

Lemma GenerateAlert_Some (p : Product) (threshold : Z) (now : Time) :
  Quantity p < threshold →
  GenerateAlert p threshold now =
    Some {| ProductID := ID p; alert_Name := Name p;
            alert_Category := Category p; alert_Quantity := Quantity p;
            Threshold := threshold;
            Severity := if Quantity p =? 0 then "critical"
                        else if Quantity p <=? 2 then "high" else "low";
            Message := if Quantity p =? 0 then "Product out of stock"
                       else if Quantity p <=? 2 then "Critical stock level"
                       else "Stock below threshold";
            GeneratedAt := now |}.
Proof.
  intros Hlt. unfold GenerateAlert, IsLowStock.
  destruct (Z.ltb_spec (Quantity p) threshold); [simpl | lia].
  destruct (Quantity p =? 0); [reflexivity |].
  destruct (Quantity p <=? 2); reflexivity.
Qed.

(** Erasing the timestamp of an evaluation gives the evaluation at clock
    value 0. *)
Lemma GenerateAlert_untimed (p : Product) (threshold : Z) (now : Time) :
  untimed <$> GenerateAlert p threshold now = GenerateAlert p threshold 0.
Proof.
  destruct (Z.lt_ge_cases (Quantity p) threshold) as [Hlt|Hge].
  - rewrite !GenerateAlert_Some by done. reflexivity.
  - apply (GenerateAlert_None p threshold now) in Hge as Hn. rewrite Hn.
    symmetry. simpl. by apply GenerateAlert_None.
Qed.

(** C1. For a product with quantity >= 0 and a threshold > 0, GenerateAlert
    returns no alert when quantity >= threshold; a "critical" alert with
    message "Product out of stock" when quantity = 0; a "high" alert with
    message "Critical stock level" when 0 < quantity <= 2 and
    quantity < threshold; a "low" alert with message "Stock below threshold"
    when 2 < quantity < threshold. *)
Theorem GenerateAlert_classification (p : Product) (threshold : Z) (now : Time) :
  0 <= Quantity p → 0 < threshold →
  (threshold <= Quantity p → GenerateAlert p threshold now = None) ∧
  (Quantity p = 0 →
     ∃ a, GenerateAlert p threshold now = Some a ∧
          Severity a = "critical" ∧ Message a = "Product out of stock") ∧
  (0 < Quantity p <= 2 → Quantity p < threshold →
     ∃ a, GenerateAlert p threshold now = Some a ∧
          Severity a = "high" ∧ Message a = "Critical stock level") ∧
  (2 < Quantity p < threshold →
     ∃ a, GenerateAlert p threshold now = Some a ∧
          Severity a = "low" ∧ Message a = "Stock below threshold").
Proof.
  intros Hq Ht. split; [by apply GenerateAlert_None |].
  split; [| split].
  - intros H0. eexists. split; [apply GenerateAlert_Some; lia |].
    simpl. by rewrite H0.
  - intros Hband Hlt. eexists. split; [by apply GenerateAlert_Some |].
    simpl. destruct (Z.eqb_spec (Quantity p) 0); [lia |].
    destruct (Z.leb_spec (Quantity p) 2); [done | lia].
  - intros Hband. eexists. split; [apply GenerateAlert_Some; lia |].
    simpl. destruct (Z.eqb_spec (Quantity p) 0); [lia |].
    destruct (Z.leb_spec (Quantity p) 2); [lia | done].
Qed.

Lemma GenerateAlert_classification_witness :
  let p := seed.product "Webcam HD" "" 4 0%float "Electronics" in
  0 <= Quantity p ∧ 0 < 5 ∧
  (5 <= Quantity p → GenerateAlert p 5 17 = None) ∧
  (Quantity p = 0 →
     ∃ a, GenerateAlert p 5 17 = Some a ∧
          Severity a = "critical" ∧ Message a = "Product out of stock") ∧
  (0 < Quantity p <= 2 → Quantity p < 5 →
     ∃ a, GenerateAlert p 5 17 = Some a ∧
          Severity a = "high" ∧ Message a = "Critical stock level") ∧
  (2 < Quantity p < 5 →
     ∃ a, GenerateAlert p 5 17 = Some a ∧
          Severity a = "low" ∧ Message a = "Stock below threshold").
Proof.
  intros p. split; [simpl; lia |]. split; [lia |].
  apply (GenerateAlert_classification p 5 17); simpl; lia.
Defined.

(** C2, as stated, fails: with a non-positive threshold a product with
    quantity 0 is not low on stock, and GenerateAlert returns nil before it
    reaches the severity bands. *)
Lemma GenerateAlert_zero_threshold_no_alert :
  let p := seed.product "Router WiFi 6" "" 0 0%float "Electronics" in
  Quantity p = 0 ∧
  ¬ ∃ a, GenerateAlert p 0 17 = Some a ∧ Severity a = "critical".
Proof.
  intros p. split; [reflexivity |]. intros (a & Ha & _). discriminate Ha.
Qed.

(** C2, amended. For a product with quantity 0 and every threshold > 0
    (1 and 2 included), GenerateAlert returns an alert with severity
    "critical": the quantity = 0 band is tested before the quantity <= 2
    band and the general case. With a threshold <= 0 it returns no alert. *)
Theorem GenerateAlert_out_of_stock (p : Product) (threshold : Z) (now : Time) :
  Quantity p = 0 →
  (0 < threshold →
     ∃ a, GenerateAlert p threshold now = Some a ∧ Severity a = "critical" ∧
          Message a = "Product out of stock") ∧
  (threshold <= 0 → GenerateAlert p threshold now = None).
Proof.
  intros H0. split.
  - intros Ht. eexists. split; [apply GenerateAlert_Some; lia |].
    simpl. by rewrite H0.
  - intros Ht. apply GenerateAlert_None. lia.
Qed.

Lemma GenerateAlert_out_of_stock_witness :
  let p := seed.product "Router WiFi 6" "" 0 0%float "Electronics" in
  Quantity p = 0 ∧
  (0 < 2 →
     ∃ a, GenerateAlert p 2 17 = Some a ∧ Severity a = "critical" ∧
          Message a = "Product out of stock") ∧
  (2 <= 0 → GenerateAlert p 2 17 = None).
Proof.
  intros p. split; [reflexivity |].
  apply (GenerateAlert_out_of_stock p 2 17). reflexivity.
Defined.

(** C9. Two calls of GenerateAlert with the same product and threshold
    both return nil, or return alerts that agree on product_id, name,
    category, quantity, threshold, severity and message; only the clock
    values read may differ. *)
Theorem GenerateAlert_deterministic (p : Product) (threshold : Z)
    (now1 now2 : Time) :
  match GenerateAlert p threshold now1, GenerateAlert p threshold now2 with
  | None, None => True
  | Some a, Some b =>
      ProductID a = ProductID b ∧ alert_Name a = alert_Name b ∧
      alert_Category a = alert_Category b ∧
      alert_Quantity a = alert_Quantity b ∧ Threshold a = Threshold b ∧
      Severity a = Severity b ∧ Message a = Message b
  | _, _ => False
  end.
Proof.
  destruct (Z.lt_ge_cases (Quantity p) threshold) as [Hlt|Hge].
  - rewrite !GenerateAlert_Some by done. simpl. done.
  - rewrite (proj2 (GenerateAlert_None p threshold now1) Hge).
    rewrite (proj2 (GenerateAlert_None p threshold now2) Hge). done.
Qed.

(** C10. For a product, whose quantity is >= 0 by the invariant of the
    model (the handlers refuse every write of a negative quantity),
    ToResponse computes stock_status with the fixed thresholds 5 and 2:
    "out_of_stock" iff quantity = 0, "critical" iff 1 <= quantity <= 2,
    "low" iff 3 <= quantity <= 5, "normal" iff quantity > 5. A product with
    quantity 5 is "low" although GenerateAlert gives no alert for it at
    threshold 5. *)
Theorem ToResponse_stock_status (p : Product) :
  0 <= Quantity p →
  (StockStatus (ToResponse p) = "out_of_stock" ↔ Quantity p = 0) ∧
  (StockStatus (ToResponse p) = "critical" ↔ 1 <= Quantity p <= 2) ∧
  (StockStatus (ToResponse p) = "low" ↔ 3 <= Quantity p <= 5) ∧
  (StockStatus (ToResponse p) = "normal" ↔ 5 < Quantity p) ∧
  (Quantity p = 5 →
     StockStatus (ToResponse p) = "low" ∧
     ∀ now, GenerateAlert p 5 now = None).
Proof.
  intros Hq. simpl. unfold GetStockStatus.
  destruct (Z.eqb_spec (Quantity p) 0) as [H0|H0];
    [| destruct (Z.leb_spec (Quantity p) 2) as [H2|H2];
       [| destruct (Z.leb_spec (Quantity p) 5) as [H5|H5]]];
    repeat split; intros; try discriminate; try reflexivity; try lia;
    apply GenerateAlert_None; lia.
Qed.

Lemma ToResponse_stock_status_witness :
  let p := seed.product "Webcam HD" "" 5 0%float "Electronics" in
  0 <= Quantity p ∧
  (StockStatus (ToResponse p) = "out_of_stock" ↔ Quantity p = 0) ∧
  (StockStatus (ToResponse p) = "critical" ↔ 1 <= Quantity p <= 2) ∧
  (StockStatus (ToResponse p) = "low" ↔ 3 <= Quantity p <= 5) ∧
  (StockStatus (ToResponse p) = "normal" ↔ 5 < Quantity p) ∧
  (Quantity p = 5 →
     StockStatus (ToResponse p) = "low" ∧
     ∀ now, GenerateAlert p 5 now = None).
Proof.
  intros p. split; [simpl; lia |].
  apply (ToResponse_stock_status p). simpl. lia.
Defined.

End classification.

(** * Lists updated at an index *)

Local Open Scope list_scope.

Section list_update.
Context {A : Type}.
Implicit Types l : list A.

Lemma insert_Permutation l i x y :
  l !! i = Some x → <[i:=y]> l ≡ₚ y :: delete i l.
Proof.
  revert i. induction l as [|z l IH]; intros [|i] Hi; simplify_eq/=.
  - done.
  - rewrite (IH i) by done. apply Permutation_swap.
Qed.

Lemma sum_list_with_insert (f : A → nat) l i x y :
  l !! i = Some x →
  (sum_list_with f (<[i:=y]> l) + f x = sum_list_with f l + f y)%nat.
Proof.
  intros Hi. rewrite (insert_Permutation l i x y Hi).
  rewrite (delete_Permutation l i x Hi) at 2. simpl. lia.
Qed.

Lemma omap_cons_option_list {B} (f : A → option B) x l :
  omap f (x :: l) = option_list (f x) ++ omap f l.
Proof. csimpl. by destruct (f x). Qed.

Lemma omap_insert_Permutation {B} (f : A → option B) l i x y :
  l !! i = Some x →
  omap f (<[i:=y]> l) ++ option_list (f x) ≡ₚ option_list (f y) ++ omap f l.
Proof.
  intros Hi. rewrite (insert_Permutation l i x y Hi).
  rewrite (delete_Permutation l i x Hi) at 2.
  rewrite !omap_cons_option_list.
  rewrite <-app_assoc. f_equiv. apply Permutation_app_comm.
Qed.

Lemma omap_lookup_seq {B} (g : A → option B) l :
  omap (λ i, l !! i ≫= g) (seq 0 (length l)) = omap g l.
Proof.
  induction l as [|x l IH] using rev_ind; [done |].
  rewrite length_app, Nat.add_1_r, seq_S, !omap_app.
  f_equal.
  - rewrite <-IH. apply list_omap_ext, Forall2_same_length_lookup_2; [done |].
    intros i j k Hj Hk. apply lookup_seq in Hj as [-> ?], Hk as [-> ?]. simpl.
    by rewrite lookup_app_l.
  - csimpl. rewrite list_lookup_middle by done. done.
Qed.

Lemma omap_lookup_seq_all l : omap (λ i, l !! i) (seq 0 (length l)) = l.
Proof.
  trans (omap Some l).
  - rewrite <-(omap_lookup_seq Some l).
    apply list_omap_ext, Forall2_same_length_lookup_2; [done |].
    intros i j k Hj Hk. rewrite Hj in Hk. injection Hk as <-.
    by destruct (l !! j).
  - induction l as [|x l IH]; [done |]. csimpl. by f_equal.
Qed.

Lemma length_omap_le {B} (f : A → option B) l :
  (length (omap f l) ≤ length l)%nat.
Proof.
  induction l as [|x l IH]; [done |].
  rewrite omap_cons_option_list, length_app. destruct (f x); simpl; lia.
Qed.

Lemma sum_list_with_pos (f : A → nat) l :
  (0 < sum_list_with f l)%nat → ∃ i x, l !! i = Some x ∧ (0 < f x)%nat.
Proof.
  induction l as [|x l IH]; simpl; [lia |]. intros Hpos.
  destruct (f x) as [|k] eqn:Hfx.
  - destruct IH as (i & y & Hi & Hy); [lia |]. by exists (S i), y.
  - exists 0%nat, x. split; [done | lia].
Qed.

End list_update.

(** * The generator under every interleaving

    The invariant holds initially and is kept by every step of every
    goroutine; every step uses up some of the measure; and until the caller
    has returned some goroutine can move. *)

Section generator_facts.
Import models services generator.

Context (threshold : Z) (products : list Product).

Local Abbreviation inv := (inv threshold products).
Local Abbreviation step := (step threshold products).
Local Abbreviation evaluate_at := (evaluate_at threshold products).
Local Abbreviation from_snapshot := (from_snapshot threshold products).

Lemma live_pos ws i w :
  ws !! i = Some w → alive w = 1%nat → (0 < live ws)%nat.
Proof.
  intros Hi Hw. apply list_elem_of_lookup_2 in Hi.
  apply (sum_list_with_in _ alive) in Hi. unfold live. lia.
Qed.

Lemma live_zero_exited ws i w :
  live ws = 0%nat → ws !! i = Some w → w_pc w = WExit.
Proof.
  intros H0 Hi. destruct (w_pc w) eqn:Hpc; [| | | done];
    (assert (0 < live ws)%nat by (apply (live_pos ws i w); [done|];
       unfold alive; by rewrite Hpc)); lia.
Qed.

Lemma workers_bounded s : inv s → (length (workers s) ≤ length products)%nat.
Proof.
  intros Hinv. destruct (workers s) as [|w ws] eqn:Hws using rev_ind; [simpl; lia |].
  clear IHws.
  assert (workers s !! length ws = Some w) as Hl
    by (rewrite Hws; by apply list_lookup_middle).
  apply (inv_products _ _ _ Hinv) in Hl. apply lookup_lt_Some in Hl.
  rewrite length_app. simpl. lia.
Qed.

Lemma inv_init : inv init.
Proof.
  split; simpl; try done.
  - constructor.
  - intros i. split; [by intros ?%elem_of_nil | by intros (w & ? & _)].
Qed.

Lemma step_main_inv s s' : inv s → step_main products s = Some s' → inv s'.
Proof.
  intros Hinv Hstep. pose proof (workers_bounded s Hinv) as Hbound.
  destruct Hinv as [Hpanic Hprod Hmain Hcloser Hnodup Heval Hpub Horigin].
  unfold step_main in Hstep. unfold main_inv, closer_inv in *.
  destruct (main s) as [i|i| |] eqn:Hm.
  - destruct Hmain as (Hlen & Hc & Hwg).
    destruct (products !! i) as [p|] eqn:Hp; simplify_eq; split; simpl; try done.
    + unfold main_inv. simpl. apply lookup_lt_Some in Hp. split_and!; [done|done|lia|lia].
    + unfold main_inv. simpl. apply lookup_ge_None in Hp. split_and!; [lia|done|done].
    + unfold closer_inv. simpl. by rewrite Hc in Hcloser.
  - destruct Hmain as (Hlen & Hc & Hwg & Hi).
    destruct (products !! i) as [p|] eqn:Hp; simplify_eq; split; simpl; try done.
    + intros j w Hj. apply lookup_app_Some in Hj as [Hj|[Hge Hj]]; [by apply Hprod |].
      apply list_lookup_singleton_Some in Hj as [Hj <-]. simpl.
      replace j with (length (workers s)) by lia. done.
    + unfold main_inv. simpl. rewrite length_app. simpl.
      unfold live. rewrite sum_list_with_app. simpl. unfold live in Hwg.
      split_and!; try done; lia.
    + unfold closer_inv. simpl. by rewrite Hc in Hcloser |- *.
    + intros j. rewrite Heval. split; intros (w & Hw & Ha).
      * exists w. split; [|done]. by apply lookup_app_l_Some.
      * apply lookup_app_Some in Hw as [Hw|[Hge Hw]]; [by exists w |].
        apply list_lookup_singleton_Some in Hw as [_ <-]. done.
    + unfold published, in_flight in *. simpl. by rewrite omap_app, app_nil_r.
    + unfold published, in_flight in *. simpl. by rewrite omap_app, app_nil_r.
  - destruct (chan_buf s) as [|a buf] eqn:Hbuf.
    + destruct (chan_closed s) eqn:Hcl; simplify_eq; split; simpl; try done.
      * unfold main_inv. simpl. destruct Hmain as (? & ? & ?). done.
      * unfold published in *. simpl. by rewrite Hbuf in Hpub.
      * unfold published in *. simpl. by rewrite Hbuf in Horigin.
    + simplify_eq; split; simpl; try done.
      * unfold published in *. simpl. rewrite Hbuf in Hpub.
        by rewrite <-app_assoc.
      * unfold published in *. simpl. rewrite Hbuf in Horigin.
        by rewrite <-app_assoc.
  - done.
Qed.

Lemma step_closer_inv s s' : inv s → step_closer s = Some s' → inv s'.
Proof.
  intros [Hpanic Hprod Hmain Hcloser Hnodup Heval Hpub Horigin] Hstep.
  unfold step_closer in Hstep. unfold main_inv, closer_inv in *.
  destruct (closer s) eqn:Hc; [done | | | done].
  - destruct (Z.eqb_spec (wg s) 0) as [Hwg|]; [|done].
    simplify_eq. split; simpl; try done.
    + unfold main_inv. simpl. destruct (main s); destruct_and?; split_and?; congruence.
    + unfold closer_inv. simpl. split; [done |].
      destruct (main s); destruct_and!; try done; lia.
  - destruct Hcloser as [Hcl Hlive].
    simplify_eq. split; simpl; try done.
    + by rewrite Hpanic, Hcl.
    + unfold main_inv. simpl. destruct (main s); destruct_and?; split_and?; congruence.
Qed.

(** What replacing worker [i] changes in the quantities the invariant is
    about. *)
Lemma set_worker_products s i w w' :
  (∀ j wj, workers s !! j = Some wj → products !! j = Some (w_p wj)) →
  workers s !! i = Some w → w_p w' = w_p w →
  ∀ j wj, set_worker s i w' !! j = Some wj → products !! j = Some (w_p wj).
Proof.
  intros Hprod Hw Hsame j wj. unfold set_worker.
  destruct (decide (i = j)) as [<-|Hne].
  - rewrite list_lookup_insert_eq by (by eapply lookup_lt_Some).
    intros [= <-]. rewrite Hsame. by apply Hprod.
  - rewrite list_lookup_insert_ne by done. apply Hprod.
Qed.

Lemma set_worker_length s i w' :
  length (set_worker s i w') = length (workers s).
Proof. apply length_insert. Qed.

Lemma set_worker_live s i w w' :
  workers s !! i = Some w →
  (live (set_worker s i w') + alive w = live (workers s) + alive w')%nat.
Proof. apply sum_list_with_insert. Qed.

Lemma set_worker_in_flight s i w w' :
  workers s !! i = Some w →
  in_flight (set_worker s i w') ++ option_list (sending w)
  ≡ₚ option_list (sending w') ++ in_flight (workers s).
Proof. apply omap_insert_Permutation. Qed.

Lemma set_worker_awake s i w w' j :
  workers s !! i = Some w →
  (∃ wj, set_worker s i w' !! j = Some wj ∧ asleep wj = false) ↔
  (j = i ∧ asleep w' = false) ∨
  (j ≠ i ∧ ∃ wj, workers s !! j = Some wj ∧ asleep wj = false).
Proof.
  intros Hw. unfold set_worker. destruct (decide (i = j)) as [<-|Hne].
  - rewrite list_lookup_insert_eq by (by eapply lookup_lt_Some).
    split; [intros (wj & [= <-] & ?); by left | intros [[_ ?]|[? _]]; [eauto | done]].
  - rewrite list_lookup_insert_ne by done.
    split; [intros ?; right; by split | intros [[-> _]|[_ ?]]; done].
Qed.

Lemma step_worker_inv i now s s' :
  inv s → step_worker threshold products i now s = Some s' → inv s'.
Proof.
  intros Hinv Hstep.
  destruct Hinv as [Hpanic Hprod Hmain Hcloser Hnodup Heval Hpub Horigin].
  unfold step_worker in Hstep.
  destruct (workers s !! i) as [w|] eqn:Hw; [|done].
  pose proof (Hprod i w Hw) as Hp.
  destruct (w_pc w) as [|a| |] eqn:Hpc.
  - (* the evaluation *)
    set (w' := mkWorker (w_p w) _) in Hstep.
    assert (alive w' = 1%nat ∧ asleep w' = false ∧
            sending w' = GenerateAlert (w_p w) threshold now) as (Hal' & Has' & Hse')
      by (subst w'; unfold alive, asleep, sending; simpl;
          by destruct (GenerateAlert _ _ _)).
    assert (alive w = 1%nat ∧ asleep w = true ∧ sending w = None) as (Hal & Has & Hse)
      by (unfold alive, asleep, sending; by rewrite Hpc).
    pose proof (set_worker_live s i w w' Hw) as Hlive.
    pose proof (set_worker_in_flight s i w w' Hw) as Hfly.
    rewrite Hse, Hse', app_nil_r in Hfly. rewrite Hal, Hal' in Hlive.
    assert (w_p w' = w_p w) as Hsame by done.
    injection Hstep as <-. clearbody w'. split; simpl.
    + done.
    + by eapply set_worker_products.
    + unfold main_inv in *. simpl. rewrite set_worker_length.
      destruct (main s); simpl in Hmain; destruct_and?; split_and?;
        try done; try lia; congruence.
    + unfold closer_inv in *. simpl.
      destruct (closer s); simpl in Hcloser; destruct_and?; split_and?;
        try done; lia.
    + apply NoDup_app. split_and!; [done | | apply NoDup_singleton].
      intros j Hj ->%list_elem_of_singleton.
      apply Heval in Hj as (wj & Hwj & Haw). congruence.
    + intros j. rewrite elem_of_app, list_elem_of_singleton.
      rewrite (set_worker_awake s i w w' j Hw), Heval. split.
      * intros [(wj & Hwj & Haw)| ->]; [right | by left].
        split; [intros -> | by exists wj]. congruence.
      * intros [[-> _]|[_ ?]]; [by right | by left].
    + unfold published in *. simpl. rewrite Hfly, omap_app, <-Hpub.
      assert (omap evaluate_at [i]
              = untimed <$> option_list (GenerateAlert (w_p w) threshold now))
        as -> by (unfold generator.evaluate_at; csimpl; rewrite Hp; simpl;
                  rewrite <-(GenerateAlert_untimed _ _ now);
                  by destruct (GenerateAlert _ _ now)).
      rewrite !fmap_app, <-!app_assoc. do 2 f_equiv. apply Permutation_app_comm.
    + unfold published in *. simpl. rewrite Hfly.
      rewrite !Forall_app in Horigin. destruct Horigin as (? & ? & ?).
      rewrite !Forall_app. split_and!; try done.
      destruct (GenerateAlert _ _ now) as [a|] eqn:Ha; constructor; [|done].
      exists (w_p w), now. split; [by eapply list_elem_of_lookup_2 | done].
  - (* the send *)
    assert (alive w = 1%nat ∧ asleep w = false ∧ sending w = Some a) as (Hal & Has & Hse)
      by (unfold alive, asleep, sending; by rewrite Hpc).
    pose proof (live_pos _ _ _ Hw Hal) as Hpos.
    destruct (chan_closed s) eqn:Hcl.
    { unfold closer_inv in Hcloser. rewrite Hcl in Hcloser.
      destruct (closer s); destruct_and?; try done; lia. }
    destruct (length (chan_buf s) <? length products)%nat; [|done].
    set (w' := mkWorker (w_p w) WDefer) in Hstep.
    pose proof (set_worker_live s i w w' Hw) as Hlive.
    pose proof (set_worker_in_flight s i w w' Hw) as Hfly.
    rewrite Hse in Hfly. rewrite Hal in Hlive.
    change (alive w') with 1%nat in Hlive.
    change (sending w') with (@None ProductAlert) in Hfly. simpl in Hfly.
    assert (asleep w' = false) as Has' by done.
    assert (w_p w' = w_p w) as Hsame by done.
    injection Hstep as <-. clearbody w'. split; simpl.
    + done.
    + by eapply set_worker_products.
    + unfold main_inv in *. simpl. rewrite set_worker_length.
      destruct (main s); simpl in Hmain; destruct_and?; split_and?;
        try done; try lia; congruence.
    + unfold closer_inv in *. simpl.
      destruct (closer s); simpl in Hcloser; destruct_and?; split_and?;
        try done; lia.
    + done.
    + intros j. rewrite (set_worker_awake s i w w' j Hw), Heval. split.
      * intros (wj & Hwj & Haw). destruct (decide (j = i)) as [->|];
          [by left | right; eauto].
      * intros [[-> _]|[_ ?]]; [eauto | done].
    + unfold published in *. simpl. rewrite <-Hpub.
      rewrite <-(app_assoc (chan_buf s)). simpl.
      by rewrite Permutation_cons_append, Hfly.
    + unfold published in *. simpl.
      rewrite <-(app_assoc (chan_buf s)). simpl.
      by rewrite Permutation_cons_append, Hfly.
  - (* the deferred wg.Done() *)
    assert (alive w = 1%nat ∧ asleep w = false ∧ sending w = None) as (Hal & Has & Hse)
      by (unfold alive, asleep, sending; by rewrite Hpc).
    pose proof (live_pos _ _ _ Hw Hal) as Hpos.
    set (w' := mkWorker (w_p w) WExit) in Hstep.
    pose proof (set_worker_live s i w w' Hw) as Hlive.
    pose proof (set_worker_in_flight s i w w' Hw) as Hfly.
    rewrite Hse in Hfly. rewrite Hal in Hlive.
    change (alive w') with 0%nat in Hlive.
    change (sending w') with (@None ProductAlert) in Hfly. simpl in Hfly.
    rewrite app_nil_r in Hfly.
    assert (asleep w' = false) as Has' by done.
    assert (w_p w' = w_p w) as Hsame by done.
    assert (0 <= wg s - 1) as Hwg.
    { unfold main_inv in Hmain.
      destruct (main s); simpl in Hmain; destruct_and?; lia. }
    injection Hstep as <-. clearbody w'. split; simpl.
    + rewrite Hpanic. simpl. by apply Z.ltb_ge.
    + by eapply set_worker_products.
    + unfold main_inv in *. simpl. rewrite set_worker_length.
      destruct (main s); simpl in Hmain; destruct_and?; split_and?;
        try done; try lia; congruence.
    + unfold closer_inv in *. simpl.
      destruct (closer s); simpl in Hcloser; destruct_and?; split_and?;
        try done; lia.
    + done.
    + intros j. rewrite (set_worker_awake s i w w' j Hw), Heval. split.
      * intros (wj & Hwj & Haw). destruct (decide (j = i)) as [->|];
          [by left | right; eauto].
      * intros [[-> _]|[_ ?]]; [eauto | done].
    + unfold published in *. simpl. by rewrite Hfly.
    + unfold published in *. simpl. by rewrite Hfly.
  - done.
Qed.

Lemma step_inv a s s' : inv s → step a s = Some s' → inv s'.
Proof.
  intros Hinv. unfold services.step. rewrite (inv_panicked _ _ _ Hinv).
  destruct a; [apply step_main_inv | apply step_worker_inv | apply step_closer_inv];
    done.
Qed.

Lemma reachable_inv s : reachable threshold products s → inv s.
Proof.
  unfold reachable. revert s. apply rtc_ind_r; [apply inv_init |].
  intros s1 s2 _ [a Ha] IH. by eapply step_inv.
Qed.

Lemma exec_reachable sched s :
  reachable threshold products s →
  reachable threshold products (exec threshold products sched s).
Proof.
  revert s. induction sched as [|a sched IH]; intros s Hs; [done |].
  simpl. apply IH. destruct (step a s) as [s'|] eqn:Hstep; [|done].
  simpl. eapply rtc_r; [done |]. by exists a.
Qed.

Lemma exec_app sched sched' s :
  exec threshold products (sched ++ sched') s
  = exec threshold products sched' (exec threshold products sched s).
Proof. revert s. induction sched as [|a sched IH]; intros s; simpl; auto. Qed.

(** The schedules cover the interleaving semantics: every reachable state
    is the state some schedule leads to. *)
Lemma reachable_exec s :
  reachable threshold products s →
  ∃ sched, exec threshold products sched init = s.
Proof.
  unfold reachable. revert s. apply rtc_ind_r; [by exists [] |].
  intros s1 s2 _ [a Ha] [sched Hsched]. exists (sched ++ [a]).
  rewrite exec_app, Hsched. simpl. by rewrite Ha.
Qed.

Lemma exec_inv sched : inv (exec threshold products sched init).
Proof. apply reachable_inv, exec_reachable. apply rtc_refl. Qed.

(** Every step uses up some of the measure: no run is infinite. *)
Lemma step_measure a s s' :
  step a s = Some s' →
  (measure products s' < measure products s)%nat.
Proof.
  unfold services.step. destruct (panicked s); [done |].
  destruct a as [|i now|].
  - unfold step_main.
    destruct (main s) as [i|i| |] eqn:Hm.
    + destruct (products !! i) as [p|] eqn:Hp; intros [= <-];
        unfold measure; simpl; rewrite Hm; simpl.
      * lia.
      * apply lookup_ge_None in Hp. destruct (closer s); simpl; lia.
    + destruct (products !! i) as [p|] eqn:Hp; intros [= <-].
      unfold measure; simpl; rewrite Hm; simpl.
      apply lookup_lt_Some in Hp. rewrite sum_list_with_app. simpl. lia.
    + destruct (chan_buf s) as [|b buf] eqn:Hbuf.
      * destruct (chan_closed s); intros [= <-].
        unfold measure; simpl; rewrite Hm, Hbuf; simpl. lia.
      * intros [= <-]. unfold measure; simpl; rewrite Hm, Hbuf; simpl. lia.
    + done.
  - unfold step_worker. destruct (workers s !! i) as [w|] eqn:Hw; [|done].
    pose proof (λ w', sum_list_with_insert worker_weight (workers s) i w w' Hw)
      as Hsum.
    assert (∀ w' (buf : list ProductAlert), (worker_weight w' + length buf
                       < worker_weight w + length (chan_buf s))%nat →
      (main_weight (length products) (main s)
       + sum_list_with worker_weight (set_worker s i w')
       + closer_weight (closer s) + length buf
       < measure products s)%nat) as Hless.
    { intros w' buf Hlt. specialize (Hsum w'). unfold measure, set_worker. lia. }
    destruct (w_pc w) eqn:Hpc.
    + intros [= <-]. apply Hless. unfold worker_weight. rewrite Hpc. simpl.
      destruct (GenerateAlert _ _ _); lia.
    + destruct (chan_closed s);
        [| destruct (length (chan_buf s) <? length products)%nat; [|done]];
        intros [= <-]; apply Hless; unfold worker_weight; rewrite Hpc; simpl;
        rewrite ?length_app; simpl; lia.
    + intros [= <-]. apply Hless. unfold worker_weight. rewrite Hpc. simpl. lia.
    + done.
  - unfold step_closer. destruct (closer s) eqn:Hc; [done | | | done].
    + destruct (wg s =? 0); intros [= <-].
      unfold measure; simpl; rewrite Hc; simpl. lia.
    + intros [= <-]. unfold measure; simpl; rewrite Hc; simpl. lia.
Qed.

(** A run of [k] steps uses up at least [k] of the measure, so from the
    initial state no run has more than [6 * len(products) + 6] steps. *)
Lemma nsteps_measure k s s' :
  nsteps (step_rel threshold products) k s s' →
  (k + measure products s' ≤ measure products s)%nat.
Proof.
  induction 1 as [|k s1 s2 s3 [a Ha] _ IH]; [lia |].
  apply step_measure in Ha. lia.
Qed.

Lemma run_length_bounded k s :
  nsteps (step_rel threshold products) k init s →
  (k ≤ 6 * length products + 6)%nat.
Proof.
  intros Hk%nsteps_measure. unfold measure in Hk. simpl in Hk. lia.
Qed.

(** The channel has room for every alert: a send never finds the buffer
    full. *)
Lemma send_never_blocks s i w a :
  inv s → workers s !! i = Some w → w_pc w = WSend a →
  (length (chan_buf s) < length products)%nat.
Proof.
  intros Hinv Hw Hpc. pose proof (workers_bounded s Hinv) as Hbound.
  destruct Hinv as [_ _ _ _ Hnodup Heval Hpub _].
  assert (length (evaluated s) ≤ length (workers s))%nat as Hev.
  { trans (length (seq 0%nat (length (workers s)))); [| by rewrite length_seq].
    apply submseteq_length, NoDup_submseteq; [done |].
    intros j (wj & Hwj & _)%Heval. apply elem_of_seq.
    apply lookup_lt_Some in Hwj. lia. }
  apply Permutation_length in Hpub.
  rewrite length_fmap in Hpub. unfold published in Hpub.
  rewrite !length_app in Hpub.
  pose proof (length_omap_le evaluate_at (evaluated s)) as Hle.
  assert (0 < length (in_flight (workers s)))%nat as Hfly.
  { assert (sending w = Some a) as Hse by (unfold sending; by rewrite Hpc).
    unfold in_flight. apply list_elem_of_lookup_2 in Hw.
    assert (a ∈ omap sending (workers s)) as Hin
      by (apply list_elem_of_omap; eauto).
    destruct (omap sending (workers s)); [by apply elem_of_nil in Hin | simpl; lia]. }
  lia.
Qed.

(** Until the call returns some goroutine can move: there is no deadlock. *)
Lemma progress s : inv s → main s ≠ MReturn → ∃ a s', step a s = Some s'.
Proof.
  intros Hinv Hm. pose proof (workers_bounded s Hinv) as Hbound.
  pose proof Hinv as [Hpanic Hprod Hmain Hcloser _ _ _ _].
  unfold services.step. rewrite Hpanic.
  unfold main_inv, closer_inv in *.
  destruct (main s) as [i|i| |] eqn:Hpc; [| | |done].
  - exists RunMain. unfold step_main. rewrite Hpc.
    destruct (products !! i); eauto.
  - exists RunMain. unfold step_main. rewrite Hpc.
    destruct Hmain as (_ & _ & _ & Hi).
    apply lookup_lt_is_Some_2 in Hi as [p ->]. eauto.
  - destruct (chan_buf s) as [|b buf] eqn:Hbuf;
      [| exists RunMain; unfold step_main; rewrite Hpc, Hbuf; eauto].
    destruct Hmain as (Hlen & Hc & Hwg).
    destruct (decide (live (workers s) = 0)%nat) as [Hlive|Hlive].
    + destruct (closer s) eqn:Hcl; [done | | |].
      * exists RunCloser. unfold step_closer. rewrite Hcl.
        destruct (Z.eqb_spec (wg s) 0); [eauto | lia].
      * exists RunCloser. unfold step_closer. rewrite Hcl. eauto.
      * exists RunMain. unfold step_main. rewrite Hpc, Hbuf.
        destruct Hcloser as [-> _]. eauto.
    + destruct (sum_list_with_pos alive (workers s)) as (i & w & Hw & Hal);
        [unfold live in Hlive; lia |].
      exists (RunWorker i 0). unfold step_worker. rewrite Hw.
      destruct (w_pc w) as [|a| |] eqn:Hw_pc; [eauto | | eauto |].
      * destruct (chan_closed s); [eauto |].
        pose proof (send_never_blocks s i w a Hinv Hw Hw_pc) as Hroom.
        apply Nat.ltb_lt in Hroom as ->. eauto.
      * unfold alive in Hal. rewrite Hw_pc in Hal. lia.
Qed.

(** Whatever has happened so far, the goroutines can be scheduled so that
    the call returns. *)
Lemma exec_returns s :
  inv s → ∃ sched, main (exec threshold products sched s) = MReturn.
Proof.
  remember (measure products s) as k eqn:Hk. revert s Hk.
  induction (lt_wf k) as [k _ IH]. intros s -> Hinv.
  assert (main s = MReturn ∨ main s ≠ MReturn) as [Hret|Hrun]
    by (destruct (main s); auto).
  { by exists []. }
  destruct (progress s Hinv Hrun) as (a & s' & Hstep).
  destruct (IH (measure products s') (step_measure a s s' Hstep) s' eq_refl)
    as [sched Hsched]; [by eapply step_inv |].
  exists (a :: sched). simpl. by rewrite Hstep.
Qed.

(** On return every worker has run to its end: the log of evaluations is a
    permutation of the indices of the snapshot, and the alerts are, up to
    their timestamps and their order, the evaluations of the products. *)
Lemma returned_state s :
  inv s → main s = MReturn →
  evaluated s ≡ₚ seq 0 (length products) ∧
  untimed <$> alerts s ≡ₚ alerts_of threshold products 0 ∧
  Forall from_snapshot (alerts s).
Proof.
  intros [_ Hprod Hmain Hcloser Hnodup Heval Hpub Horigin] Hm.
  unfold main_inv, closer_inv in *. rewrite Hm in Hmain.
  destruct Hmain as (Hlen & _ & _ & Hbuf & Hcl).
  assert (live (workers s) = 0%nat) as Hlive
    by (destruct (closer s); destruct_and?; congruence).
  assert (∀ i w, workers s !! i = Some w → w_pc w = WExit) as Hexit
    by (intros i w; by apply live_zero_exited).
  assert (in_flight (workers s) = []) as Hfly.
  { unfold in_flight. apply elem_of_nil_inv. intros a Ha.
    apply list_elem_of_omap in Ha as (w & Hw & Hse).
    apply list_elem_of_lookup in Hw as [i Hw]. apply Hexit in Hw.
    unfold sending in Hse. by rewrite Hw in Hse. }
  assert (evaluated s ≡ₚ seq 0 (length products)) as Hperm.
  { apply NoDup_Permutation; [done | apply NoDup_seq |].
    intros i. rewrite Heval, elem_of_seq, <-Hlen. split.
    - intros (w & Hw%lookup_lt_Some & _). lia.
    - intros [_ Hi]. apply lookup_lt_is_Some_2 in Hi as [w Hw].
      exists w. split; [done |]. unfold asleep. by rewrite (Hexit i w Hw). }
  unfold published in *. rewrite Hbuf, Hfly, !app_nil_r in Hpub, Horigin.
  split_and!; [done | | done].
  rewrite Hpub, Hperm. unfold alerts_of, generator.evaluate_at.
  by rewrite omap_lookup_seq.
Qed.

End generator_facts.

(** * Properties of GenerateAlertsWithConcurrency *)

Section generate.
Import models services generator.

Implicit Types (threshold : Z) (products : list Product) (find : FindResult).
Implicit Types (sched : list action) (alerts : list ProductAlert).

(** A call that got its snapshot and has returned: the state it returned
    from. *)
Lemma generate_returned threshold products sched alerts err :
  GenerateAlertsWithConcurrency threshold (FindOk products) sched
    = Some (alerts, err) →
  ∃ s, run threshold (FindOk products) sched = Ran s ∧
       inv (if threshold <=? 0 then 5 else threshold) products s ∧
       main s = MReturn ∧ alerts = services.alerts s ∧ err = None.
Proof.
  unfold GenerateAlertsWithConcurrency, run. simpl.
  set (s := exec _ _ _ _). intros Hret. exists s.
  split; [done |]. split; [apply exec_inv |].
  destruct (main s); simplify_eq. done.
Qed.

Lemma ProductID_alerts_of threshold products :
  ProductID <$> alerts_of threshold products 0 `sublist_of` ID <$> products.
Proof.
  unfold alerts_of. induction products as [|p ps IH]; [done |].
  rewrite omap_cons_option_list, fmap_app, fmap_cons.
  destruct (Z.lt_ge_cases (Quantity p) threshold) as [Hlt|Hge].
  - rewrite GenerateAlert_Some by done. simpl. by constructor.
  - rewrite (proj2 (GenerateAlert_None p threshold 0) Hge). simpl.
    by constructor.
Qed.

(** A step that adds to the log of evaluations is the call of
    GenerateAlert by a worker on the product of the snapshot at the
    worker's own index, and the index is what it logs. *)
Lemma evaluation_step threshold products s a s' :
  inv threshold products s →
  step threshold products a s = Some s' →
  evaluated s' ≠ evaluated s →
  ∃ i now p,
    a = RunWorker i now ∧ products !! i = Some p ∧
    workers s !! i = Some (mkWorker p WSleep) ∧
    evaluated s' = evaluated s ++ [i] ∧
    workers s' !! i
    = Some (mkWorker p match GenerateAlert p threshold now with
                       | Some alert => WSend alert
                       | None => WDefer
                       end).
Proof.
  intros Hinv Hstep Hlog. unfold step in Hstep.
  rewrite (inv_panicked _ _ _ Hinv) in Hstep.
  destruct a as [|i now|].
  - unfold step_main in Hstep. destruct Hlog.
    repeat case_match; by simplify_eq.
  - unfold step_worker in Hstep.
    destruct (workers s !! i) as [[p pc]|] eqn:Hw; [| done].
    pose proof (inv_products _ _ _ Hinv i _ Hw) as Hp.
    pose proof (lookup_lt_Some _ _ _ Hw) as Hi. simpl in Hstep, Hp.
    destruct pc as [|alert| |];
      [| destruct Hlog; repeat case_match; by simplify_eq
       | destruct Hlog; by simplify_eq | done].
    injection Hstep as <-. exists i, now, p. simpl.
    split_and!; try done. unfold set_worker. by apply list_lookup_insert_eq.
  - unfold step_closer in Hstep. destruct Hlog.
    repeat case_match; by simplify_eq.
Qed.

(** C3. Once GenerateAlertsWithConcurrency has its snapshot, the goroutines
    can always be scheduled on to a return. An entry i gets into the log of
    evaluations only when worker i calls GenerateAlert on products[i], the
    product at index i of the snapshot. On return every product of the
    snapshot has been evaluated exactly once: the log is a permutation of
    the indices 0 .. len(products)-1, so the products evaluated are a
    permutation of the snapshot and their number is len(products); the
    alerts are, up to order and timestamps, the non-nil evaluations of the
    products of the snapshot, and there are at most len(products) of
    them. *)
Theorem generate_evaluates_every_product threshold products :
  (∀ sched, ∃ sched',
     is_Some (GenerateAlertsWithConcurrency threshold (FindOk products)
                (sched ++ sched'))) ∧
  (∀ sched s a s',
     run threshold (FindOk products) sched = Ran s →
     step (if threshold <=? 0 then 5 else threshold) products a s = Some s' →
     evaluated s' ≠ evaluated s →
     ∃ i now p,
       a = RunWorker i now ∧ products !! i = Some p ∧
       workers s !! i = Some (mkWorker p WSleep) ∧
       evaluated s' = evaluated s ++ [i] ∧
       workers s' !! i
       = Some (mkWorker p
                 match GenerateAlert p
                         (if threshold <=? 0 then 5 else threshold) now with
                 | Some alert => WSend alert
                 | None => WDefer
                 end)) ∧
  (∀ sched alerts err,
     GenerateAlertsWithConcurrency threshold (FindOk products) sched
       = Some (alerts, err) →
     evaluations (run threshold (FindOk products) sched)
       ≡ₚ seq 0 (length products) ∧
     omap (λ i, products !! i)
       (evaluations (run threshold (FindOk products) sched)) ≡ₚ products ∧
     length (evaluations (run threshold (FindOk products) sched))
       = length products ∧
     untimed <$> alerts
       ≡ₚ alerts_of (if threshold <=? 0 then 5 else threshold) products 0 ∧
     (length alerts ≤ length products)%nat).
Proof.
  split_and!.
  - intros sched.
    destruct (exec_returns (if threshold <=? 0 then 5 else threshold) products
                (exec (if threshold <=? 0 then 5 else threshold) products
                   sched init)) as [sched' Hret]; [apply exec_inv |].
    exists sched'. unfold GenerateAlertsWithConcurrency, run. simpl.
    rewrite exec_app, Hret. by eexists.
  - intros sched s a s' [= <-]. apply evaluation_step, exec_inv.
  - intros sched alerts err Hret.
    apply generate_returned in Hret as (s & -> & Hinv & Hm & -> & _). simpl.
    destruct (returned_state _ _ s Hinv Hm) as (Heval & Halerts & _).
    split_and!; [done | | by rewrite Heval, length_seq | done |].
    + rewrite Heval. by rewrite omap_lookup_seq_all.
    + apply Permutation_length in Halerts. rewrite length_fmap in Halerts.
      rewrite Halerts. apply length_omap_le.
Qed.

Lemma generate_evaluates_every_product_witness :
  let s := exec 5 (seed.snapshot 0) (replicate 31 RunMain) init in
  let s' := exec 5 (seed.snapshot 0) [RunWorker 14 17] s in
  (run 5 (FindOk (seed.snapshot 0)) (replicate 31 RunMain) = Ran s ∧
   step 5 (seed.snapshot 0) (RunWorker 14 17) s = Some s' ∧
   evaluated s' ≠ evaluated s ∧
   ∃ i now p,
     RunWorker 14 17 = RunWorker i now ∧ seed.snapshot 0 !! i = Some p ∧
     workers s !! i = Some (mkWorker p WSleep) ∧
     evaluated s' = evaluated s ++ [i] ∧
     workers s' !! i
     = Some (mkWorker p match GenerateAlert p 5 now with
                        | Some alert => WSend alert
                        | None => WDefer
                        end)) ∧
  GenerateAlertsWithConcurrency 5 (FindOk (seed.snapshot 0)) (sequential 15 17)
    = Some (alerts_of 5 (seed.snapshot 0) 17, None) ∧
  evaluations (run 5 (FindOk (seed.snapshot 0)) (sequential 15 17))
    ≡ₚ seq 0 (length (seed.snapshot 0)) ∧
  omap (λ i, seed.snapshot 0 !! i)
    (evaluations (run 5 (FindOk (seed.snapshot 0)) (sequential 15 17)))
    ≡ₚ seed.snapshot 0 ∧
  length (evaluations (run 5 (FindOk (seed.snapshot 0)) (sequential 15 17)))
    = length (seed.snapshot 0) ∧
  untimed <$> alerts_of 5 (seed.snapshot 0) 17
    ≡ₚ alerts_of 5 (seed.snapshot 0) 0 ∧
  (length (alerts_of 5%Z (seed.snapshot 0%Z) 17%Z)
   ≤ length (seed.snapshot 0%Z))%nat.
Proof.
  intros s s'.
  destruct (generate_evaluates_every_product 5 (seed.snapshot 0))
    as (_ & Hstep & Hret).
  assert (step 5 (seed.snapshot 0) (RunWorker 14 17) s = Some s') as Hs
    by (vm_compute; reflexivity).
  assert (evaluated s' ≠ evaluated s) as Hlog
    by (intros Heq; vm_compute in Heq; discriminate Heq).
  split.
  - split; [reflexivity |]. split; [exact Hs |]. split; [exact Hlog |].
    exact (Hstep (replicate 31 RunMain) s (RunWorker 14 17) s' eq_refl Hs Hlog).
  - assert (GenerateAlertsWithConcurrency 5 (FindOk (seed.snapshot 0))
              (sequential 15 17)
            = Some (alerts_of 5 (seed.snapshot 0) 17, None)) as Hgen
      by (vm_compute; reflexivity).
    split; [exact Hgen |].
    exact (Hret (sequential 15 17) _ None Hgen).
Defined.

(** C4. With a threshold <= 0 (0 and -3 among them) GenerateAlertsWithConcurrency
    runs exactly as with threshold 5: under every schedule it reaches the
    same state and returns the same alerts, each with threshold field 5. *)
Theorem generate_default_threshold threshold find sched :
  threshold <= 0 →
  run threshold find sched = run 5 find sched ∧
  GenerateAlertsWithConcurrency threshold find sched
    = GenerateAlertsWithConcurrency 5 find sched ∧
  (∀ alerts err a,
     GenerateAlertsWithConcurrency threshold find sched = Some (alerts, err) →
     a ∈ alerts → Threshold a = 5).
Proof.
  intros Hle.
  assert (run threshold find sched = run 5 find sched) as Hrun.
  { unfold run. by destruct (Z.leb_spec threshold 0); [|lia]. }
  split_and!; [done | unfold GenerateAlertsWithConcurrency; by rewrite Hrun |].
  intros alerts err a Hret Ha. destruct find as [e|products].
  - injection Hret as <- _. by apply elem_of_nil in Ha.
  - apply generate_returned in Hret as (s & _ & Hinv & Hm & -> & _).
    destruct (Z.leb_spec threshold 0); [|lia].
    destruct (returned_state _ _ s Hinv Hm) as (_ & _ & Horigin).
    rewrite Forall_forall in Horigin.
    destruct (Horigin a Ha) as (p & now & _ & Hgen).
    destruct (Z.lt_ge_cases (Quantity p) 5) as [Hlt|Hge].
    + rewrite GenerateAlert_Some in Hgen by done. by injection Hgen as <-.
    + by rewrite (proj2 (GenerateAlert_None p 5 now) Hge) in Hgen.
Qed.

Lemma generate_default_threshold_witness :
  -3 <= 0 ∧
  run (-3) (FindOk (seed.snapshot 0)) (sequential 15 17)
    = run 5 (FindOk (seed.snapshot 0)) (sequential 15 17) ∧
  GenerateAlertsWithConcurrency (-3) (FindOk (seed.snapshot 0)) (sequential 15 17)
    = GenerateAlertsWithConcurrency 5 (FindOk (seed.snapshot 0)) (sequential 15 17) ∧
  (∀ alerts err a,
     GenerateAlertsWithConcurrency (-3) (FindOk (seed.snapshot 0))
       (sequential 15 17) = Some (alerts, err) →
     a ∈ alerts → Threshold a = 5).
Proof.
  split; [lia |]. apply generate_default_threshold. lia.
Defined.

(** C5. GenerateAlertsWithConcurrency returns an error exactly when the
    fetch of the products fails. Then it returns at once, with no alerts and
    no product evaluated, and the error it returns wraps the error of the
    store. Once it has the snapshot no goroutine panics, and when it
    returns the error is nil and every product has been evaluated. *)
Theorem generate_fails_iff_fetch_fails threshold find sched :
  has_panicked (run threshold find sched) = false ∧
  (∀ alerts err,
     GenerateAlertsWithConcurrency threshold find sched = Some (alerts, err) →
     (is_Some err ↔ ∃ e, find = FindError e)) ∧
  (∀ e, find = FindError e →
     GenerateAlertsWithConcurrency threshold find sched
       = Some ([], Some (Errorf "failed to fetch products" e)) ∧
     Error (Errorf "failed to fetch products" e)
       = ("failed to fetch products: " ++ Error e)%string ∧
     evaluations (run threshold find sched) = []) ∧
  (∀ products alerts err, find = FindOk products →
     GenerateAlertsWithConcurrency threshold find sched = Some (alerts, err) →
     err = None ∧
     length (evaluations (run threshold find sched)) = length products).
Proof.
  split_and!.
  - destruct find as [e|products]; [done |].
    unfold run. simpl. eapply inv_panicked, exec_inv.
  - intros alerts err Hret. destruct find as [e|products].
    + injection Hret as _ <-. split; eauto.
    + apply generate_returned in Hret as (_ & _ & _ & _ & _ & ->).
      split; [by intros [? ?] | by intros [? ?]].
  - by intros e ->.
  - intros products alerts err -> Hret.
    apply generate_returned in Hret as (s & -> & Hinv & Hm & _ & ->).
    destruct (returned_state _ _ s Hinv Hm) as (Heval & _).
    split; [done |]. simpl. by rewrite Heval, length_seq.
Qed.

Lemma generate_fails_iff_fetch_fails_witness :
  GenerateAlertsWithConcurrency 5 (FindError (StoreError "connection refused"))
    (sequential 15 17)
    = Some ([], Some (Errorf "failed to fetch products"
                        (StoreError "connection refused"))) ∧
  Error (Errorf "failed to fetch products" (StoreError "connection refused"))
    = "failed to fetch products: connection refused"%string ∧
  evaluations (run 5 (FindError (StoreError "connection refused"))
                 (sequential 15 17)) = [].
Proof.
  exact (proj1 (proj2 (proj2 (generate_fails_iff_fetch_fails 5
           (FindError (StoreError "connection refused")) (sequential 15 17))))
           (StoreError "connection refused") eq_refl).
Defined.

(** C6. If the products of the snapshot have distinct ids, the alerts
    returned have distinct product ids: at most one alert per product. *)
Theorem generate_no_duplicate_alerts threshold products sched alerts err :
  NoDup (ID <$> products) →
  GenerateAlertsWithConcurrency threshold (FindOk products) sched
    = Some (alerts, err) →
  NoDup (ProductID <$> alerts).
Proof.
  intros Hids Hret.
  apply generate_returned in Hret as (s & _ & Hinv & Hm & -> & _).
  destruct (returned_state _ _ s Hinv Hm) as (_ & Halerts & _).
  assert (ProductID <$> services.alerts s
          = ProductID <$> (untimed <$> services.alerts s)) as ->
    by (rewrite <-list_fmap_compose; by apply list_fmap_ext).
  rewrite Halerts. eapply sublist_NoDup; [done | apply ProductID_alerts_of].
Qed.

Lemma generate_no_duplicate_alerts_witness :
  NoDup (ID <$> seed.snapshot 0) ∧
  GenerateAlertsWithConcurrency 5 (FindOk (seed.snapshot 0)) (sequential 15 17)
    = Some (alerts_of 5 (seed.snapshot 0) 17, None) ∧
  NoDup (ProductID <$> alerts_of 5 (seed.snapshot 0) 17).
Proof.
  assert (NoDup (ID <$> seed.snapshot 0)) as Hids
    by (apply (bool_decide_unpack _); vm_compute; exact I).
  split; [done |]. split; [vm_compute; reflexivity |].
  apply (generate_no_duplicate_alerts 5 (seed.snapshot 0) (sequential 15 17)
           _ None Hids).
  vm_compute. reflexivity.
Defined.

(** C7, as stated, fails: on the seed snapshot with threshold 5 the call
    returns, when the goroutines run one after the other, the alerts of the
    products with quantities 3, 2, 4, 1 and 0. They are five, not four. *)
Lemma seed_alerts_are_not_four :
  ∃ alerts,
    GenerateAlertsWithConcurrency 5 (FindOk (seed.snapshot 0))
      (sequential 15 17) = Some (alerts, None) ∧
    alert_Quantity <$> alerts = [3; 2; 4; 1; 0] ∧
    length alerts ≠ 4%nat.
Proof.
  eexists. split; [vm_compute; reflexivity |]. split; [reflexivity |].
  simpl. lia.
Qed.

Lemma seed_low_stock_ids t :
  ID <$> filter (λ p, Quantity p < 5) (seed.snapshot t)
  = [11; 12; 13; 14; 15]%N.
Proof.
  unfold seed.snapshot, seed.products. simpl imap.
  repeat (rewrite filter_cons; simpl Quantity; case_decide; [try lia | try lia]).
  reflexivity.
Qed.

(** C7, amended. On the seed snapshot (quantities 15, 8, 25, 12, 20, 30,
    45, 18, 10, 35, 3, 2, 4, 1, 0) with threshold 5, a call that returns
    has evaluated 15 products and returns alerts for exactly the products
    with quantity < 5, which are the 5 products with keys 11 to 15. *)
Theorem seed_alerts t sched alerts err :
  GenerateAlertsWithConcurrency 5 (FindOk (seed.snapshot t)) sched
    = Some (alerts, err) →
  Quantity <$> seed.snapshot t
    = [15; 8; 25; 12; 20; 30; 45; 18; 10; 35; 3; 2; 4; 1; 0] ∧
  ProductID <$> alerts
    ≡ₚ ID <$> filter (λ p, Quantity p < 5) (seed.snapshot t) ∧
  ProductID <$> alerts ≡ₚ [11; 12; 13; 14; 15]%N ∧
  length alerts = 5%nat ∧
  length (evaluations (run 5 (FindOk (seed.snapshot t)) sched)) = 15%nat.
Proof.
  intros Hret.
  apply generate_returned in Hret as (s & -> & Hinv & Hm & -> & _).
  destruct (returned_state _ _ s Hinv Hm) as (Heval & Halerts & _).
  apply Permutation_length in Heval. rewrite length_seq in Heval.
  assert (ProductID <$> services.alerts s ≡ₚ [11; 12; 13; 14; 15]%N) as Hids.
  { assert (ProductID <$> services.alerts s
            = ProductID <$> (untimed <$> services.alerts s)) as ->
      by (rewrite <-list_fmap_compose; by apply list_fmap_ext).
    rewrite Halerts. vm_compute. reflexivity. }
  split_and!.
  - reflexivity.
  - by rewrite seed_low_stock_ids.
  - done.
  - apply Permutation_length in Hids. by rewrite length_fmap in Hids.
  - etrans; [exact Heval | reflexivity].
Qed.
Lemma seed_alerts_witness :
  GenerateAlertsWithConcurrency 5 (FindOk (seed.snapshot 0)) (sequential 15 17)
    = Some (alerts_of 5 (seed.snapshot 0) 17, None) ∧
  ProductID <$> alerts_of 5 (seed.snapshot 0) 17 ≡ₚ [11; 12; 13; 14; 15]%N ∧
  length (alerts_of 5 (seed.snapshot 0) 17) = 5%nat ∧
  length (evaluations (run 5 (FindOk (seed.snapshot 0)) (sequential 15 17)))
    = 15%nat.
Proof.
  assert (GenerateAlertsWithConcurrency 5 (FindOk (seed.snapshot 0))
            (sequential 15 17)
          = Some (alerts_of 5 (seed.snapshot 0) 17, None)) as Hret
    by (vm_compute; reflexivity).
  split; [done |].
  destruct (seed_alerts 0 (sequential 15 17) _ None Hret)
    as (_ & _ & Hids & Hlen & Hev).
  exact (conj Hids (conj Hlen Hev)).
Defined.


(** C8. An alert made by GenerateAlert copies product_id, name, category
    and quantity from the product and carries the threshold it was given
    and the clock value it read. An alert returned by
    GenerateAlertsWithConcurrency is such a copy of a product of the
    snapshot, and its threshold field is the normalised threshold: 5 when
    the caller passed a value <= 0, the caller's value otherwise. *)
Theorem alert_fields_copied :
  (∀ (p : Product) threshold (now : Time) (a : ProductAlert),
     GenerateAlert p threshold now = Some a →
     ProductID a = ID p ∧ alert_Name a = Name p ∧
     alert_Category a = Category p ∧ alert_Quantity a = Quantity p ∧
     Threshold a = threshold ∧ GeneratedAt a = now) ∧
  (∀ threshold products sched alerts err (a : ProductAlert),
     GenerateAlertsWithConcurrency threshold (FindOk products) sched
       = Some (alerts, err) →
     a ∈ alerts →
     Threshold a = (if threshold <=? 0 then 5 else threshold) ∧
     ∃ p, p ∈ products ∧
          ProductID a = ID p ∧ alert_Name a = Name p ∧
          alert_Category a = Category p ∧ alert_Quantity a = Quantity p).
Proof.
  assert (∀ (p : Product) threshold (now : Time) (a : ProductAlert),
     GenerateAlert p threshold now = Some a →
     ProductID a = ID p ∧ alert_Name a = Name p ∧
     alert_Category a = Category p ∧ alert_Quantity a = Quantity p ∧
     Threshold a = threshold ∧ GeneratedAt a = now) as Hcopy.
  { intros p threshold now a Hgen.
    destruct (Z.lt_ge_cases (Quantity p) threshold) as [Hlt|Hge].
    - rewrite GenerateAlert_Some in Hgen by done. by injection Hgen as <-.
    - by rewrite (proj2 (GenerateAlert_None p threshold now) Hge) in Hgen. }
  split; [exact Hcopy |].
  intros threshold products sched alerts err a Hret Ha.
  apply generate_returned in Hret as (s & _ & Hinv & Hm & -> & _).
  destruct (returned_state _ _ s Hinv Hm) as (_ & _ & Horigin).
  rewrite Forall_forall in Horigin.
  destruct (Horigin a Ha) as (p & now & Hp & Hgen).
  apply Hcopy in Hgen as (? & ? & ? & ? & ? & _).
  split; [done |]. exists p. by split_and!.
Qed.

Lemma alert_fields_copied_witness :
  let p := seed.created 0 12
             (seed.product "Webcam HD" "" 4 0%float "Electronics") in
  ∃ a, GenerateAlert p 5 17 = Some a ∧
       ProductID a = 13%N ∧ alert_Name a = "Webcam HD"%string ∧
       alert_Category a = "Electronics"%string ∧ alert_Quantity a = 4 ∧
       Threshold a = 5 ∧ GeneratedAt a = 17.
Proof.
  intros p. eexists. split; [reflexivity |].
  exact (proj1 alert_fields_copied p 5 17 _ eq_refl).
Defined.

End generate.

(** * Further properties of GenerateAlertsWithConcurrency *)

Section generate_more.
Import models services generator.

Implicit Types (threshold : Z) (products : list Product) (find : FindResult).
Implicit Types (sched : list action) (alerts : list ProductAlert).

Lemma alerts_of_filter threshold products now :
  alerts_of threshold products now
  = alerts_of threshold (filter (λ p, Quantity p < threshold) products) now.
Proof.
  unfold alerts_of. induction products as [|p ps IH]; [done |].
  rewrite filter_cons. case_decide as Hlt.
  - rewrite !omap_cons_option_list. by f_equal.
  - rewrite omap_cons_option_list, <-IH.
    rewrite (proj2 (GenerateAlert_None p threshold now)) by lia. done.
Qed.

Lemma ProductID_alerts_of_filter threshold products now :
  ProductID <$> alerts_of threshold products now
  = ID <$> filter (λ p, Quantity p < threshold) products.
Proof.
  unfold alerts_of. induction products as [|p ps IH]; [done |].
  rewrite filter_cons, omap_cons_option_list, fmap_app, IH. case_decide as Hlt.
  - by rewrite GenerateAlert_Some.
  - by rewrite (proj2 (GenerateAlert_None p threshold now)) by lia.
Qed.

Lemma ProductID_untimed alerts :
  ProductID <$> (untimed <$> alerts) = ProductID <$> alerts.
Proof. rewrite <-list_fmap_compose. by apply list_fmap_ext. Qed.

(** X1. The alerts returned are, up to their order and their timestamps,
    the evaluations of exactly the products whose quantity is below the
    normalised threshold: one alert for each such product, none for any
    other. *)
Theorem generate_alerts_are_the_low_stock threshold products sched alerts err :
  GenerateAlertsWithConcurrency threshold (FindOk products) sched
    = Some (alerts, err) →
  untimed <$> alerts
    ≡ₚ alerts_of (if threshold <=? 0 then 5 else threshold)
         (filter (λ p, Quantity p < (if threshold <=? 0 then 5 else threshold))
            products) 0 ∧
  ProductID <$> alerts
    ≡ₚ ID <$> filter (λ p, Quantity p < (if threshold <=? 0 then 5 else threshold))
                products ∧
  length alerts
    = length (filter (λ p, Quantity p < (if threshold <=? 0 then 5 else threshold))
                products).
Proof.
  intros Hret.
  apply generate_returned in Hret as (s & _ & Hinv & Hm & -> & _).
  destruct (returned_state _ _ s Hinv Hm) as (_ & Halerts & _).
  assert (ProductID <$> services.alerts s
          ≡ₚ ID <$> filter (λ p, Quantity p < (if threshold <=? 0 then 5 else threshold))
                      products) as Hids
    by (by rewrite <-ProductID_untimed, Halerts, ProductID_alerts_of_filter).
  split_and!; [by rewrite Halerts, <-alerts_of_filter | done |].
  apply Permutation_length in Hids. by rewrite !length_fmap in Hids.
Qed.

Lemma generate_alerts_are_the_low_stock_witness :
  GenerateAlertsWithConcurrency 3 (FindOk (seed.snapshot 0)) (sequential 15 17)
    = Some (alerts_of 3 (seed.snapshot 0) 17, None) ∧
  ProductID <$> alerts_of 3 (seed.snapshot 0) 17
    ≡ₚ ID <$> filter (λ p, Quantity p < 3) (seed.snapshot 0) ∧
  length (alerts_of 3 (seed.snapshot 0) 17)
    = length (filter (λ p, Quantity p < 3) (seed.snapshot 0)).
Proof.
  assert (GenerateAlertsWithConcurrency 3 (FindOk (seed.snapshot 0))
            (sequential 15 17)
          = Some (alerts_of 3 (seed.snapshot 0) 17, None)) as Hret
    by (vm_compute; reflexivity).
  split; [exact Hret |].
  exact (proj2 (generate_alerts_are_the_low_stock 3 (seed.snapshot 0)
                  (sequential 15 17) _ None Hret)).
Defined.

(** X2. What a call returns does not depend on the schedule, except for
    the order of the alerts and their timestamps. *)
Theorem generate_schedule_independent threshold find sched1 sched2
    alerts1 err1 alerts2 err2 :
  GenerateAlertsWithConcurrency threshold find sched1 = Some (alerts1, err1) →
  GenerateAlertsWithConcurrency threshold find sched2 = Some (alerts2, err2) →
  untimed <$> alerts1 ≡ₚ untimed <$> alerts2 ∧ err1 = err2.
Proof.
  intros Hret1 Hret2. destruct find as [e|products].
  - injection Hret1 as <- <-. injection Hret2 as <- <-. done.
  - apply generate_returned in Hret1 as (s1 & _ & Hinv1 & Hm1 & -> & ->).
    apply generate_returned in Hret2 as (s2 & _ & Hinv2 & Hm2 & -> & ->).
    destruct (returned_state _ _ s1 Hinv1 Hm1) as (_ & Halerts1 & _).
    destruct (returned_state _ _ s2 Hinv2 Hm2) as (_ & Halerts2 & _).
    split; [by rewrite Halerts1, Halerts2 | done].
Qed.

Lemma generate_schedule_independent_witness :
  ∃ alerts2,
    GenerateAlertsWithConcurrency 5 (FindOk (seed.snapshot 0))
      (sequential 15 17) = Some (alerts_of 5 (seed.snapshot 0) 17, None) ∧
    GenerateAlertsWithConcurrency 5 (FindOk (seed.snapshot 0))
      (schedules.reversed 15 99) = Some (alerts2, None) ∧
    ProductID <$> alerts2 = [15; 14; 13; 12; 11]%N ∧
    untimed <$> alerts_of 5 (seed.snapshot 0) 17 ≡ₚ untimed <$> alerts2.
Proof.
  eexists. split; [vm_compute; reflexivity |].
  split; [vm_compute; reflexivity |]. split; [reflexivity |].
  refine (proj1 (generate_schedule_independent 5 (FindOk (seed.snapshot 0))
                   (sequential 15 17) (schedules.reversed 15 99)
                   _ None _ None _ _)); vm_compute; reflexivity.
Defined.

(** X3. When the call returns no goroutine is left behind: there is one
    worker per product and each has finished, the closer has finished, the
    WaitGroup counter is zero, and the channel is closed and empty. *)
Theorem generate_returns_quiescent threshold products sched s :
  run threshold (FindOk products) sched = Ran s →
  main s = MReturn →
  length (workers s) = length products ∧
  Forall (λ w, w_pc w = WExit) (workers s) ∧
  closer s = CExit ∧ wg s = 0 ∧
  chan_closed s = true ∧ chan_buf s = [].
Proof.
  intros [= <-] Hm.
  pose proof (exec_inv (if threshold <=? 0 then 5 else threshold) products sched)
    as Hinv.
  set (s := exec _ _ _ _) in *.
  destruct Hinv as [_ _ Hmain Hcloser _ _ _ _].
  unfold main_inv, closer_inv in *. rewrite Hm in Hmain.
  destruct Hmain as (Hlen & _ & Hwg & Hbuf & Hcl).
  assert (closer s = CExit ∧ live (workers s) = 0%nat) as [Hc Hlive]
    by (destruct (closer s); destruct_and?; split; congruence).
  split_and!; try done; [| lia].
  apply Forall_lookup. intros i w Hw. by eapply live_zero_exited.
Qed.

Lemma generate_returns_quiescent_witness :
  let s := exec 5 (seed.snapshot 0) (sequential 15 17) init in
  run 5 (FindOk (seed.snapshot 0)) (sequential 15 17) = Ran s ∧
  main s = MReturn ∧
  length (workers s) = length (seed.snapshot 0) ∧
  Forall (λ w, w_pc w = WExit) (workers s) ∧
  closer s = CExit ∧ wg s = 0 ∧
  chan_closed s = true ∧ chan_buf s = [].
Proof.
  intros s.
  assert (main s = MReturn) as Hm by (vm_compute; reflexivity).
  split; [reflexivity |]. split; [exact Hm |].
  exact (generate_returns_quiescent 5 (seed.snapshot 0) (sequential 15 17) s
           eq_refl Hm).
Defined.

(** X4. A channel of capacity len(products) is large enough: whenever a
    worker is about to send its alert, the channel is still open and its
    buffer has room, so the send goes through at once and without a
    panic. *)
Theorem generate_send_goes_through threshold products sched s i w a now :
  run threshold (FindOk products) sched = Ran s →
  workers s !! i = Some w → w_pc w = WSend a →
  chan_closed s = false ∧
  (length (chan_buf s) < length products)%nat ∧
  ∃ s', step (if threshold <=? 0 then 5 else threshold) products
          (RunWorker i now) s = Some s' ∧
        chan_buf s' = chan_buf s ++ [a] ∧ panicked s' = false.
Proof.
  intros [= <-] Hw Hpc.
  pose proof (exec_inv (if threshold <=? 0 then 5 else threshold) products sched)
    as Hinv.
  set (s := exec _ _ _ _) in *.
  pose proof (send_never_blocks _ _ s i w a Hinv Hw Hpc) as Hroom.
  assert (chan_closed s = false) as Hcl.
  { destruct Hinv as [_ _ _ Hcloser _ _ _ _]. unfold closer_inv in Hcloser.
    assert (0 < live (workers s))%nat
      by (apply (live_pos _ i w Hw); unfold alive; by rewrite Hpc).
    destruct (closer s); destruct_and?; try done; lia. }
  split_and!; [done | done |].
  unfold step. rewrite (inv_panicked _ _ _ Hinv). simpl.
  unfold step_worker. rewrite Hw, Hpc, Hcl.
  apply Nat.ltb_lt in Hroom as ->. eexists. split; [done |]. simpl.
  split; [done | apply (inv_panicked _ _ _ Hinv)].
Qed.

Lemma generate_send_goes_through_witness :
  let s := exec 5 (seed.snapshot 0)
             (replicate 31 RunMain ++ [RunWorker 14 17]) init in
  ∃ w a,
    run 5 (FindOk (seed.snapshot 0)) (replicate 31 RunMain ++ [RunWorker 14 17])
      = Ran s ∧
    workers s !! 14%nat = Some w ∧ w_pc w = WSend a ∧
    chan_closed s = false ∧
    (length (chan_buf s) < length (seed.snapshot 0%Z))%nat ∧
    ∃ s', step 5 (seed.snapshot 0) (RunWorker 14 18) s = Some s' ∧
          chan_buf s' = chan_buf s ++ [a] ∧ panicked s' = false.
Proof.
  intros s. eexists _, _.
  split; [reflexivity |].
  assert (∀ w a, workers s !! 14%nat = Some w → w_pc w = WSend a →
            workers s !! 14%nat = Some w ∧ w_pc w = WSend a ∧
            chan_closed s = false ∧
            (length (chan_buf s) < length (seed.snapshot 0%Z))%nat ∧
            ∃ s', step 5 (seed.snapshot 0) (RunWorker 14 18) s = Some s' ∧
                  chan_buf s' = chan_buf s ++ [a] ∧ panicked s' = false) as H.
  { intros w a Hw Hpc. split; [done |]. split; [done |].
    exact (generate_send_goes_through 5 (seed.snapshot 0) _ s 14 w a 18
             eq_refl Hw Hpc). }
  apply H; vm_compute; reflexivity.
Defined.

(** X5. The call cannot hang: as long as it has not returned some goroutine
    can take a step, and no run has more than 6 * len(products) + 6 steps. *)
Theorem generate_cannot_hang threshold products :
  (∀ sched,
     main (exec threshold products sched init) ≠ MReturn →
     ∃ a s', step threshold products a (exec threshold products sched init)
             = Some s') ∧
  (∀ k s, nsteps (step_rel threshold products) k init s →
     (k ≤ 6 * length products + 6)%nat).
Proof.
  split.
  - intros sched Hm. apply progress; [apply exec_inv | done].
  - apply run_length_bounded.
Qed.

Lemma generate_cannot_hang_witness :
  main (exec 5 (seed.snapshot 0) (replicate 31 RunMain) init) ≠ MReturn ∧
  ∃ a s', step 5 (seed.snapshot 0) a
            (exec 5 (seed.snapshot 0) (replicate 31 RunMain) init) = Some s'.
Proof.
  assert (main (exec 5 (seed.snapshot 0) (replicate 31 RunMain) init)
          ≠ MReturn) as Hm by (vm_compute; discriminate).
  split; [exact Hm |].
  exact (proj1 (generate_cannot_hang 5 (seed.snapshot 0))
           (replicate 31 RunMain) Hm).
Defined.

(** X6. With an empty product table the call returns no alerts and no
    error, as soon as the closer has closed the channel. *)
Theorem generate_empty_snapshot threshold :
  GenerateAlertsWithConcurrency threshold (FindOk [])
    [RunMain; RunCloser; RunCloser; RunMain] = Some ([], None) ∧
  (∀ sched alerts err,
     GenerateAlertsWithConcurrency threshold (FindOk []) sched
       = Some (alerts, err) →
     alerts = [] ∧ err = None).
Proof.
  split; [reflexivity |].
  intros sched alerts err Hret.
  apply generate_returned in Hret as (s & _ & Hinv & Hm & -> & ->).
  destruct (returned_state _ _ s Hinv Hm) as (_ & Halerts & _).
  apply Permutation_length in Halerts. rewrite length_fmap in Halerts.
  split; [by apply nil_length_inv | done].
Qed.

Lemma generate_empty_snapshot_witness :
  GenerateAlertsWithConcurrency 7 (FindOk [])
    (replicate 9 RunCloser ++ sequential 0 17) = Some ([], None) ∧
  [] = @nil ProductAlert ∧ @None error = None.
Proof.
  split; [reflexivity |].
  exact (proj2 (generate_empty_snapshot 7)
           (replicate 9 RunCloser ++ sequential 0 17) [] None eq_refl).
Defined.

(** The product ids of the alerts, and their number. *)
Lemma generate_alerts_low_stock_ids threshold products sched alerts err :
  GenerateAlertsWithConcurrency threshold (FindOk products) sched
    = Some (alerts, err) →
  ProductID <$> alerts
    ≡ₚ ID <$> filter (λ p, Quantity p < (if threshold <=? 0 then 5 else threshold))
                products ∧
  length alerts
    = length (filter (λ p, Quantity p < (if threshold <=? 0 then 5 else threshold))
                products).
Proof.
  intros Hret.
  apply generate_returned in Hret as (s & _ & Hinv & Hm & -> & _).
  destruct (returned_state _ _ s Hinv Hm) as (_ & Halerts & _).
  assert (ProductID <$> services.alerts s
          ≡ₚ ID <$> filter (λ p, Quantity p < (if threshold <=? 0 then 5 else threshold))
                      products) as Hids
    by (by rewrite <-ProductID_untimed, Halerts, ProductID_alerts_of_filter).
  split; [done |].
  apply Permutation_length in Hids. by rewrite !length_fmap in Hids.
Qed.


End generate_more.

(** * Alert severities and stock statuses *)

Section vocabulary.
Import models.

(** X7. The two classifications name the same bands differently. Whenever
    GenerateAlert gives an alert, at whatever threshold, its severity is
    "critical" exactly when ToResponse reports "out_of_stock", "high"
    exactly when ToResponse reports "critical", and "low" exactly when
    ToResponse reports "low" or "normal"; the last case needs a threshold
    above 6. *)
Theorem alert_severity_and_stock_status (p : Product) (threshold : Z)
    (now : Time) (a : ProductAlert) :
  GenerateAlert p threshold now = Some a →
  (Severity a = "critical" ↔ StockStatus (ToResponse p) = "out_of_stock") ∧
  (Severity a = "high" ↔ StockStatus (ToResponse p) = "critical") ∧
  (Severity a = "low" ↔
     StockStatus (ToResponse p) = "low" ∨ StockStatus (ToResponse p) = "normal") ∧
  (StockStatus (ToResponse p) = "normal" → 6 < threshold).
Proof.
  intros Hgen.
  destruct (Z.lt_ge_cases (Quantity p) threshold) as [Hlt|Hge];
    [| by rewrite (proj2 (GenerateAlert_None p threshold now) Hge) in Hgen].
  rewrite GenerateAlert_Some in Hgen by done. injection Hgen as <-.
  simpl. unfold GetStockStatus.
  destruct (Z.eqb_spec (Quantity p) 0) as [H0|H0];
    [| destruct (Z.leb_spec (Quantity p) 2) as [H2|H2];
       [| destruct (Z.leb_spec (Quantity p) 5) as [H5|H5]]];
    repeat split; intros; destruct_or?; try discriminate; try reflexivity;
    auto; lia.
Qed.

Lemma alert_severity_and_stock_status_witness :
  let p := seed.product "Webcam HD" "" 6 0%float "Electronics" in
  ∃ a, GenerateAlert p 10 17 = Some a ∧
       (Severity a = "critical" ↔ StockStatus (ToResponse p) = "out_of_stock") ∧
       (Severity a = "high" ↔ StockStatus (ToResponse p) = "critical") ∧
       (Severity a = "low" ↔
          StockStatus (ToResponse p) = "low" ∨
          StockStatus (ToResponse p) = "normal") ∧
       (StockStatus (ToResponse p) = "normal" → 6 < 10).
Proof.
  intros p. eexists. split; [reflexivity |].
  exact (alert_severity_and_stock_status p 10 17 _ eq_refl).
Defined.

(** X8. The status the seed script prints for a product is the stock
    status of the API, except that it spells "out of stock" where the API
    has "out_of_stock". *)
Theorem seed_status_is_stock_status (p : Product) :
  (StockStatus (ToResponse p) = "out_of_stock" →
   seed_script.status p = "out of stock") ∧
  (StockStatus (ToResponse p) ≠ "out_of_stock" →
   seed_script.status p = StockStatus (ToResponse p)) ∧
  seed_script.status p ≠ "out_of_stock".
Proof.
  simpl. unfold GetStockStatus, seed_script.status.
  destruct (Quantity p =? 0); [by split_and! |].
  destruct (Quantity p <=? 2); [by split_and! |].
  destruct (Quantity p <=? 5); by split_and!.
Qed.

Lemma seed_status_is_stock_status_witness :
  let p := seed.product "Webcam HD" "" 0 0%float "Electronics" in
  StockStatus (ToResponse p) = "out_of_stock" ∧
  seed_script.status p = "out of stock".
Proof.
  intros p. split; [reflexivity |].
  exact (proj1 (seed_status_is_stock_status p) eq_refl).
Defined.

End vocabulary.

(** * The product handlers *)

Section product_handlers.
Import models errors requests product_service echo product_controller.

Implicit Types (sc : strconv) (db : DB) (c : Context) (req : ProductRequest).

Lemma threshold_of_pos sc c : 0 < threshold_of sc c.
Proof.
  unfold threshold_of. destruct (negb _); [| lia].
  destruct (Atoi sc _) as [t|]; [| lia].
  destruct (Z.ltb_spec 0 t); lia.
Qed.

(** X9. When the alerts handler answers, it answers 500 with the wrapped
    error of the store if the fetch failed, and otherwise 200 with the
    alerts: "total" is the number of alerts (not of products evaluated),
    "threshold" is positive whatever the query parameter was, and it is the
    threshold field of every alert listed. *)
Theorem GenerateAlerts_response sc find sched c r :
  GenerateAlerts sc find sched c = Some r →
  (∃ e, find = services.FindError e ∧
        status r = 500 ∧
        body r !! "details"
          = Some (AString ("failed to fetch products: " ++ services.Error e))) ∨
  (∃ products alerts,
        find = services.FindOk products ∧
        status r = 200 ∧
        body r !! "alerts" = Some (AAlerts alerts) ∧
        body r !! "total" = Some (AInt (Z.of_nat (length alerts))) ∧
        body r !! "threshold" = Some (AInt (threshold_of sc c)) ∧
        0 < threshold_of sc c ∧
        Forall (λ a, Threshold a = threshold_of sc c) alerts ∧
        (length alerts ≤ length products)%nat).
Proof.
  unfold GenerateAlerts. pose proof (threshold_of_pos sc c) as Hpos.
  destruct (services.GenerateAlertsWithConcurrency _ _ _)
    as [[alerts err]|] eqn:Hret; [| done].
  destruct find as [e|products].
  - injection Hret as <- <-. intros [= <-]. left. exists e. by split_and!.
  - pose proof Hret as Hret'.
    apply generate_returned in Hret' as (s & _ & Hinv & Hm & -> & ->).
    intros [= <-]. right. exists products, (services.alerts s).
    destruct (Z.leb_spec (threshold_of sc c) 0) as [|_]; [lia |].
    destruct (returned_state _ _ s Hinv Hm) as (_ & Halerts & Horigin).
    split_and!; try done.
    + eapply Forall_impl; [exact Horigin |].
      intros a (p & now & _ & Hgen).
      destruct (Z.lt_ge_cases (Quantity p) (threshold_of sc c)) as [Hlt|Hge].
      * rewrite GenerateAlert_Some in Hgen by done. by injection Hgen as <-.
      * by rewrite (proj2 (GenerateAlert_None p _ now) Hge) in Hgen.
    + apply Permutation_length in Halerts. rewrite length_fmap in Halerts.
      rewrite Halerts. apply length_omap_le.
Qed.

(** X10. The low-stock listing and the alerts agree. If the store answers
    the query "quantity < threshold" with the rows of the table that
    satisfy it, then for the same query parameter the products listed by
    the low-stock handler are exactly the products the alerts handler
    alerts on, and the two handlers report the same total and the same
    threshold. *)
Theorem low_stock_listing_agrees_with_alerts sc db c products sched r :
  FindWhereQuantityLt db (threshold_of sc c)
    = Ok (filter (λ p, Quantity p < threshold_of sc c) products) →
  GenerateAlerts sc (services.FindOk products) sched c = Some r →
  ∃ alerts listed,
    body r !! "alerts" = Some (AAlerts alerts) ∧
    body (GetLowStockProducts sc db c) !! "products" = Some (AProducts listed) ∧
    ProductID <$> alerts ≡ₚ resp_ID <$> listed ∧
    body r !! "total" = body (GetLowStockProducts sc db c) !! "total" ∧
    body r !! "threshold" = body (GetLowStockProducts sc db c) !! "threshold".
Proof.
  intros Hstore Hr. unfold GenerateAlerts in Hr.
  pose proof (threshold_of_pos sc c) as Hpos.
  destruct (services.GenerateAlertsWithConcurrency _ _ _)
    as [[alerts err]|] eqn:Hret; [| done].
  destruct (generate_alerts_low_stock_ids _ _ _ _ _ Hret) as [Hids Hlen].
  apply generate_returned in Hret as (_ & _ & _ & _ & _ & ->).
  injection Hr as <-.
  destruct (Z.leb_spec (threshold_of sc c) 0) as [|_]; [lia |].
  unfold GetLowStockProducts, product_service.GetLowStockProducts.
  destruct (Z.leb_spec (threshold_of sc c) 0) as [|_]; [lia |].
  rewrite Hstore. eexists _, _. split_and!; try done.
  - rewrite Hids. unfold responses_of. by rewrite <-list_fmap_compose.
  - simpl. unfold responses_of. rewrite length_fmap, Hlen. done.
Qed.

(** X11. The low-stock handler queries the store at a positive threshold
    only: a threshold parameter that is missing, is not a number or is not
    positive makes it query the store at 5 and report the threshold 5, and
    the answer depends on the store through this one query alone. The
    service makes the same replacement for a threshold <= 0. *)
Theorem GetLowStockProducts_default_threshold sc db c :
  (QueryParam c "threshold" = "" ∨
   (∃ err, Atoi sc (QueryParam c "threshold") = Err err) ∨
   (∃ t, Atoi sc (QueryParam c "threshold") = Ok t ∧ t <= 0) →
   threshold_of sc c = 5 ∧
   body (GetLowStockProducts sc db c) !! "threshold"
     = match FindWhereQuantityLt db 5 with
       | Ok _ => Some (AInt 5)
       | Err _ => None
       end) ∧
  (∀ db', FindWhereQuantityLt db' (threshold_of sc c)
            = FindWhereQuantityLt db (threshold_of sc c) →
          GetLowStockProducts sc db' c = GetLowStockProducts sc db c) ∧
  (∀ threshold, threshold <= 0 →
     product_service.GetLowStockProducts db threshold
     = product_service.GetLowStockProducts db 5).
Proof.
  split_and!.
  - intros Hparam.
    assert (threshold_of sc c = 5) as Hfive.
    { unfold threshold_of.
      destruct Hparam as [->|[[err Herr]|(t & Ht & Hle)]]; [done | |].
      - rewrite Herr. by destruct (negb _).
      - rewrite Ht. destruct (negb _); [| done].
        by destruct (Z.ltb_spec 0 t); [lia |]. }
    split; [done |].
    unfold GetLowStockProducts, product_service.GetLowStockProducts.
    rewrite Hfive. simpl. by destruct (FindWhereQuantityLt db 5).
  - intros db' Hsame. pose proof (threshold_of_pos sc c) as Hpos.
    unfold GetLowStockProducts, product_service.GetLowStockProducts.
    destruct (Z.leb_spec (threshold_of sc c) 0) as [|_]; [lia |].
    by rewrite Hsame.
  - intros threshold Hle. unfold product_service.GetLowStockProducts.
    by destruct (Z.leb_spec threshold 0); [| lia].
Qed.

(** X12. CreateProduct answers 400 exactly when the body cannot be bound
    or one of its four guards fires: empty name, negative price, negative
    quantity, empty category. The answer is then the same whatever the
    store holds. The length limits of the validate tags are not among the
    guards. *)
Theorem CreateProduct_bad_request db c :
  (status (CreateProduct db c) = 400 ↔
     (∃ err, Bind_ProductRequest c = Err err) ∨
     (∃ req, Bind_ProductRequest c = Ok req ∧
             (req_Name req = "" ∨ PrimFloat.ltb (req_Price req) 0 = true ∨
              req_Quantity req < 0 ∨ req_Category req = ""))) ∧
  (status (CreateProduct db c) = 400 →
   ∀ db', CreateProduct db' c = CreateProduct db c).
Proof.
  unfold CreateProduct, validate.
  destruct (Bind_ProductRequest c) as [req|err].
  - destruct (String.eqb_spec (req_Name req) "") as [Hn|Hn].
    { split; [split; [intros _; right; exists req; auto | done] | done]. }
    destruct (PrimFloat.ltb (req_Price req) 0) eqn:Hp.
    { split; [split; [intros _; right; exists req; auto | done] | done]. }
    destruct (Z.ltb_spec (req_Quantity req) 0) as [Hq|Hq].
    { split; [split; [intros _; right; exists req; auto | done] | done]. }
    destruct (String.eqb_spec (req_Category req) "") as [Hc|Hc].
    { split; [split; [intros _; right; exists req; auto 10 | done] | done]. }
    assert (status
              match product_service.CreateProduct db req with
              | Ok product =>
                  mkResponse StatusCreated
                    {[ "message" := AString "Product created successfully";
                       "product" := AProduct product ]}
              | Err err =>
                  mkResponse StatusInternalServerError
                    {[ "error" := AString "Failed to create product";
                       "details" := AString (Error err) ]}
              end ≠ 400) as Hne
      by (destruct (product_service.CreateProduct db req); simpl; done).
    split; [split; [done |] | done].
    intros [[err [=]]|(req' & [= <-] & [?|[?|[?|?]]])];
      first [done | congruence | lia].
  - split; [split; [intros _; left; eauto | done] | done].
Qed.

(** X13. No handler asks the store to write a product with a negative
    quantity: two stores that answer every lookup alike, and every Create
    and Save of a product with quantity >= 0 alike, cannot be told apart
    through CreateProduct, UpdateProduct and UpdateStock. *)
Theorem handlers_write_no_negative_quantity sc db db' c :
  (∀ id, First db id = First db' id) →
  (∀ p, 0 <= Quantity p → Create db p = Create db' p ∧ Save db p = Save db' p) →
  CreateProduct db c = CreateProduct db' c ∧
  UpdateProduct sc db c = UpdateProduct sc db' c ∧
  UpdateStock sc db c = UpdateStock sc db' c.
Proof.
  intros Hfirst Hwrite. split_and!.
  - unfold CreateProduct. destruct (Bind_ProductRequest c) as [req|]; [| done].
    unfold validate.
    destruct (String.eqb _ _); [done |]. destruct (PrimFloat.ltb _ _); [done |].
    destruct (Z.ltb_spec (req_Quantity req) 0) as [|Hq]; [done |].
    destruct (String.eqb _ _); [done |].
    unfold product_service.CreateProduct.
    match goal with
    | |- context [Create db ?p] => by rewrite (proj1 (Hwrite p Hq))
    end.
  - unfold UpdateProduct. destruct (ParseUint_10_32 sc _) as [id|]; [| done].
    destruct (Bind_ProductRequest c) as [req|]; [| done].
    unfold validate.
    destruct (String.eqb _ _); [done |]. destruct (PrimFloat.ltb _ _); [done |].
    destruct (Z.ltb_spec (req_Quantity req) 0) as [|Hq]; [done |].
    destruct (String.eqb _ _); [done |].
    unfold product_service.UpdateProduct. rewrite <-Hfirst.
    destruct (First db id) as [p|]; [| done].
    match goal with
    | |- context [Save db ?p] => by rewrite (proj2 (Hwrite p Hq))
    end.
  - unfold UpdateStock. destruct (ParseUint_10_32 sc _) as [id|]; [| done].
    destruct (Bind_Quantity c) as [q|]; [| done].
    destruct (Z.ltb_spec q 0) as [|Hq]; [done |].
    unfold product_service.UpdateStock. rewrite <-Hfirst.
    destruct (First db id) as [p|]; [| done].
    match goal with
    | |- context [Save db ?p] => by rewrite (proj2 (Hwrite p Hq))
    end.
Qed.

(** X14. With a well-formed id, the handlers that look a product up
    answer 404 exactly when the store reports gorm.ErrRecordNotFound for
    the lookup (for UpdateProduct and UpdateStock: and the request body
    passed validation). Any other error of the lookup, and any error of the
    Save or Delete that follows a successful lookup, even ErrRecordNotFound
    itself, is never answered with 404. *)
Theorem not_found_iff_record_not_found sc db c (id : N) :
  ParseUint_10_32 sc (Param c "id") = Ok id →
  (status (GetProductByID sc db c) = 404 ↔
     ∃ err, First db id = Err err ∧ IsRecordNotFound err = true) ∧
  (status (DeleteProduct sc db c) = 404 ↔
     ∃ err, First db id = Err err ∧ IsRecordNotFound err = true) ∧
  (status (UpdateProduct sc db c) = 404 ↔
     (∃ req, Bind_ProductRequest c = Ok req ∧ validate req = None) ∧
     ∃ err, First db id = Err err ∧ IsRecordNotFound err = true) ∧
  (status (UpdateStock sc db c) = 404 ↔
     (∃ q, Bind_Quantity c = Ok q ∧ 0 <= q) ∧
     ∃ err, First db id = Err err ∧ IsRecordNotFound err = true).
Proof.
  intros Hid.
  assert (∀ A (lookup : result A) (answer : result A → Response),
            (∀ a, status (answer (Ok a)) ≠ 404) →
            (∀ err, status (answer (Err err)) = 404 ↔ IsRecordNotFound err = true) →
            status (answer lookup) = 404 ↔
            ∃ err, lookup = Err err ∧ IsRecordNotFound err = true) as Hcase.
  { intros A lookup answer Hok Herr. destruct lookup as [a|err].
    - split; [by intros ?%Hok | by intros (? & [=] & _)].
    - rewrite Herr. split; [eauto | by intros (? & [= <-] & ?)]. }
  split_and!.
  - unfold GetProductByID. rewrite Hid.
    unfold product_service.GetProductByID.
    apply (Hcase _ (First db id)
             (λ r, match match r with
                         | Ok product => Ok (ToResponse product)
                         | Err err =>
                             if IsRecordNotFound err
                             then Err (New "product not found")
                             else Err (Errorf "failed to fetch product" err)
                         end with
                   | Ok product => _
                   | Err err => _
                   end)); [done |].
    intros err. destruct (IsRecordNotFound err); by simpl.
  - unfold DeleteProduct. rewrite Hid.
    unfold product_service.DeleteProduct.
    destruct (First db id) as [p|err].
    + split; [| by intros (? & [=] & _)].
      by destruct (Delete db p).
    + destruct (IsRecordNotFound err) eqn:Hnf; simpl.
      * split; [eauto | done].
      * split; [done | by intros (? & [= <-] & ?); congruence].
  - unfold UpdateProduct. rewrite Hid.
    destruct (Bind_ProductRequest c) as [req|];
      [| split; [done | by intros [(? & [=] & _) _]]].
    destruct (validate req) as [r|] eqn:Hv.
    { split; [| by intros [(? & [= <-] & ?) _]; congruence].
      unfold validate in Hv. repeat case_match; by simplify_eq. }
    unfold product_service.UpdateProduct.
    destruct (First db id) as [p|err].
    + split; [| by intros (_ & ? & [=] & _)].
      by destruct (Save db _).
    + destruct (IsRecordNotFound err) eqn:Hnf; simpl.
      * split; [eauto 10 | done].
      * split; [done | by intros (_ & ? & [= <-] & ?); congruence].
  - unfold UpdateStock. rewrite Hid.
    destruct (Bind_Quantity c) as [q|];
      [| split; [done | by intros [(? & [=] & _) _]]].
    destruct (Z.ltb_spec q 0) as [Hq|Hq].
    { split; [done | intros [(? & [= <-] & ?) _]; lia]. }
    unfold product_service.UpdateStock.
    destruct (First db id) as [p|err].
    + split; [| by intros (_ & ? & [=] & _)].
      by destruct (Save db _).
    + destruct (IsRecordNotFound err) eqn:Hnf; simpl.
      * split; [eauto 10 | done].
      * split; [done | by intros (_ & ? & [= <-] & ?); congruence].
Qed.

(** X15. The low_stock_count of the statistics is the total of the alerts
    handler at its default threshold, if the store counts the rows with
    quantity < 5 of the table the alerts are generated from. *)
Theorem stats_low_stock_count_is_alert_total sc db c products sched r stats :
  QueryParam c "threshold" = "" →
  CountWhereQuantityLt db 5
    = Ok (Z.of_nat (length (filter (λ p, Quantity p < 5) products))) →
  product_service.GetInventoryStats db = Ok stats →
  GenerateAlerts sc (services.FindOk products) sched c = Some r →
  ∃ n, stats !! "low_stock_count" = Some (SInt n) ∧
       body r !! "total" = Some (AInt n).
Proof.
  intros Hq Hcount Hstats Hr.
  unfold product_service.GetInventoryStats in Hstats. rewrite Hcount in Hstats.
  destruct (Count db); [| done]. destruct (ScanSumValue db); [| done].
  destruct (CountWhereQuantityZero db); [| done].
  destruct (PluckDistinctCategory db); [| done].
  injection Hstats as <-.
  unfold GenerateAlerts, threshold_of in Hr. rewrite Hq in Hr. simpl in Hr.
  destruct (services.GenerateAlertsWithConcurrency _ _ _)
    as [[alerts err]|] eqn:Hret; [| done].
  destruct (generate_alerts_low_stock_ids _ _ _ _ _ Hret) as [_ Hlen].
  apply generate_returned in Hret as (_ & _ & _ & _ & _ & ->).
  injection Hr as <-. eexists. split; [done |]. simpl in Hlen |- *.
  by rewrite Hlen.
Qed.


Lemma GenerateAlerts_response_witness :
  let sc := examples.decimal_strconv in
  let find := services.FindOk (seed.snapshot 0) in
  let c := examples.request (examples.only "" "") (examples.only "threshold" "3")
             (examples.only "" "") examples.no_body examples.no_body
             examples.no_body in
  let r := mkResponse StatusOK
             {[ "alerts" := AAlerts (services.alerts_of 3 (seed.snapshot 0) 17);
                "total" := AInt 3;
                "threshold" := AInt 3;
                "message" :=
                  AString "Alerts generated using concurrent processing" ]} in
  GenerateAlerts sc find (services.sequential 15 17) c = Some r ∧
  ((∃ e, find = services.FindError e ∧
         status r = 500 ∧
         body r !! "details"
           = Some (AString ("failed to fetch products: " ++ services.Error e))) ∨
   (∃ products alerts,
         find = services.FindOk products ∧
         status r = 200 ∧
         body r !! "alerts" = Some (AAlerts alerts) ∧
         body r !! "total" = Some (AInt (Z.of_nat (length alerts))) ∧
         body r !! "threshold" = Some (AInt (threshold_of sc c)) ∧
         0 < threshold_of sc c ∧
         Forall (λ a, Threshold a = threshold_of sc c) alerts ∧
         (length alerts ≤ length products)%nat)).
Proof.
  intros sc find c r.
  assert (GenerateAlerts sc find (services.sequential 15 17) c = Some r) as Hr
    by (vm_cast_no_check (@eq_refl _ (Some r))).
  split; [exact Hr |].
  exact (GenerateAlerts_response sc find (services.sequential 15 17) c r Hr).
Defined.

Lemma low_stock_listing_agrees_with_alerts_witness :
  let sc := examples.decimal_strconv in
  let c := examples.request (examples.only "" "") (examples.only "threshold" "3")
             (examples.only "" "") examples.no_body examples.no_body
             examples.no_body in
  let db := examples.table_store (seed.snapshot 0) in
  let r := mkResponse StatusOK
             {[ "alerts" := AAlerts (services.alerts_of 3 (seed.snapshot 0) 17);
                "total" := AInt 3;
                "threshold" := AInt 3;
                "message" :=
                  AString "Alerts generated using concurrent processing" ]} in
  FindWhereQuantityLt db (threshold_of sc c)
    = Ok (filter (λ p, Quantity p < threshold_of sc c) (seed.snapshot 0)) ∧
  GenerateAlerts sc (services.FindOk (seed.snapshot 0))
    (services.sequential 15 17) c = Some r ∧
  ∃ alerts listed,
    body r !! "alerts" = Some (AAlerts alerts) ∧
    body (GetLowStockProducts sc db c) !! "products" = Some (AProducts listed) ∧
    ProductID <$> alerts ≡ₚ resp_ID <$> listed ∧
    body r !! "total" = body (GetLowStockProducts sc db c) !! "total" ∧
    body r !! "threshold" = body (GetLowStockProducts sc db c) !! "threshold".
Proof.
  intros sc c db r.
  assert (GenerateAlerts sc (services.FindOk (seed.snapshot 0))
            (services.sequential 15 17) c = Some r) as Hr
    by (vm_cast_no_check (@eq_refl _ (Some r))).
  split; [reflexivity |]. split; [exact Hr |].
  exact (low_stock_listing_agrees_with_alerts sc db c (seed.snapshot 0)
           (services.sequential 15 17) r eq_refl Hr).
Defined.

Lemma GetLowStockProducts_default_threshold_witness :
  let sc := examples.decimal_strconv in
  let db := examples.table_store (seed.snapshot 0) in
  let c := examples.request (examples.only "" "") (examples.only "threshold" "-3")
             (examples.only "" "") examples.no_body examples.no_body
             examples.no_body in
  Atoi sc (QueryParam c "threshold") = Ok (-3) ∧
  threshold_of sc c = 5 ∧
  body (GetLowStockProducts sc db c) !! "threshold"
    = match FindWhereQuantityLt db 5 with
      | Ok _ => Some (AInt 5)
      | Err _ => None
      end.
Proof.
  intros sc db c.
  assert (Atoi sc (QueryParam c "threshold") = Ok (-3)) as Hatoi
    by (vm_compute; reflexivity).
  split; [exact Hatoi |].
  apply (proj1 (GetLowStockProducts_default_threshold sc db c)).
  right. right. exists (-3). split; [exact Hatoi | lia].
Defined.

Lemma CreateProduct_bad_request_witness :
  let req := mkProductRequest "Webcam HD" "" (-1) 0%float "Electronics" in
  let c := examples.request (examples.only "" "") (examples.only "" "")
             (examples.only "" "") (Ok req) examples.no_body examples.no_body in
  status (CreateProduct (examples.table_store []) c) = 400 ∧
  ∀ db', CreateProduct db' c = CreateProduct (examples.table_store []) c.
Proof.
  intros req c.
  assert (status (CreateProduct (examples.table_store []) c) = 400) as Hst
    by reflexivity.
  split; [exact Hst |].
  exact (proj2 (CreateProduct_bad_request (examples.table_store []) c) Hst).
Defined.

Lemma handlers_write_no_negative_quantity_witness :
  let sc := examples.decimal_strconv in
  let db := examples.table_store (seed.snapshot 0) in
  let db' := examples.strict_store (seed.snapshot 0) in
  let c := examples.request (examples.only "id" "13") (examples.only "" "")
             (examples.only "" "")
             (Ok (mkProductRequest "Webcam HD" "" (-1) 0%float "Electronics"))
             (Ok (-4)) examples.no_body in
  Create db (seed.product "Webcam HD" "" (-1) 0%float "Electronics")
    ≠ Create db' (seed.product "Webcam HD" "" (-1) 0%float "Electronics") ∧
  CreateProduct db c = CreateProduct db' c ∧
  UpdateProduct sc db c = UpdateProduct sc db' c ∧
  UpdateStock sc db c = UpdateStock sc db' c.
Proof.
  intros sc db db' c. split; [discriminate |].
  apply (handlers_write_no_negative_quantity sc db db' c); [reflexivity |].
  intros p Hq. unfold db', examples.strict_store. simpl.
  destruct (Z.ltb_spec (Quantity p) 0); [lia | done].
Defined.

Lemma not_found_iff_record_not_found_witness :
  let sc := examples.decimal_strconv in
  let db := examples.table_store (seed.snapshot 0) in
  let c := examples.request (examples.only "id" "99") (examples.only "" "")
             (examples.only "" "") examples.no_body (Ok 4) examples.no_body in
  ParseUint_10_32 sc (Param c "id") = Ok 99%N ∧
  First db 99%N = Err ErrRecordNotFound ∧
  status (GetProductByID sc db c) = 404 ∧
  status (DeleteProduct sc db c) = 404 ∧
  status (UpdateStock sc db c) = 404.
Proof.
  intros sc db c.
  assert (ParseUint_10_32 sc (Param c "id") = Ok 99%N) as Hid
    by (vm_compute; reflexivity).
  assert (First db 99%N = Err ErrRecordNotFound) as Hfirst
    by (vm_compute; reflexivity).
  destruct (not_found_iff_record_not_found sc db c 99 Hid)
    as (Hget & Hdel & _ & Hstock).
  split; [exact Hid |]. split; [exact Hfirst |]. split_and!.
  - apply Hget. by exists ErrRecordNotFound.
  - apply Hdel. by exists ErrRecordNotFound.
  - apply Hstock. split; [by exists 4 | by exists ErrRecordNotFound].
Defined.

Lemma stats_low_stock_count_is_alert_total_witness :
  let sc := examples.decimal_strconv in
  let db := examples.table_store (seed.snapshot 0) in
  let c := examples.request (examples.only "" "") (examples.only "" "")
             (examples.only "" "") examples.no_body examples.no_body
             examples.no_body in
  let r := mkResponse StatusOK
             {[ "alerts" := AAlerts (services.alerts_of 5 (seed.snapshot 0) 17);
                "total" := AInt 5;
                "threshold" := AInt 5;
                "message" :=
                  AString "Alerts generated using concurrent processing" ]} in
  let stats := match product_service.GetInventoryStats db with
               | Ok stats => stats
               | Err _ => ∅
               end in
  product_service.GetInventoryStats db = Ok stats ∧
  GenerateAlerts sc (services.FindOk (seed.snapshot 0))
    (services.sequential 15 17) c = Some r ∧
  stats !! "low_stock_count" = Some (SInt 5) ∧
  ∃ n, stats !! "low_stock_count" = Some (SInt n) ∧
       body r !! "total" = Some (AInt n).
Proof.
  intros sc db c r stats.
  assert (GenerateAlerts sc (services.FindOk (seed.snapshot 0))
            (services.sequential 15 17) c = Some r) as Hr
    by (vm_cast_no_check (@eq_refl _ (Some r))).
  assert (product_service.GetInventoryStats db = Ok stats) as Hstats
    by (vm_cast_no_check (@eq_refl _ (Ok stats))).
  split; [exact Hstats |]. split; [exact Hr |].
  split; [vm_cast_no_check (@eq_refl _ (Some (SInt 5))) |].
  exact (stats_low_stock_count_is_alert_total sc db c (seed.snapshot 0)
           (services.sequential 15 17) r stats eq_refl eq_refl Hstats Hr).
Defined.
(** X16. GetAllProducts answers from one query of the store: a search
    parameter wins over a category parameter, which is then ignored, and
    the search looks for the text between two % signs. Whenever it answers
    200, "total" is the number of products listed. It answers 200 or 500,
    never 400 or 404. *)
Theorem GetAllProducts_one_query db c :
  (QueryParam c "search" ≠ "" →
   ∀ db', FindWhereILike db' ("%" ++ QueryParam c "search" ++ "%")
          = FindWhereILike db ("%" ++ QueryParam c "search" ++ "%") →
          GetAllProducts db' c = GetAllProducts db c) ∧
  (QueryParam c "search" = "" → QueryParam c "category" ≠ "" →
   ∀ db', FindWhereCategory db' (QueryParam c "category")
          = FindWhereCategory db (QueryParam c "category") →
          GetAllProducts db' c = GetAllProducts db c) ∧
  (QueryParam c "search" = "" → QueryParam c "category" = "" →
   ∀ db', Find db' = Find db → GetAllProducts db' c = GetAllProducts db c) ∧
  (status (GetAllProducts db c) = 200 →
   ∃ products,
     body (GetAllProducts db c) !! "products" = Some (AProducts products) ∧
     body (GetAllProducts db c) !! "total"
       = Some (AInt (Z.of_nat (length products)))) ∧
  (status (GetAllProducts db c) = 200 ∨ status (GetAllProducts db c) = 500).
Proof.
  unfold GetAllProducts, SearchProducts, GetProductsByCategory,
    product_service.GetAllProducts.
  destruct (String.eqb_spec (QueryParam c "search") "") as [Hs|Hs]; simpl.
  - destruct (String.eqb_spec (QueryParam c "category") "") as [Hc|Hc]; simpl.
    + split_and!; try done.
      * by intros _ _ db' ->.
      * destruct (Find db); [| done]. intros _. by eexists.
      * destruct (Find db); auto.
    + split_and!; try done.
      * by intros _ _ db' ->.
      * destruct (FindWhereCategory db _); [| done]. intros _. by eexists.
      * destruct (FindWhereCategory db _); auto.
  - split_and!; try done.
    + by intros _ db' ->.
    + destruct (FindWhereILike db _); [| done]. intros _. by eexists.
    + destruct (FindWhereILike db _); auto.
Qed.

Lemma GetAllProducts_one_query_witness :
  let db := examples.table_store (seed.snapshot 0) in
  let c := examples.request (examples.only "" "")
             (λ k, if String.eqb k "search" then "cam"
                   else if String.eqb k "category" then "Electronics" else "")
             (examples.only "" "") examples.no_body examples.no_body
             examples.no_body in
  QueryParam c "search" ≠ "" ∧
  GetAllProducts (examples.broken_store (Opaque "unsupported")) c
  = GetAllProducts db c.
Proof.
  intros db c.
  assert (QueryParam c "search" ≠ "") as Hs by discriminate.
  split; [exact Hs |].
  exact (proj1 (GetAllProducts_one_query db c) Hs
           (examples.broken_store (Opaque "unsupported")) eq_refl).
Defined.

(** X17. The statistics handler answers 200 exactly when all five queries
    of the store succeed, and 500 otherwise. The map then has exactly the
    six keys, and categories_count is the number of categories listed. *)
Theorem GetInventoryStats_complete db c :
  (status (GetInventoryStats db c) = 200 ↔
     ∃ total value low out categories,
       Count db = Ok total ∧ ScanSumValue db = Ok value ∧
       CountWhereQuantityLt db 5 = Ok low ∧
       CountWhereQuantityZero db = Ok out ∧
       PluckDistinctCategory db = Ok categories) ∧
  (status (GetInventoryStats db c) = 200 ∨
   status (GetInventoryStats db c) = 500) ∧
  (∀ stats, product_service.GetInventoryStats db = Ok stats →
     dom stats
       = {[ "total_products"; "total_value"; "low_stock_count";
            "out_of_stock_count"; "categories"; "categories_count" ]} ∧
     ∃ categories,
       PluckDistinctCategory db = Ok categories ∧
       stats !! "categories" = Some (SStrings categories) ∧
       stats !! "categories_count"
         = Some (SInt (Z.of_nat (length categories)))).
Proof.
  unfold GetInventoryStats, product_service.GetInventoryStats.
  destruct (Count db) as [total|];
    [| split_and!; [split; [done | by intros (? & ? & ? & ? & ? & [=] & _)]
                   | auto | done]].
  destruct (ScanSumValue db) as [value|];
    [| split_and!; [split; [done | by intros (? & ? & ? & ? & ? & _ & [=] & _)]
                   | auto | done]].
  destruct (CountWhereQuantityLt db 5) as [low|];
    [| split_and!; [split; [done | by intros (? & ? & ? & ? & ? & _ & _ & [=] & _)]
                   | auto | done]].
  destruct (CountWhereQuantityZero db) as [out|];
    [| split_and!;
       [split; [done | by intros (? & ? & ? & ? & ? & _ & _ & _ & [=] & _)]
       | auto | done]].
  destruct (PluckDistinctCategory db) as [categories|];
    [| split_and!;
       [split; [done | by intros (? & ? & ? & ? & ? & _ & _ & _ & _ & [=])]
       | auto | done]].
  split_and!; [split; [intros _; by eexists _, _, _, _, _ | done] | auto |].
  intros stats [= <-]. split.
  - rewrite !dom_insert_L, dom_empty_L. set_solver.
  - exists categories. split; [done |].
    rewrite lookup_insert_ne by done. rewrite !lookup_insert_eq. done.
Qed.

Lemma GetInventoryStats_complete_witness :
  let db := examples.table_store (seed.snapshot 0) in
  let stats := match product_service.GetInventoryStats db with
               | Ok stats => stats
               | Err _ => ∅
               end in
  product_service.GetInventoryStats db = Ok stats ∧
  dom stats
    = {[ "total_products"; "total_value"; "low_stock_count";
         "out_of_stock_count"; "categories"; "categories_count" ]} ∧
  ∃ categories,
    PluckDistinctCategory db = Ok categories ∧
    stats !! "categories" = Some (SStrings categories) ∧
    stats !! "categories_count" = Some (SInt (Z.of_nat (length categories))).
Proof.
  intros db stats.
  assert (product_service.GetInventoryStats db = Ok stats) as Hstats
    by (vm_cast_no_check (@eq_refl _ (Ok stats))).
  split; [exact Hstats |].
  exact (proj2 (proj2 (GetInventoryStats_complete db
                         (examples.request (examples.only "" "")
                            (examples.only "" "") (examples.only "" "")
                            examples.no_body examples.no_body examples.no_body)))
           stats Hstats).
Defined.

End product_handlers.

(** * The authentication handlers and the middleware *)

Section authentication.
Import models errors requests echo auth_service auth_controller middleware.

Implicit Types (b : bcrypt) (p : process) (j : jwt) (db : DB) (c : Context).
Implicit Types (req : UserRequest).

(** X18. Register answers 400 exactly when the body cannot be bound, the
    email is empty, or the password has fewer than 6 bytes; the store is
    then not consulted. It answers 409 exactly when the request passes these
    guards and the lookup by email succeeds. When the lookup fails, for
    whatever reason, the user is created. *)
Theorem Register_status db c :
  (status (Register db c) = 400 ↔
     (∃ err, Bind_UserRequest c = Err err) ∨
     (∃ req, Bind_UserRequest c = Ok req ∧
             (ureq_Email req = "" ∨
              (String.length (ureq_Password req) < 6)%nat))) ∧
  (status (Register db c) = 400 → ∀ db', Register db' c = Register db c) ∧
  (status (Register db c) = 409 ↔
     ∃ req user, Bind_UserRequest c = Ok req ∧
                 ureq_Email req ≠ "" ∧
                 (6 ≤ String.length (ureq_Password req))%nat ∧
                 FirstWhereEmail db (ureq_Email req) = Ok user) ∧
  (∀ req err, Bind_UserRequest c = Ok req →
     ureq_Email req ≠ "" → (6 ≤ String.length (ureq_Password req))%nat →
     FirstWhereEmail db (ureq_Email req) = Err err →
     Register db c
     = match CreateUser db (mkUser 0 (ureq_Email req) (ureq_Password req) 0 0) with
       | Ok user =>
           mkResponse StatusCreated
             {[ "message" := AString "User created successfully";
                "user" := AUser (user_ToResponse user) ]}
       | Err err =>
           mkResponse StatusInternalServerError
             {[ "error" := AString ("failed to create user: " ++ Error err) ]}
       end).
Proof.
  unfold Register.
  destruct (Bind_UserRequest c) as [req|err].
  2: { split_and!; try done.
       - split; [intros _; left; eauto | done].
       - split; [done | by intros (? & ? & [=] & _)]. }
  destruct (String.eqb_spec (ureq_Email req) "") as [He|He].
  { split_and!; try done.
    - split; [intros _; right; exists req; auto | done].
    - split; [done | intros (? & ? & [= <-] & ? & _); done].
    - intros ? ? [= <-]. done. }
  assert (String.eqb (ureq_Password req) "" = true →
          (String.length (ureq_Password req) < 6)%nat) as Hempty
    by (intros ->%String.eqb_eq; simpl; lia).
  destruct (String.eqb (ureq_Password req) ""
            || (String.length (ureq_Password req) <? 6)%nat) eqn:Hpw.
  { assert (String.length (ureq_Password req) < 6)%nat as Hshort.
    { apply orb_true_iff in Hpw as [?|?%Nat.ltb_lt]; auto. }
    split_and!; try done.
    - split; [intros _; right; exists req; auto | done].
    - split; [done | intros (? & ? & [= <-] & _ & ? & _); lia].
    - intros ? ? [= <-]. lia. }
  apply orb_false_iff in Hpw as [_ Hlen%Nat.ltb_ge].
  unfold RegisterUser.
  destruct (FirstWhereEmail db (ureq_Email req)) as [user|err] eqn:Hfirst.
  - split_and!; try done.
    + split; [done |].
      intros [[? [=]]|(? & [= <-] & [?|?])]; [done | lia].
    + split; [intros _; by exists req, user | done].
    + intros ? ? [= <-] _ _ ?. congruence.
  - split_and!.
    + split.
      * by destruct (CreateUser db _).
      * intros [[? [=]]|(? & [= <-] & [?|?])]; [done | lia].
    + by destruct (CreateUser db _).
    + split; [by destruct (CreateUser db _) |].
      intros (? & ? & [= <-] & _ & _ & Hfirst'). congruence.
    + intros ? ? [= <-] _ _ _. by destruct (CreateUser db _).
Qed.

Lemma Register_status_witness :
  let db := mkDB (λ _, Err (Opaque "connection refused"))
                 (λ u, Ok u) (λ _, Err ErrRecordNotFound) in
  let c := examples.request (examples.only "" "") (examples.only "" "")
             (examples.only "" "") examples.no_body examples.no_body
             (Ok (mkUserRequest "ana@example.com" "secret")) in
  FirstWhereEmail db "ana@example.com" = Err (Opaque "connection refused") ∧
  Register db c
  = match CreateUser db (mkUser 0 "ana@example.com" "secret" 0 0) with
    | Ok user =>
        mkResponse StatusCreated
          {[ "message" := AString "User created successfully";
             "user" := AUser (user_ToResponse user) ]}
    | Err err =>
        mkResponse StatusInternalServerError
          {[ "error" := AString ("failed to create user: " ++ Error err) ]}
    end.
Proof.
  intros db c. split; [reflexivity |].
  refine (proj2 (proj2 (proj2 (Register_status db c)))
            (mkUserRequest "ana@example.com" "secret")
            (Opaque "connection refused") eq_refl _ _ eq_refl);
    [discriminate | simpl; lia].
Defined.

(** X19. For a request with an email and a password, Login answers 401
    exactly when the store has no user with that email or the password does
    not match, and the two cases get the same response. An error of the
    store or of the token generation is answered with 500. *)
Theorem Login_status b p j db c req :
  Bind_UserRequest c = Ok req →
  ureq_Email req ≠ "" → ureq_Password req ≠ "" →
  (status (Login b p j db c) = 401 ↔
     (∃ err, FirstWhereEmail db (ureq_Email req) = Err err ∧
             IsRecordNotFound err = true) ∨
     (∃ user, FirstWhereEmail db (ureq_Email req) = Ok user ∧
              CheckPassword b user (ureq_Password req) = false)) ∧
  (status (Login b p j db c) = 401 →
   Login b p j db c
   = mkResponse StatusUnauthorized
       {[ "error" := AString "invalid credentials" ]}) ∧
  (status (Login b p j db c) = 200 ↔
     ∃ user token, FirstWhereEmail db (ureq_Email req) = Ok user ∧
                   CheckPassword b user (ureq_Password req) = true ∧
                   GenerateJWT p j user = Ok token) ∧
  (status (Login b p j db c) = 401 ∨ status (Login b p j db c) = 200 ∨
   status (Login b p j db c) = 500).
Proof.
  intros Hbind He Hp. unfold Login. rewrite Hbind.
  rewrite (proj2 (String.eqb_neq _ _) He), (proj2 (String.eqb_neq _ _) Hp).
  simpl.
  unfold LoginUser.
  destruct (FirstWhereEmail db (ureq_Email req)) as [user|err] eqn:Hfirst.
  - destruct (CheckPassword b user (ureq_Password req)) eqn:Hcheck; simpl.
    + destruct (GenerateJWT p j user) as [token|err] eqn:Hjwt; simpl.
      * split_and!; [| done | | auto].
        -- split; [done | intros [(? & [=] & _)|(? & [= <-] & ?)]; congruence].
        -- split; [intros _; by exists user, token | done].
      * split_and!; [| done | | auto].
        -- split; [done | intros [(? & [=] & _)|(? & [= <-] & ?)]; congruence].
        -- split; [done | intros (? & ? & [= <-] & _ & ?); congruence].
    + split_and!; [| done | | auto].
      * split; [intros _; right; by exists user | done].
      * split; [done | intros (? & ? & [= <-] & ? & _); congruence].
  - destruct (IsRecordNotFound err) eqn:Hnf; simpl.
    + split_and!; [| done | | auto].
      * split; [intros _; left; by exists err | done].
      * split; [done | by intros (? & ? & [=] & _)].
    + split_and!; [| done | | auto].
      * split; [done | intros [(? & [= <-] & ?)|(? & [=] & _)]; congruence].
      * split; [done | by intros (? & ? & [=] & _)].
Qed.

Lemma Login_status_witness :
  let b := examples.marker_bcrypt in
  let p := examples.process_with "s3cret" in
  let j := examples.dotted_jwt in
  let db := examples.user_store [examples.ana] in
  let unknown := examples.request (examples.only "" "") (examples.only "" "")
                   (examples.only "" "") examples.no_body examples.no_body
                   (Ok (mkUserRequest "bob@example.com" "secret")) in
  let wrong := examples.request (examples.only "" "") (examples.only "" "")
                 (examples.only "" "") examples.no_body examples.no_body
                 (Ok (mkUserRequest "ana@example.com" "guess!")) in
  let right := examples.request (examples.only "" "") (examples.only "" "")
                 (examples.only "" "") examples.no_body examples.no_body
                 (Ok (mkUserRequest "ana@example.com" "secret")) in
  Login b p j db unknown = Login b p j db wrong ∧
  status (Login b p j db wrong) = 401 ∧
  status (Login b p j db right) = 200.
Proof.
  intros b p j db unknown wrong right.
  destruct (Login_status b p j db unknown (mkUserRequest "bob@example.com" "secret")
              eq_refl ltac:(discriminate) ltac:(discriminate))
    as (Hu & Hu' & _).
  destruct (Login_status b p j db wrong (mkUserRequest "ana@example.com" "guess!")
              eq_refl ltac:(discriminate) ltac:(discriminate))
    as (Hw & Hw' & _).
  destruct (Login_status b p j db right (mkUserRequest "ana@example.com" "secret")
              eq_refl ltac:(discriminate) ltac:(discriminate))
    as (_ & _ & Hr & _).
  assert (status (Login b p j db unknown) = 401) as Hsu.
  { apply Hu. left. exists ErrRecordNotFound. split; vm_compute; reflexivity. }
  assert (status (Login b p j db wrong) = 401) as Hsw.
  { apply Hw. right. exists examples.ana. split; vm_compute; reflexivity. }
  split; [by rewrite (Hu' Hsu), (Hw' Hsw) |]. split; [exact Hsw |].
  apply Hr. exists examples.ana, "s3cret.7".
  split_and!; vm_compute; reflexivity.
Defined.

Lemma HasPrefix_append (prefix s : string) :
  HasPrefix (prefix ++ s) prefix = true.
Proof.
  unfold HasPrefix. induction prefix as [|a prefix IH]; simpl; [by destruct s |].
  destruct (Ascii.ascii_dec a a); done.
Qed.

Lemma substring_all (s : string) : String.substring 0 (String.length s) s = s.
Proof. induction s as [|a s IH]; simpl; [done | by rewrite IH]. Qed.

Lemma TrimPrefix_append (prefix s : string) :
  TrimPrefix (prefix ++ s) prefix = s.
Proof.
  unfold TrimPrefix. rewrite HasPrefix_append.
  induction prefix as [|a prefix IH]; simpl.
  - rewrite Nat.sub_0_r. apply substring_all.
  - exact IH.
Qed.

Lemma HasPrefix_inv (s prefix : string) :
  HasPrefix s prefix = true → s = (prefix ++ TrimPrefix s prefix)%string.
Proof.
  intros Hpre. unfold TrimPrefix. rewrite Hpre. unfold HasPrefix in Hpre.
  revert s Hpre. induction prefix as [|a prefix IH]; intros s Hpre; simpl.
  - by rewrite Nat.sub_0_r, substring_all.
  - destruct s as [|a' s]; [done |]. simpl in Hpre |- *.
    destruct (Ascii.ascii_dec a a') as [<-|]; [| done].
    change (String a s = String a (prefix ++ String.substring (String.length prefix)
              (String.length s - String.length prefix) s)%string).
    f_equal. by apply IH.
Qed.

(** The context a handler gets from the middleware for validated
    [claims]. *)
Lemma authenticated_context c (claims : JWTClaims) :
  GetUserID (Set_ (Set_ c "user_id" (CUint (UserID claims)))
               "user_email" (CString (Email claims)))
    = Some (UserID claims) ∧
  GetUserEmail (Set_ (Set_ c "user_id" (CUint (UserID claims)))
                  "user_email" (CString (Email claims)))
    = Some (Email claims).
Proof.
  unfold GetUserID, GetUserEmail, Get_uint, Get_string, Set_. simpl.
  rewrite lookup_insert_ne by done. by rewrite !lookup_insert_eq.
Qed.

(** A request whose Authorization header is "Bearer " followed by a
    non-empty token is decided by ValidateJWT. *)
Lemma JWTMiddleware_bearer p j next c token :
  token ≠ "" →
  Header c "Authorization" = ("Bearer " ++ token)%string →
  JWTMiddleware p j next c
  = match ValidateJWT p j token with
    | Err _ => unauthorized "Invalid or expired token"
    | Ok claims =>
        next (Set_ (Set_ c "user_id" (CUint (UserID claims)))
                "user_email" (CString (Email claims)))
    end.
Proof.
  intros Htoken Hheader. unfold JWTMiddleware. rewrite Hheader.
  rewrite HasPrefix_append, TrimPrefix_append. simpl.
  by rewrite (proj2 (String.eqb_neq _ _) Htoken).
Qed.

(** X20. The middleware lets a request through exactly when its
    Authorization header is "Bearer " followed by a non-empty token that
    ValidateJWT accepts; the prefix is matched byte for byte. The handler
    then finds the user id and the email of the claims in the context.
    Every other request is answered 401 by the middleware itself, whatever
    the handler is. *)
Theorem JWTMiddleware_guard p j next c :
  (∀ token, token ≠ "" →
     Header c "Authorization" = ("Bearer " ++ token)%string →
     JWTMiddleware p j next c
     = match ValidateJWT p j token with
       | Err _ => unauthorized "Invalid or expired token"
       | Ok claims =>
           next (Set_ (Set_ c "user_id" (CUint (UserID claims)))
                   "user_email" (CString (Email claims)))
       end) ∧
  ((¬ ∃ token claims, token ≠ "" ∧
        Header c "Authorization" = ("Bearer " ++ token)%string ∧
        ValidateJWT p j token = Ok claims) →
   status (JWTMiddleware p j next c) = 401 ∧
   ∀ next', JWTMiddleware p j next' c = JWTMiddleware p j next c).
Proof.
  split.
  - intros token Htoken Hheader. by apply JWTMiddleware_bearer.
  - intros Hnone. unfold JWTMiddleware.
    destruct (String.eqb (Header c "Authorization") ""); [done |].
    destruct (HasPrefix (Header c "Authorization") "Bearer ") eqn:Hpre;
      [| done]. simpl.
    destruct (String.eqb_spec (TrimPrefix (Header c "Authorization") "Bearer ") "")
      as [|Htoken]; [done |].
    destruct (ValidateJWT p j _) as [claims|err] eqn:Hvalid; [| done].
    destruct Hnone. eexists _, claims. split; [exact Htoken |].
    split; [by apply HasPrefix_inv | exact Hvalid].
Qed.

Lemma JWTMiddleware_guard_witness :
  let p := examples.process_with "s3cret" in
  let j := examples.dotted_jwt in
  let c := examples.request (examples.only "" "") (examples.only "" "")
             (examples.only "Authorization" "Bearer s3cret.7")
             examples.no_body examples.no_body examples.no_body in
  let lower := examples.request (examples.only "" "") (examples.only "" "")
                 (examples.only "Authorization" "bearer s3cret.7")
                 examples.no_body examples.no_body examples.no_body in
  JWTMiddleware p j (λ c', mkResponse 200 {[ "id" := AInt (Z.of_N (default 0%N (GetUserID c'))) ]}) c
    = mkResponse 200 {[ "id" := AInt 7 ]} ∧
  JWTMiddleware p j (λ c', mkResponse 200 {[ "id" := AInt (Z.of_N (default 0%N (GetUserID c'))) ]}) lower
    = unauthorized "Invalid authorization header format".
Proof.
  intros p j c lower. split.
  - rewrite (proj1 (JWTMiddleware_guard p j _ c) "s3cret.7"
               ltac:(discriminate) eq_refl).
    vm_cast_no_check (@eq_refl _ (mkResponse 200 {[ "id" := AInt 7 ]})).
  - vm_cast_no_check
      (@eq_refl _ (unauthorized "Invalid authorization header format")).
Defined.



(** X22. Behind the middleware the handlers always find the user id: the
    answer of Profile to a request the middleware lets through is decided
    by the lookup of the user of the claims alone, and its own 401,
    "Invalid token", is never given. *)
Theorem Profile_behind_middleware p j db c :
  (∀ token claims, token ≠ "" →
     Header c "Authorization" = ("Bearer " ++ token)%string →
     ValidateJWT p j token = Ok claims →
     JWTMiddleware p j (auth_controller.Profile db) c
     = match GetUserByID db (UserID claims) with
       | Ok user =>
           mkResponse StatusOK {[ "user" := AUser (user_ToResponse user) ]}
       | Err _ =>
           mkResponse StatusNotFound {[ "error" := AString "User not found" ]}
       end) ∧
  body (JWTMiddleware p j (auth_controller.Profile db) c) !! "error"
    ≠ Some (AString "Invalid token").
Proof.
  assert (∀ claims,
            auth_controller.Profile db
              (Set_ (Set_ c "user_id" (CUint (UserID claims)))
                 "user_email" (CString (Email claims)))
            = match GetUserByID db (UserID claims) with
              | Ok user =>
                  mkResponse StatusOK
                    {[ "user" := AUser (user_ToResponse user) ]}
              | Err _ =>
                  mkResponse StatusNotFound
                    {[ "error" := AString "User not found" ]}
              end) as Hprofile.
  { intros claims. unfold auth_controller.Profile.
    destruct (authenticated_context c claims) as [Hid _].
    unfold GetUserID in Hid. by rewrite Hid. }
  split.
  - intros token claims Htoken Hheader Hvalid.
    rewrite (JWTMiddleware_bearer p j _ c token Htoken Hheader), Hvalid.
    apply Hprofile.
  - unfold JWTMiddleware.
    destruct (String.eqb _ _); [done |]. destruct (HasPrefix _ _); [| done].
    simpl. destruct (String.eqb _ _); [done |].
    destruct (ValidateJWT p j _) as [claims|]; [| done].
    rewrite Hprofile. by destruct (GetUserByID db _).
Qed.

Lemma Profile_behind_middleware_witness :
  let p := examples.process_with "s3cret" in
  let j := examples.dotted_jwt in
  let db := examples.user_store [examples.ana] in
  let c := examples.request (examples.only "" "") (examples.only "" "")
             (examples.only "Authorization" "Bearer s3cret.7")
             examples.no_body examples.no_body examples.no_body in
  let claims := mkJWTClaims 7 ""
                  (mkRegisteredClaims 0 0 0 "inventory-api" "7") in
  ValidateJWT p j "s3cret.7" = Ok claims ∧
  JWTMiddleware p j (auth_controller.Profile db) c
  = match GetUserByID db (UserID claims) with
    | Ok user =>
        mkResponse StatusOK {[ "user" := AUser (user_ToResponse user) ]}
    | Err _ =>
        mkResponse StatusNotFound {[ "error" := AString "User not found" ]}
    end.
Proof.
  intros p j db c claims.
  assert (ValidateJWT p j "s3cret.7" = Ok claims) as Hvalid
    by (vm_compute; reflexivity).
  split; [exact Hvalid |].
  exact (proj1 (Profile_behind_middleware p j db c) "s3cret.7" claims
           ltac:(discriminate) eq_refl Hvalid).
Defined.
End authentication.

(** * The database bootstrap *)

Section bootstrap.
Import errors db.

Implicit Types (getenv : string → string) (d : driver).

(** X23. An unset DB_PORT is the same as DB_PORT=5432 and an unset
    DB_SSLMODE the same as DB_SSLMODE=require: InitDB cannot tell them
    apart. *)
Theorem InitDB_defaults getenv d :
  (getenv "DB_PORT" = "" →
   InitDB getenv d = InitDB (setenv "DB_PORT" "5432" getenv) d) ∧
  (getenv "DB_SSLMODE" = "" →
   InitDB getenv d = InitDB (setenv "DB_SSLMODE" "require" getenv) d).
Proof.
  split; intros Hunset; unfold InitDB, setenv; simpl; by rewrite Hunset.
Qed.

Lemma InitDB_defaults_witness :
  let getenv := setenv "DB_HOST" "db.example.com"
                  (setenv "DB_USER" "app"
                     (setenv "DB_PASSWORD" "pw"
                        (setenv "DB_NAME" "inventory" (λ _, "")))) in
  let d := mkDriver
             (λ dsn, if String.eqb dsn
                          "host=db.example.com user=app password=pw dbname=inventory port=5432 sslmode=require TimeZone=UTC"
                     then Ok 1%N else Err (Opaque "unknown host"))
             (λ _, Ok 2%N) (λ _, None) (λ _ _, None) (λ _, None) (λ _, None) in
  getenv "DB_PORT" = "" ∧
  InitDB getenv d = InitDB (setenv "DB_PORT" "5432" getenv) d ∧
  (InitDB getenv d).2 = Ok 1%N.
Proof.
  intros getenv d. split; [reflexivity |].
  split; [exact (proj1 (InitDB_defaults getenv d) eq_refl) |].
  vm_compute. reflexivity.
Defined.

(** X24. InitDB fails with "missing required database environment
    variables", before it logs anything or contacts the database, exactly
    when DB_HOST, DB_USER, DB_PASSWORD or DB_NAME is unset or empty. It
    returns a connection only after the connection has answered a ping, and
    has then limited the pool to 10 idle and 100 open connections. *)
Theorem InitDB_result getenv d :
  (InitDB getenv d
   = (mkEffects [] None None,
      Err (New "missing required database environment variables")) ↔
   getenv "DB_HOST" = "" ∨ getenv "DB_USER" = "" ∨
   getenv "DB_PASSWORD" = "" ∨ getenv "DB_NAME" = "") ∧
  ((getenv "DB_HOST" = "" ∨ getenv "DB_USER" = "" ∨
    getenv "DB_PASSWORD" = "" ∨ getenv "DB_NAME" = "") →
   ∀ d', InitDB getenv d' = InitDB getenv d) ∧
  (∀ e db, InitDB getenv d = (e, Ok db) →
     (∃ sqlDB, DB d db = Ok sqlDB ∧ Ping d sqlDB = None) ∧
     MaxIdleConns e = Some 10 ∧ MaxOpenConns e = Some 100).
Proof.
  unfold InitDB.
  destruct (String.eqb_spec (getenv "DB_HOST") "") as [Hh|Hh];
    [by split_and!; [split; auto | |] |].
  destruct (String.eqb_spec (getenv "DB_USER") "") as [Hu|Hu];
    [by split_and!; [split; auto | |] |].
  destruct (String.eqb_spec (getenv "DB_PASSWORD") "") as [Hp|Hp];
    [by split_and!; [split; auto | |] |].
  destruct (String.eqb_spec (getenv "DB_NAME") "") as [Hn|Hn];
    [by split_and!; [split; auto | |] |].
  simpl. split_and!.
  - split; [| intros [?|[?|[?|?]]]; done].
    destruct (Open d _) as [db|]; [| done].
    destruct (DB d db) as [sqlDB|]; [| done].
    by destruct (Ping d sqlDB).
  - intros [?|[?|[?|?]]]; done.
  - intros e db.
    destruct (Open d _) as [db'|]; [| done].
    destruct (DB d db') as [sqlDB|] eqn:Hdb; [| done].
    destruct (Ping d sqlDB) eqn:Hping; [done |].
    intros [= <- <-]. split; [by exists sqlDB | done].
Qed.

Lemma InitDB_result_witness :
  let getenv := setenv "DB_HOST" "db.example.com"
                  (setenv "DB_USER" "app"
                     (setenv "DB_NAME" "inventory" (λ _, ""))) in
  let d := mkDriver (λ _, Ok 1%N) (λ _, Ok 2%N) (λ _, None) (λ _ _, None)
             (λ _, None) (λ _, None) in
  getenv "DB_PASSWORD" = "" ∧
  InitDB getenv d
  = (mkEffects [] None None,
     Err (New "missing required database environment variables")).
Proof.
  intros getenv d. split; [reflexivity |].
  apply (proj1 (InitDB_result getenv d)). right. right. left. reflexivity.
Defined.

(** X25. CreateIndexes never returns an error: a statement that fails is
    only logged, and the statements after it are still executed. It logs
    one warning per failed statement between its first and its last line. *)
Theorem CreateIndexes_never_fails d (db : conn) :
  (CreateIndexes d db).2 = None ∧
  head (CreateIndexes d db).1 = Some "🔍 Creating database indexes..." ∧
  last (CreateIndexes d db).1 = Some "✅ Indexes created successfully" ∧
  length (CreateIndexes d db).1
  = (2 + length (filter (λ sql, is_Some (Exec d db sql))
                   [ "CREATE INDEX IF NOT EXISTS idx_products_category ON products(category)";
                     "CREATE INDEX IF NOT EXISTS idx_products_quantity ON products(quantity)";
                     "CREATE UNIQUE INDEX IF NOT EXISTS idx_users_email ON users(email)" ]))%nat.
Proof.
  unfold CreateIndexes, create_index. simpl.
  rewrite !filter_cons, filter_nil.
  destruct (Exec d db "CREATE INDEX IF NOT EXISTS idx_products_category ON products(category)");
    destruct (Exec d db "CREATE INDEX IF NOT EXISTS idx_products_quantity ON products(quantity)");
    destruct (Exec d db "CREATE UNIQUE INDEX IF NOT EXISTS idx_users_email ON users(email)");
    repeat case_decide;
    repeat match goal with
           | H : is_Some None |- _ => by destruct H
           | H : ¬ is_Some (Some _) |- _ => by destruct H
           end;
    by split_and!.
Qed.

End bootstrap.

